(** * PanelAppAusDB: incremental gene extraction

    A shallow embedding of [scripts/extract_genes_incremental.py] (version
    tracking, catalog loading, planning, the processing pass, the paginated
    gene download) and of the pagination loop of
    [scripts/extract_panel_list.py], with the properties of the version
    tracker and of the planner proved about the embedding.

    Conventions.
    - A Python [str] is a [string]; a character of the string is a code
      point in the range U+0000..U+00FF.
    - A Python exception is a value [Raise e] of [result]; [except Exception]
      catches every [exn].
    - Code that reads or writes files, or talks to the API, lives in the
      monad [M]: a function from the [world] to a [result] and the new
      [world].  An exception keeps the effects made before it was raised.
    - [log_message] only prints; its calls are left out.
    - The first definitions of the incremental script are those of a data
      folder whose directories can be searched and made and whose version
      files can be opened for writing.  [Faulty] has the same functions
      with the [OSError] of [exists], [mkdir] and [open(..., 'w')], which
      stand under no [try] of their functions. *)

From Stdlib Require Import ZArith Ascii String List Bool Lia.
From stdpp Require Import base gmap strings list.
From Equations Require Import Equations.
From stdpp Require Import pretty.

Open Scope string_scope.
Open Scope Z_scope.

(** ** Exceptions and results *)

Inductive exn : Type :=
  | ValueError
  | TypeError
  | AttributeError
  | OSError
  | RequestException.

Inductive result (A : Type) : Type :=
  | Ok (a : A)
  | Raise (e : exn).
Arguments Ok {A} a.
Arguments Raise {A} e.

Definition result_bind {A B} (r : result A) (k : A → result B) : result B :=
  match r with
  | Ok a => k a
  | Raise e => Raise e
  end.

Declare Scope py_scope.
Delimit Scope py_scope with py.
Notation "'do' pat <- e ;; k" :=
  (result_bind e (λ x, match x with pat => k end))
  (at level 10, pat pattern, e at level 99, k at level 200, only parsing)
  : py_scope.

(** ** Strings *)

Module Str.

Definition code (c : ascii) : Z := Z.of_N (N_of_ascii c).

(** [str.isspace] on one character, for code points below U+0100. *)
Definition isspace (c : ascii) : bool :=
  ((9 <=? code c) && (code c <=? 13))
  || ((28 <=? code c) && (code c <=? 32))
  || (code c =? 133) || (code c =? 160).

(** The ten ASCII digits, the only digits an ISO-8601 field may hold. *)
Definition is_ascii_digit (c : ascii) : bool :=
  (48 <=? code c) && (code c <=? 57).

(** [str.isdigit] on one character: the ASCII digits and the superscript
    digits U+00B2, U+00B3 and U+00B9. *)
Definition isdigit_char (c : ascii) : bool :=
  is_ascii_digit c || (code c =? 178) || (code c =? 179) || (code c =? 185).

Definition is_empty (s : string) : bool :=
  match s with
  | EmptyString => true
  | String _ _ => false
  end.

Fixpoint all_chars (f : ascii → bool) (s : string) : bool :=
  match s with
  | EmptyString => true
  | String c s' => f c && all_chars f s'
  end.

(** [s.isdigit()]: false on the empty string. *)
Definition isdigit (s : string) : bool :=
  negb (is_empty s) && all_chars isdigit_char s.

Fixpoint lstrip (s : string) : string :=
  match s with
  | EmptyString => EmptyString
  | String c s' => if isspace c then lstrip s' else s
  end.

Fixpoint rstrip (s : string) : string :=
  match s with
  | EmptyString => EmptyString
  | String c s' =>
      let r := rstrip s' in
      if isspace c && is_empty r then EmptyString else String c r
  end.

(** [s.strip()] *)
Definition strip (s : string) : string := rstrip (lstrip s).

(** [s.replace(old, new)] for a one-character [old]. *)
Fixpoint replace (old : ascii) (new : string) (s : string) : string :=
  match s with
  | EmptyString => EmptyString
  | String c s' =>
      if Ascii.eqb c old then new +:+ replace old new s'
      else String c (replace old new s')
  end.

(** [s.find(c)] for a one-character [c]: [None] stands for -1. *)
Fixpoint find (c : ascii) (s : string) : option nat :=
  match s with
  | EmptyString => None
  | String c' s' =>
      if Ascii.eqb c' c then Some 0%nat else S <$> find c s'
  end.

(** [s[n:]] *)
Fixpoint drop (n : nat) (s : string) : string :=
  match n, s with
  | O, _ => s
  | S _, EmptyString => EmptyString
  | S n', String _ s' => drop n' s'
  end.

(** [s[:n]] *)
Fixpoint take (n : nat) (s : string) : string :=
  match n, s with
  | O, _ => EmptyString
  | S _, EmptyString => EmptyString
  | S n', String c s' => String c (take n' s')
  end.

(** What a text file opened for reading with the default [newline=None]
    hands back: every "\r\n" and every lone "\r" has become "\n". *)
Fixpoint universal_newlines (s : string) : string :=
  match s with
  | EmptyString => EmptyString
  | String c s' =>
      if Ascii.eqb c "013" then
        match s' with
        | String c' _ =>
            if Ascii.eqb c' "010" then universal_newlines s'
            else String "010" (universal_newlines s')
        | EmptyString => String "010" EmptyString
        end
      else String c (universal_newlines s')
  end.

Fixpoint digits_value (s : string) (acc : Z) : option Z :=
  match s with
  | EmptyString => Some acc
  | String c s' =>
      if is_ascii_digit c then digits_value s' (10 * acc + (code c - 48))
      else None
  end.

(** A field of exactly [n] ASCII digits, read as a decimal number. *)
Definition parse_digits (n : nat) (s : string) : result Z :=
  if (String.length s =? n)%nat then
    match digits_value s 0 with
    | Some z => Ok z
    | None => Raise ValueError
    end
  else Raise ValueError.

End Str.

(** ** [datetime]

    [datetime.fromisoformat] and the comparison of two [datetime] values
    belong to Python's standard library.  They are modelled here on the
    reference implementation [Lib/datetime.py], for the grammar
    [YYYY-MM-DD[*HH[:MM[:SS[.fff[fff]]]][+HH:MM[:SS[.ffffff]]]]] that
    [fromisoformat] documents, where [*] is any one character and a
    numeric field is made of ASCII digits only. *)

Module Datetime.

(** [tzinfo] is [None] for a naive value, and the UTC offset in
    microseconds for an aware one. *)
Record datetime : Type := mk_datetime {
  year : Z;
  month : Z;
  day : Z;
  hour : Z;
  minute : Z;
  second : Z;
  microsecond : Z;
  tzinfo : option Z
}.

Definition _is_leap (y : Z) : bool :=
  (y mod 4 =? 0) && (negb (y mod 100 =? 0) || (y mod 400 =? 0)).

Definition _DAYS_IN_MONTH : list Z :=
  [31; 28; 31; 30; 31; 30; 31; 31; 30; 31; 30; 31].

Definition _DAYS_BEFORE_MONTH : list Z :=
  [0; 31; 59; 90; 120; 151; 181; 212; 243; 273; 304; 334].

Definition _days_in_month (y m : Z) : Z :=
  if (m =? 2) && _is_leap y then 29
  else nth (Z.to_nat (m - 1)) _DAYS_IN_MONTH 0.

Definition _days_before_year (y : Z) : Z :=
  let y' := y - 1 in
  y' * 365 + y' / 4 - y' / 100 + y' / 400.

Definition _days_before_month (y m : Z) : Z :=
  nth (Z.to_nat (m - 1)) _DAYS_BEFORE_MONTH 0
  + (if (2 <? m) && _is_leap y then 1 else 0).

Definition _ymd2ord (y m d : Z) : Z :=
  _days_before_year y + _days_before_month y m + d.

Definition _check_date_fields (y m d : Z) : bool :=
  (1 <=? y) && (y <=? 9999) && (1 <=? m) && (m <=? 12)
  && (1 <=? d) && (d <=? _days_in_month y m).

Definition _check_time_fields (hh mm ss us : Z) : bool :=
  (0 <=? hh) && (hh <=? 23) && (0 <=? mm) && (mm <=? 59)
  && (0 <=? ss) && (ss <=? 59) && (0 <=? us) && (us <=? 999999).

(** The constructor: [ValueError] on a field out of range. *)
Definition datetime_new (y m d hh mm ss us : Z) (tz : option Z)
  : result datetime :=
  if _check_date_fields y m d && _check_time_fields hh mm ss us
  then Ok (mk_datetime y m d hh mm ss us tz)
  else Raise ValueError.

Definition day_micros : Z := 86400 * 1000000.

(** [timezone(offset)]: the offset is strictly between -24h and 24h. *)
Definition timezone (offset : Z) : result Z :=
  if (- day_micros <? offset) && (offset <? day_micros) then Ok offset
  else Raise ValueError.

Definition _parse_isoformat_date (dtstr : string) : result (Z * Z * Z) :=
  (do y <- Str.parse_digits 4 (Str.take 4 dtstr) ;;
   if negb (String.eqb (Str.take 1 (Str.drop 4 dtstr)) "-")
   then Raise ValueError else
   do m <- Str.parse_digits 2 (Str.take 2 (Str.drop 5 dtstr)) ;;
   if negb (String.eqb (Str.take 1 (Str.drop 7 dtstr)) "-")
   then Raise ValueError else
   do d <- Str.parse_digits 2 (Str.drop 8 dtstr) ;;
   Ok (y, m, d))%py.

(** The fraction after the seconds: nothing, or [.fff], or [.ffffff]. *)
Definition _parse_fraction (rest : string) : result Z :=
  match rest with
  | EmptyString => Ok 0
  | String c frac =>
      if negb (Ascii.eqb c ".") then Raise ValueError
      else if (String.length frac =? 3)%nat then
        (do us <- Str.parse_digits 3 frac ;; Ok (us * 1000))%py
      else if (String.length frac =? 6)%nat then
        Str.parse_digits 6 frac
      else Raise ValueError
  end.

(** [HH[:MM[:SS[.fff[fff]]]]], the loop over the three components
    unrolled. *)
Definition _parse_hh_mm_ss_ff (tstr : string) : result (Z * Z * Z * Z) :=
  (do hh <- Str.parse_digits 2 (Str.take 2 tstr) ;;
   match Str.drop 2 tstr with
   | EmptyString => Ok (hh, 0, 0, 0)
   | String c1 r1 =>
       if negb (Ascii.eqb c1 ":") then Raise ValueError else
       do mm <- Str.parse_digits 2 (Str.take 2 r1) ;;
       match Str.drop 2 r1 with
       | EmptyString => Ok (hh, mm, 0, 0)
       | String c2 r2 =>
           if negb (Ascii.eqb c2 ":") then Raise ValueError else
           do ss <- Str.parse_digits 2 (Str.take 2 r2) ;;
           do us <- _parse_fraction (Str.drop 2 r2) ;;
           Ok (hh, mm, ss, us)
       end
   end)%py.

(** Position of the sign that starts the offset: the first "-" if there
    is one, else the first "+". *)
Definition tz_pos (tstr : string) : option nat :=
  match Str.find "-" tstr with
  | Some i => Some i
  | None => Str.find "+" tstr
  end.

Definition _parse_isoformat_time (tstr : string)
  : result (Z * Z * Z * Z * option Z) :=
  (if (String.length tstr <? 2)%nat then Raise ValueError else
   match tz_pos tstr with
   | None =>
       do (hh, mm, ss, us) <- _parse_hh_mm_ss_ff tstr ;;
       Ok (hh, mm, ss, us, None)
   | Some i =>
       do (hh, mm, ss, us) <- _parse_hh_mm_ss_ff (Str.take i tstr) ;;
       let tzstr := Str.drop (S i) tstr in
       let n := String.length tzstr in
       if negb ((n =? 5) || (n =? 8) || (n =? 15))%nat
       then Raise ValueError else
       do (th, tm, ts, tu) <- _parse_hh_mm_ss_ff tzstr ;;
       if (th =? 0) && (tm =? 0) && (ts =? 0) && (tu =? 0)
       then Ok (hh, mm, ss, us, Some 0)
       else
         let tzsign :=
           if String.eqb (Str.take 1 (Str.drop i tstr)) "-" then -1 else 1 in
         do off <- timezone
                  (tzsign * (th * 3600000000 + tm * 60000000
                             + ts * 1000000 + tu)) ;;
         Ok (hh, mm, ss, us, Some off)
   end)%py.

Definition fromisoformat (date_string : string) : result datetime :=
  (let dstr := Str.take 10 date_string in
   let tstr := Str.drop 11 date_string in
   do (y, m, d) <- _parse_isoformat_date dstr ;;
   do (hh, mm, ss, us, tz) <-
      (if Str.is_empty tstr then Ok (0, 0, 0, 0, None)
       else _parse_isoformat_time tstr) ;;
   datetime_new y m d hh mm ss us tz)%py.

(** Lexicographic comparison of two tuples of integers. *)
Fixpoint tuple_compare (xs ys : list Z) : comparison :=
  match xs, ys with
  | [], [] => Eq
  | [], _ :: _ => Lt
  | _ :: _, [] => Gt
  | x :: xs', y :: ys' =>
      match x ?= y with
      | Eq => tuple_compare xs' ys'
      | c => c
      end
  end.

Definition fields (d : datetime) : list Z :=
  [year d; month d; day d; hour d; minute d; second d; microsecond d].

(** Microseconds from the start of day 0 to the wall-clock reading. *)
Definition local_micros (d : datetime) : Z :=
  _ymd2ord (year d) (month d) (day d) * day_micros
  + (hour d * 3600 + minute d * 60 + second d) * 1000000
  + microsecond d.

(** [a - b] as a number of microseconds, for two aware values. *)
Definition sub_aware (a b : datetime) (aoff boff : Z) : Z :=
  local_micros a - local_micros b + boff - aoff.

(** [datetime._cmp]: equal [tzinfo] compares the fields; a naive value
    against an aware one raises [TypeError]; two aware values with
    different offsets compare by the sign of their difference. *)
Definition _cmp (a b : datetime) : result comparison :=
  match tzinfo a, tzinfo b with
  | None, None => Ok (tuple_compare (fields a) (fields b))
  | Some aoff, Some boff =>
      if aoff =? boff then Ok (tuple_compare (fields a) (fields b))
      else Ok (sub_aware a b aoff boff ?= 0)
  | _, _ => Raise TypeError
  end.

(** [a > b] *)
Definition gt (a b : datetime) : result bool :=
  (do c <- _cmp a b ;;
   Ok match c with Gt => true | _ => false end)%py.

(** The instant a value denotes, in microseconds, a naive value being
    read as UTC. *)
Definition utc_micros (d : datetime) : Z :=
  local_micros d - match tzinfo d with Some offset => offset | None => 0 end.

Definition is_aware (d : datetime) : bool :=
  match tzinfo d with Some _ => true | None => false end.

(** The fields are in the ranges the constructor checks. *)
Definition valid (d : datetime) : Prop :=
  _check_date_fields (year d) (month d) (day d) = true
  ∧ _check_time_fields (hour d) (minute d) (second d) (microsecond d)
    = true.

End Datetime.

Import Datetime.

(** ** The world: the data folder and the API *)

(** A file that exists either yields its text, or raises when it is opened
    or read ([PermissionError], an I/O error, bytes that are not UTF-8). *)
Inductive file : Type :=
  | Unreadable
  | Content (s : string).

(** A row as [csv.DictReader] yields it: a field of the header maps to a
    string, or to [None] when the row is too short to have it. *)
Abbreviation csv_row := (gmap string (option string)).

(** The entry of the catalog that the scripts pass around as a [dict]. *)
Module Panel.
Record t : Type := mk {
  id : string;
  name : string;
  version : string;
  version_created : string
}.
End Panel.

(** A JSON value as far as the loops look at it. *)
Inductive pyval : Type :=
  | PyNone
  | PyStr (s : string)
  | PyOther (truthy : bool).

(** The body of a page of the API: of [count], [next] and [results] only
    [next] steers the code. *)
Record page : Type := mk_page { next : pyval }.

(** [version_files] maps a panel id to its
    [panels/<id>/version_created.txt]; [panel_list] is [panel_list.tsv]:
    absent, or failing while it is read, or the rows it holds; [requests]
    lists the URLs fetched so far, oldest first. *)
Record world : Type := mk_world {
  version_files : gmap string file;
  panel_list : option (result (list csv_row));
  requests : list string
}.

Definition M (A : Type) : Type := world → result A * world.

Definition ret {A} (a : A) : M A := λ w, (Ok a, w).

Definition bind {A B} (m : M A) (k : A → M B) : M B :=
  λ w, match m w with
       | (Ok a, w') => k a w'
       | (Raise e, w') => (Raise e, w')
       end.

Definition lift {A} (r : result A) : M A := λ w, (r, w).

(** [try: body except Exception as e: handler e] *)
Definition try_except {A} (body : M A) (handler : exn → M A) : M A :=
  λ w, match body w with
       | (Ok a, w') => (Ok a, w')
       | (Raise e, w') => handler e w'
       end.

Declare Scope io_scope.
Delimit Scope io_scope with io.
Notation "'do' pat <- e ;; k" :=
  (bind e (λ x, match x with pat => k end))
  (at level 10, pat pattern, e at level 99, k at level 200, only parsing)
  : io_scope.

(** [version_file.exists()] on a path that can be looked up;
    [Faulty.version_file_exists] is the call with its [OSError]. *)
Definition version_file_exists (panel_id : string) : M bool :=
  λ w, (Ok (bool_decide (is_Some (version_files w !! panel_id))), w).

(** [open(version_file, 'r', encoding='utf-8')] and [f.read()] *)
Definition read_version_file (panel_id : string) : M string :=
  λ w, match version_files w !! panel_id with
       | Some (Content s) => (Ok (Str.universal_newlines s), w)
       | Some Unreadable => (Raise OSError, w)
       | None => (Raise OSError, w)
       end.

(** [open(version_file, 'w', encoding='utf-8')] and [f.write(s)], the
    file being writable and the line separator being "\n";
    [Faulty.write_version_file] is the writing with its failures. *)
Definition write_version_file (panel_id : string) (s : string) : M unit :=
  λ w, (Ok tt,
        mk_world (<[panel_id := Content s]> (version_files w))
                 (panel_list w) (requests w)).

(** ** scripts/extract_genes_incremental.py *)

Definition BASE_URL : string := "https://panelapp-aus.org/api".
Definition API_VERSION : string := "v1".

(** Creating the directory of the panel, which holds nothing the code
    reads back, is left out: it is taken to return, as is the writing.
    [Faulty.update_panel_version_tracking] has their failures. *)
Definition update_panel_version_tracking (panel : Panel.t) : M unit :=
  let panel_id := Panel.id panel in
  let version_created := Panel.version_created panel in
  write_version_file panel_id version_created.

(** [row.get(key, default)] *)
Definition row_get (row : csv_row) (key default : string) : option string :=
  match row !! key with
  | Some v => v
  | None => Some default
  end.

(** [v.strip()], which raises [AttributeError] when [v] is [None]. *)
Definition py_strip (v : option string) : result string :=
  match v with
  | Some s => Ok (Str.strip s)
  | None => Raise AttributeError
  end.

(** The body of the inner [try] of [read_panel_data]: the panel the row
    adds to [panels], if any. *)
Definition read_row (row : csv_row) : result (option Panel.t) :=
  (do panel_id <- py_strip (row_get row "id" "") ;;
   if negb (Str.is_empty panel_id) && Str.isdigit panel_id then
     do name <- py_strip (row_get row "name" "Unknown") ;;
     do version <- py_strip (row_get row "version" "Unknown") ;;
     do version_created <- py_strip (row_get row "version_created" "") ;;
     Ok (Some (Panel.mk panel_id name version version_created))
   else Ok None)%py.

(** The [for row_num, row in enumerate(reader, start=2)] loop: a row whose
    body raises is skipped. *)
Fixpoint read_rows (rows : list csv_row) : list Panel.t :=
  match rows with
  | [] => []
  | row :: rest =>
      match read_row row with
      | Ok (Some panel) => panel :: read_rows rest
      | Ok None => read_rows rest
      | Raise _ => read_rows rest
      end
  end.

(** [tsv_file.exists()] in a data folder that can be searched;
    [Faulty.panel_list_exists] is the call with its [OSError]. *)
Definition panel_list_exists : M bool :=
  λ w, (Ok (bool_decide (is_Some (panel_list w))), w).

(** Opening [panel_list.tsv] and reading all its rows. *)
Definition read_panel_list : M (list csv_row) :=
  λ w, match panel_list w with
       | Some r => (r, w)
       | None => (Raise OSError, w)
       end.

Definition read_panel_data : M (list Panel.t) :=
  (do found <- panel_list_exists ;;
   if negb found then ret [] else
   try_except
     (do rows <- read_panel_list ;;
      ret (read_rows rows))
     (λ _, ret []))%io.

Definition panel_needs_update (panel : Panel.t) (force : bool) : M bool :=
  (if force then ret true else
   let panel_id := Panel.id panel in
   let current_version_created := Panel.version_created panel in
   do found <- version_file_exists panel_id ;;
   if negb found then ret true else
   try_except
     (do content <- read_version_file panel_id ;;
      let last_version_created := Str.strip content in
      if Str.is_empty last_version_created then ret true else
      do current_date <-
        lift (fromisoformat
                (Str.replace "Z" "+00:00" current_version_created)) ;;
      do last_date <-
        lift (fromisoformat
                (Str.replace "Z" "+00:00" last_version_created)) ;;
      do later <- lift (gt current_date last_date) ;;
      if later then ret true else ret false)
     (λ _, ret true))%io.

(** The filter of [main]: the list of every [panel] in [panels] for which
    [panel_needs_update(panel, data_folder, args.force)] holds. *)
Fixpoint panels_to_update (panels : list Panel.t) (force : bool)
  : M (list Panel.t) :=
  match panels with
  | [] => ret []
  | panel :: rest =>
      (do keep <- panel_needs_update panel force ;;
       do kept <- panels_to_update rest force ;;
       ret (if keep then panel :: kept else kept))%io
  end.

(** What [download_panel_genes] returns, without the extraction date. *)
Inductive download_result : Type :=
  | Downloaded (panel_id version_created : string) (pages_downloaded : nat)
  | Failed (panel_id : string) (error : exn).

Definition success (r : download_result) : bool :=
  match r with
  | Downloaded _ _ _ => true
  | Failed _ _ => false
  end.

(** [while next_url and next_url != "null"] *)
Definition loop_cond (next_url : pyval) : bool :=
  match next_url with
  | PyNone => false
  | PyStr s => negb (Str.is_empty s) && negb (String.eqb s "null")
  | PyOther truthy => truthy
  end.

Section Api.

(** The API: what the [n]-th request of the run, to [url], is answered.
    [Raise] stands for any exception while the page is fetched, decoded
    and saved. *)
Variable api : nat → string → result page.

(** [requests.get(next_url, timeout=30)], [raise_for_status], [json()]
    and the dump of the page to its file. *)
Definition fetch_page (next_url : pyval) : M page :=
  λ w, match next_url with
       | PyStr url =>
           (api (length (requests w)) url,
            mk_world (version_files w) (panel_list w) (requests w ++ [url]))
       | _ => (Raise RequestException, w)
       end.

(** The pagination loop, which the three downloads share but for the
    safety limit: 100 in both [download_panel_genes], 1000 in
    [download_panels].  It starts from the state of [page] and [next_url]
    at the loop head and returns [page] at the loop exit. *)
Equations? page_loop (limit page : nat) (next_url : pyval) (w : world)
  : result nat * world by wf (S limit - page)%nat lt :=
  page_loop limit page next_url w with loop_cond next_url := {
    | false => (Ok page, w)
    | true with fetch_page next_url w := {
        | (Raise e, w') => (Raise e, w')
        | (Ok data, w') with le_lt_dec (page + 1) limit := {
            | left _ => page_loop limit (page + 1) (next data) w'
            | right _ => (Ok (page + 1)%nat, w') } } }.
Proof. lia. Qed.

(** Creating the directory for the pages, ahead of the [try], is left
    out: it is taken to return.  [Faulty.download_panel_genes] has its
    failure. *)
Definition download_panel_genes (panel : Panel.t) : M download_result :=
  let panel_id := Panel.id panel in
  let gene_url :=
    BASE_URL +:+ "/" +:+ API_VERSION +:+ "/panels/" +:+ panel_id
    +:+ "/genes/" in
  try_except
    (do page <- page_loop 100 1 (PyStr gene_url) ;;
     ret (Downloaded panel_id (Panel.version_created panel) (page - 1)))%io
    (λ e, ret (Failed panel_id e)).

(** One turn of the [for panel in panels_to_update] loop of [main]. *)
Definition process_panel (panel : Panel.t) (counts : nat * nat)
  : M (nat * nat) :=
  (let '(successful, failed) := counts in
   do result <- download_panel_genes panel ;;
   if success result then
     do _ <- update_panel_version_tracking panel ;;
     ret (S successful, failed)
   else ret (successful, S failed))%io.

Fixpoint process_panels (panels : list Panel.t) (counts : nat * nat)
  : M (nat * nat) :=
  match panels with
  | [] => ret counts
  | panel :: rest =>
      (do counts' <- process_panel panel counts ;;
       process_panels rest counts')%io
  end.

(** The turns of the loop as they are taken: each panel with the world
    its download starts from. *)
Fixpoint attempts (panels : list Panel.t) (counts : nat * nat) (w : world)
  : list (Panel.t * world) :=
  match panels with
  | [] => []
  | panel :: rest =>
      (panel, w)
      :: match process_panel panel counts w with
         | (Ok counts', w') => attempts rest counts' w'
         | (Raise _, _) => []
         end
  end.

(** [result['success']] of the download of [panel] started in [w]. *)
Definition refresh_succeeds (panel : Panel.t) (w : world) : bool :=
  match fst (download_panel_genes panel w) with
  | Ok result => success result
  | Raise _ => false
  end.

(** [main] from the point where the data folder is known to exist; the
    value is the exit status. *)
Definition main (force : bool) : M Z :=
  try_except
    (do panels <- read_panel_data ;;
     if bool_decide (panels = []) then ret 1 else
     do to_update <- panels_to_update panels force ;;
     if bool_decide (to_update = []) then ret 0 else
     do _ <- process_panels to_update (0%nat, 0%nat) ;;
     ret 0)%io
    (λ _, ret 1).

(** ** scripts/extract_panel_list.py *)

(** [PanelAppExtractor.download_panels]: an exception is logged and
    raised again. *)
Definition download_panels : M unit :=
  let panel_url := BASE_URL +:+ "/" +:+ API_VERSION +:+ "/panels/" in
  try_except
    (do _ <- page_loop 1000 1 (PyStr panel_url) ;;
     ret tt)%io
    (λ e, lift (Raise e)).

(** ** scripts/extract_genes.py *)

(** [PanelGeneExtractor.download_panel_genes]: true when every page came
    in, false on any exception of its [try]; the [mkdir] ahead of the
    [try] is taken to return, [Faulty.extractor_download_panel_genes]
    has its failure. *)
Definition extractor_download_panel_genes (panel_id : string) : M bool :=
  let gene_url :=
    BASE_URL +:+ "/" +:+ API_VERSION +:+ "/panels/" +:+ panel_id
    +:+ "/genes/" in
  try_except
    (do _ <- page_loop 100 1 (PyStr gene_url) ;;
     ret true)%io
    (λ _, ret false).

End Api.

(** The stored marker as lines 128-138 of [panel_needs_update] read it:
    the text of the version file, stripped; [None] when there is no file,
    when reading it raises, or when the text is blank. *)
Definition read_marker (panel_id : string) : M (option string) :=
  (do found <- version_file_exists panel_id ;;
   if negb found then ret None else
   try_except
     (do content <- read_version_file panel_id ;;
      let last_version_created := Str.strip content in
      if Str.is_empty last_version_created then ret None
      else ret (Some last_version_created))
     (λ _, ret None))%io.

(** The [try] body of [panel_needs_update] as a function of the incoming
    marker and of the stored one (read and stripped): what the check
    answers when the version file could be read. *)
Definition compare_markers (current_version_created last_version_created
  : string) : bool :=
  if Str.is_empty last_version_created then true else
  match
    (do current_date <-
       fromisoformat (Str.replace "Z" "+00:00" current_version_created) ;;
     do last_date <-
       fromisoformat (Str.replace "Z" "+00:00" last_version_created) ;;
     gt current_date last_date)%py
  with
  | Ok later => later
  | Raise _ => true
  end.


(** [isStale] of the specification: the answer of the check when nothing
    is forced. *)
Definition is_stale (panel : Panel.t) (w : world) : bool :=
  match fst (panel_needs_update panel false w) with
  | Ok stale => stale
  | Raise _ => false
  end.

(** A data folder that holds nothing but the version file of one panel. *)
Definition one_marker (panel_id content : string) : world :=
  mk_world {[ panel_id := Content content ]} None [].

Definition panel_137 (version_created : string) : Panel.t :=
  Panel.mk "137" "Mendeliome" "1.0" version_created.

(** What a reader makes of a stripped text: nothing when it is empty. *)
Definition nonblank (s : string) : option string :=
  if Str.is_empty s then None else Some s.

Definition not_cr (c : ascii) : bool := negb (Ascii.eqb c "013").

(** The rows that make it into the catalog, in the words of the loader:
    the id is a string that, stripped, passes [isdigit], and none of name,
    version and version_created is [None]; the panel holds the four fields
    stripped. *)
Definition accepted_row (row : csv_row) : option Panel.t :=
  match row_get row "id" "", row_get row "name" "Unknown",
        row_get row "version" "Unknown", row_get row "version_created" ""
  with
  | Some id, Some name, Some version, Some version_created =>
      if Str.isdigit (Str.strip id)
      then Some (Panel.mk (Str.strip id) (Str.strip name)
                   (Str.strip version) (Str.strip version_created))
      else None
  | _, _, _, _ => None
  end.

(** A full row of [panel_list.tsv], and a row cut short after the name. *)
Definition full_row : csv_row :=
  {[ "id" := Some " 137 "; "name" := Some "Mendeliome";
     "version" := Some "1.0";
     "version_created" := Some "2024-03-01T00:00:00Z" ]}.

Definition short_row : csv_row :=
  {[ "id" := Some "137"; "name" := Some "Mendeliome";
     "version" := None; "version_created" := None ]}.

Definition catalog_of (rows : list csv_row) : world :=
  mk_world ∅ (Some (Ok rows)) [].

(** Three APIs: one that hands out a next link on every page, one whose
    first page is the last, and one that fails panel 137 only. *)
Definition endless_api : nat → string → result page :=
  λ _ url, Ok (mk_page (PyStr url)).

Definition one_page_api : nat → string → result page :=
  λ _ _, Ok (mk_page PyNone).

Definition api_without_137 : nat → string → result page :=
  λ _ url,
    if String.eqb url "https://panelapp-aus.org/api/v1/panels/137/genes/"
    then Raise RequestException
    else Ok (mk_page PyNone).

Definition panel_of (panel_id version_created : string) : Panel.t :=
  Panel.mk panel_id "Panel" "1.0" version_created.

(** What a run of API code may do to the world: append at most [bound]
    requests, and nothing else. *)
Definition extends (bound : nat) (w w' : world) : Prop :=
  version_files w' = version_files w
  ∧ panel_list w' = panel_list w
  ∧ ∃ urls : list string,
      requests w' = (requests w ++ urls)%list ∧ (length urls ≤ bound)%nat.

(** The data folder after [update_panel_version_tracking]. *)
Definition commit (panel : Panel.t) (w : world) : world :=
  snd (update_panel_version_tracking panel w).

(** The URLs [rest] requested after [url], the [n]-th request, each being
    the next link of the page that answered the request before it. *)
Fixpoint is_chain (api : nat → string → result page) (n : nat)
  (url : string) (rest : list string) : Prop :=
  match rest with
  | [] => True
  | url' :: rest' =>
      (∃ data, api n url = Ok data ∧ next data = PyStr url')
      ∧ is_chain api (S n) url' rest'
  end.

(** The URL of the first page of genes of a panel. *)
Definition gene_url (panel_id : string) : string :=
  BASE_URL +:+ "/" +:+ API_VERSION +:+ "/panels/" +:+ panel_id +:+ "/genes/".

(** An API of three pages of genes per panel. *)
Definition three_page_api : nat → string → result page :=
  λ _ url,
    if String.eqb url (gene_url "137") then Ok (mk_page (PyStr "page2"))
    else if String.eqb url "page2" then Ok (mk_page (PyStr "page3"))
    else Ok (mk_page PyNone).

(** ** scripts/extract_panel_list.py: the summary and the markers *)

(** A value as [json.load] builds it.  A float carries the text [str]
    gives for it; a dict carries its members, each key once, in the order
    they were put in. *)
#[local] Set Warnings "-register-all".
Inductive json : Type :=
  | JNull
  | JBool (b : bool)
  | JInt (z : Z)
  | JFloat (text : string)
  | JStr (s : string)
  | JList (items : list json)
  | JDict (members : list (string * json)).

(** The value of the last member called [key]. *)
Fixpoint member (members : list (string * json)) (key : string)
  : option json :=
  match members with
  | [] => None
  | (k, v) :: rest =>
      match member rest key with
      | Some v' => Some v'
      | None => if String.eqb k key then Some v else None
      end
  end.

(** [d.get(key, default)], an [AttributeError] when [d] is no dict. *)
Definition json_get (d : json) (key : string) (default : json)
  : result json :=
  match d with
  | JDict members =>
      Ok match member members key with
         | Some v => v
         | None => default
         end
  | _ => Raise AttributeError
  end.

(** The items a [for] loop over the value goes through: the items of a
    list, the keys of a dict, the characters of a string; a [TypeError]
    for a value that is not iterable. *)
Definition json_iter (v : json) : result (list json) :=
  match v with
  | JList items => Ok items
  | JDict members => Ok (map (λ kv, JStr (fst kv)) members)
  | JStr s =>
      Ok (map (λ c, JStr (String c EmptyString)) (list_ascii_of_string s))
  | _ => Raise TypeError
  end.

(** One entry of [panels_data]. *)
Record panel_info : Type := mk_panel_info {
  info_id : json;
  info_name : json;
  info_version : json;
  info_version_created : json;
  info_number_of_genes : json;
  info_number_of_strs : json;
  info_number_of_regions : json
}.

(** The output folder as [extract_panel_info] deals with it: the pages in
    [panel_list/json] in the order [glob] yields them, each as [json.load]
    returns it or raising; the version files by directory name; and
    [panel_list.tsv]. *)
Record listing : Type := mk_listing {
  page_files : list (result json);
  markers : gmap string file;
  summary : option string
}.

(** The text a version file holds once [extract_panel_info] is through
    with a panel: its [version_created] when that is a string; nothing
    otherwise, the file having been opened for writing, and so emptied,
    before [write] is given what is no string. *)
Definition marker_text (version_created : json) : string :=
  match version_created with
  | JStr s => s
  | _ => ""
  end.

Section PanelInfo.

(** [str] of a list or of a dict. *)
Variable container_str : json → string.

(** [str(v)], which is also how an f-string shows [v]. *)
Definition py_str (v : json) : string :=
  match v with
  | JNull => "None"
  | JBool true => "True"
  | JBool false => "False"
  | JInt z => pretty z
  | JFloat text => text
  | JStr s => s
  | JList _ => container_str v
  | JDict _ => container_str v
  end.

(** [stats] and the dict [panel_info] of one panel of a page. *)
Definition panel_entry (panel : json) : result panel_info :=
  (do stats <- json_get panel "stats" (JDict []) ;;
   do id <- json_get panel "id" JNull ;;
   do name <- json_get panel "name" (JStr "") ;;
   do version <- json_get panel "version" JNull ;;
   do version_created <- json_get panel "version_created" JNull ;;
   do genes <- json_get stats "number_of_genes" (JInt 0) ;;
   do strs <- json_get stats "number_of_strs" (JInt 0) ;;
   do regions <- json_get stats "number_of_regions" (JInt 0) ;;
   Ok (mk_panel_info id name version version_created genes strs regions))%py.

(** The body of [for panel in data.get('results', [])]: the entry is
    appended to [panels_data], then the version file of the panel is
    opened and written.  Creating the directory is left out. *)
Definition track_panel (panel : json)
  (st : list panel_info * gmap string file)
  : result unit * (list panel_info * gmap string file) :=
  let '(panels_data, files) := st in
  match panel_entry panel with
  | Raise e => (Raise e, st)
  | Ok info =>
      let panels_data' := (panels_data ++ [info])%list in
      let dir := py_str (info_id info) in
      match json_get panel "version_created" (JStr "") with
      | Ok (JStr s) => (Ok tt, (panels_data', <[dir := Content s]> files))
      | Ok _ => (Raise TypeError, (panels_data', <[dir := Content ""]> files))
      | Raise e => (Raise e, (panels_data', files))
      end
  end.

(** The loop over the panels of one page, left at the first exception. *)
Fixpoint track_panels (panels : list json)
  (st : list panel_info * gmap string file)
  : result unit * (list panel_info * gmap string file) :=
  match panels with
  | [] => (Ok tt, st)
  | panel :: rest =>
      match track_panel panel st with
      | (Ok _, st') => track_panels rest st'
      | (Raise e, st') => (Raise e, st')
      end
  end.

(** The body of [for json_file in json_dir.glob(...)]: whatever is raised
    while the page is loaded and gone through is logged, and the loop
    goes on with the next page. *)
Definition track_page (page_file : result json)
  (st : list panel_info * gmap string file)
  : list panel_info * gmap string file :=
  match
    (do data <- page_file ;;
     do results <- json_get data "results" (JList []) ;;
     json_iter results)%py
  with
  | Ok panels => snd (track_panels panels st)
  | Raise _ => st
  end.

Definition tsv_header : string :=
  "id" +:+ String "009" "name" +:+ String "009" "version"
  +:+ String "009" "version_created" +:+ String "009" "number_of_genes"
  +:+ String "009" "number_of_strs" +:+ String "009" "number_of_regions"
  +:+ String "010" "".

Definition tsv_line (info : panel_info) : string :=
  py_str (info_id info) +:+ String "009" (py_str (info_name info))
  +:+ String "009" (py_str (info_version info))
  +:+ String "009" (py_str (info_version_created info))
  +:+ String "009" (py_str (info_number_of_genes info))
  +:+ String "009" (py_str (info_number_of_strs info))
  +:+ String "009" (py_str (info_number_of_regions info))
  +:+ String "010" "".

(** The line of an entry without its line feed. *)
Definition line_body (info : panel_info) : string :=
  py_str (info_id info) +:+ String "009" (py_str (info_name info))
  +:+ String "009" (py_str (info_version info))
  +:+ String "009" (py_str (info_version_created info))
  +:+ String "009" (py_str (info_number_of_genes info))
  +:+ String "009" (py_str (info_number_of_strs info))
  +:+ String "009" (py_str (info_number_of_regions info)).

(** [PanelAppExtractor.extract_panel_info], the files being writable;
    the two counters, which are only logged, are left out. *)
Definition extract_panel_info (l : listing) : result unit * listing :=
  let '(panels_data, files) :=
    foldl (λ st page_file, track_page page_file st) ([], markers l)
      (page_files l) in
  (Ok tt,
   mk_listing (page_files l) files
     (Some (tsv_header +:+ String.concat "" (map tsv_line panels_data)))).

(** The entries [extract_panel_info] collects, in order. *)
Definition panels_listed (l : listing) : list panel_info :=
  fst (foldl (λ st page_file, track_page page_file st) ([], markers l)
         (page_files l)).

(** The version file of an entry, as it is left. *)
Definition record_marker (files : gmap string file) (info : panel_info)
  : gmap string file :=
  <[py_str (info_id info) := Content (marker_text (info_version_created info))]>
    files.

(** The panel has an entry and a string, or nothing, as its
    [version_created]: its turn of the loop raises nothing. *)
Definition tracked_cleanly (panel : json) : bool :=
  match panel_entry panel, json_get panel "version_created" (JStr "") with
  | Ok _, Ok (JStr _) => true
  | _, _ => false
  end.

(** The panels a page hands to the loop, none when loading the page or
    getting at its results raises. *)
Definition page_panels (page_file : result json) : list json :=
  match
    (do data <- page_file ;;
     do results <- json_get data "results" (JList []) ;;
     json_iter results)%py
  with
  | Ok panels => panels
  | Raise _ => []
  end.

(** The entries of the panels that have one. *)
Definition entries_of (panels : list json) : list panel_info :=
  omap (λ panel, match panel_entry panel with
                 | Ok info => Some info
                 | Raise _ => None
                 end) panels.

End PanelInfo.

(** [str] of a container, for runs that have none. *)
Definition no_container : json → string := λ _, "".

Definition panel_json (id : Z) (version_created : json) : json :=
  JDict [("id", JInt id); ("name", JStr "Mendeliome");
         ("version", JStr "1.0"); ("version_created", version_created);
         ("stats", JDict [("number_of_genes", JInt 12)])].

Definition page_json (panels : list json) : result json :=
  Ok (JDict [("count", JInt 2); ("next", JNull); ("results", JList panels)]).

(** ** scripts/extract_panels.py *)

(** How [subprocess.run] ends: with the exit status of the script, with
    [TimeoutExpired], or with another exception. *)
Inductive run_outcome : Type :=
  | Exited (returncode : Z)
  | TimedOut
  | RunFailed.

(** The command line as [argparse] hands it over. *)
Record wrapper_args : Type := mk_wrapper_args {
  output_path : string;
  skip_genes : bool;
  skip_strs : bool;
  skip_regions : bool;
  verbose : bool
}.

(** A script handed to [subprocess.run], with its arguments. *)
Abbreviation command := (string * list string)%type.

Section Wrapper.

(** The path of a script of the directory of the wrapper. *)
Variable script_path_of : string → string.

(** The machine: whether a path exists and how a script ends, both after
    the commands run so far. *)
Variable path_exists : list command → string → bool.
Variable subprocess_run : list command → command → run_outcome.

(** [run_script]: the state is the list of the commands run so far. *)
Definition run_script (script_path : string) (args : list string)
  (optional : bool) (ran : list command) : bool * list command :=
  if negb (path_exists ran script_path) then
    (if optional then true else false, ran)
  else
    let cmd := (script_path, args) in
    match subprocess_run ran cmd with
    | Exited returncode =>
        (if returncode =? 0 then true else false, (ran ++ [cmd])%list)
    | TimedOut => (false, (ran ++ [cmd])%list)
    | RunFailed => (false, (ran ++ [cmd])%list)
    end.

Definition with_verbose (args : wrapper_args) (script_args : list string)
  : list string :=
  if verbose args then (script_args ++ ["--verbose"])%list else script_args.

(** [main]: the exit status, 0 when it runs to its end, and the commands
    run. *)
Definition wrapper_main (args : wrapper_args) (ran : list command)
  : Z * list command :=
  let panel_list_script := script_path_of "extract_panel_list.py" in
  let panel_list_args :=
    with_verbose args ["--output-path"; output_path args] in
  let '(listed, ran) :=
    run_script panel_list_script panel_list_args false ran in
  if negb listed then (1, ran) else
  if negb (path_exists ran (output_path args)) then (1, ran) else
  let '(success, ran) :=
    if negb (skip_genes args) then
      let gene_script := script_path_of "extract_genes_incremental.py" in
      let gene_args := with_verbose args ["--data-path"; output_path args] in
      let '(done, ran) := run_script gene_script gene_args false ran in
      (if negb done then false else true, ran)
    else (true, ran) in
  let ran :=
    if negb (skip_strs args) then
      let str_script := script_path_of "extract_strs.py" in
      let str_args := with_verbose args ["--data-path"; output_path args] in
      snd (run_script str_script str_args true ran)
    else ran in
  let ran :=
    if negb (skip_regions args) then
      let region_script := script_path_of "extract_regions.py" in
      let region_args := with_verbose args ["--data-path"; output_path args] in
      snd (run_script region_script region_args true ran)
    else ran in
  (0, ran).

(** What one call of [run_script] adds to the commands run. *)
Definition step_of (script : string) (script_args : list string)
  (ran : list command) : list command :=
  if path_exists ran script then [(script, script_args)] else [].

(** Every command of [new] was there when its turn came, [ran] being
    the commands run before the first of them. *)
Fixpoint each_existed (ran new : list command) : bool :=
  match new with
  | [] => true
  | cmd :: rest =>
      path_exists ran (fst cmd) && each_existed (ran ++ [cmd])%list rest
  end.

(** The commands [main] may run, in the order it would run them. *)
Definition planned_commands (args : wrapper_args) : list command :=
  ((script_path_of "extract_panel_list.py",
    with_verbose args ["--output-path"; output_path args])
   :: (if skip_genes args then []
       else [(script_path_of "extract_genes_incremental.py",
              with_verbose args ["--data-path"; output_path args])])
   ++ (if skip_strs args then []
       else [(script_path_of "extract_strs.py",
              with_verbose args ["--data-path"; output_path args])])
   ++ (if skip_regions args then []
       else [(script_path_of "extract_regions.py",
              with_verbose args ["--data-path"; output_path args])]))%list.

(** The panel list script is there, exits with 0 and leaves the output
    path in place. *)
Definition panel_list_step_ok (args : wrapper_args) (ran : list command)
  : bool :=
  let cmd := (script_path_of "extract_panel_list.py",
              with_verbose args ["--output-path"; output_path args]) in
  path_exists ran (fst cmd)
  && match subprocess_run ran cmd with
     | Exited returncode => returncode =? 0
     | _ => false
     end
  && path_exists (ran ++ [cmd])%list (output_path args).

End Wrapper.

(** ** [find_latest_data_folder] of scripts/extract_genes_incremental.py *)

(** [sorted(..., key=lambda x: x.name, reverse=True)]: a stable sort by
    name, greatest first, on the entries of a directory given as name and
    [is_dir()]. *)
Fixpoint insert_by_name (x : string * bool) (l : list (string * bool))
  : list (string * bool) :=
  match l with
  | [] => [x]
  | y :: l' =>
      if String.leb (fst y) (fst x) then x :: l
      else y :: insert_by_name x l'
  end.

Definition sorted_by_name_reverse (l : list (string * bool))
  : list (string * bool) :=
  foldr insert_by_name [] l.

(** [d.is_dir() and d.name.isdigit() and len(d.name) == 8] *)
Definition is_date_folder (d : string * bool) : bool :=
  snd d && Str.isdigit (fst d) && (String.length (fst d) =? 8)%nat.

(** The name of the folder found under [data_path], whose entries are
    [entries], [None] for a path that does not exist; [today] is
    [datetime.now().strftime("%Y%m%d")]. *)
Definition find_latest_data_folder (entries : option (list (string * bool)))
  (today : string) : option string :=
  match entries with
  | None => None
  | Some entries =>
      let date_folders := List.filter is_date_folder entries in
      match date_folders with
      | [] =>
          if existsb (λ d, String.eqb (fst d) today) entries
          then Some today else None
      | _ :: _ =>
          match sorted_by_name_reverse date_folders with
          | latest_folder :: _ => Some (fst latest_folder)
          | [] => None
          end
      end
  end.

(** ** [read_panel_list] of scripts/extract_genes.py *)

(** [s.split(sep)] for a one-character [sep]. *)
Fixpoint split_on (sep : ascii) (s : string) : list string :=
  match s with
  | EmptyString => [EmptyString]
  | String c s' =>
      if Ascii.eqb c sep then EmptyString :: split_on sep s'
      else match split_on sep s' with
           | field :: fields => String c field :: fields
           | [] => [String c EmptyString]
           end
  end.

(** The lines a text file yields when it is iterated over, each with its
    line feed but maybe the last. *)
Fixpoint file_lines (text : string) : list string :=
  match text with
  | EmptyString => []
  | String c text' =>
      if Ascii.eqb c "010" then String c EmptyString :: file_lines text'
      else match file_lines text' with
           | line :: lines => String c line :: lines
           | [] => [String c EmptyString]
           end
  end.

(** The id a line of the panel list adds to [panel_ids], if any. *)
Definition line_panel_id (line : string) : option string :=
  match split_on "009" (Str.strip line) with
  | first :: _ => if Str.isdigit first then Some first else None
  | [] => None
  end.

(** [PanelGeneExtractor.read_panel_list]; [tsv] is [panel_list.tsv]:
    absent, or failing while it is read, or its text. *)
Definition extractor_read_panel_list (tsv : option (result string))
  : list string :=
  match tsv with
  | None => []
  | Some (Raise _) => []
  | Some (Ok text) =>
      match file_lines (Str.universal_newlines text) with
      | [] => []
      | _header :: lines => omap line_panel_id lines
      end
  end.

(** No line break in the text. *)
Definition no_break (c : ascii) : bool :=
  negb (Ascii.eqb c "010") && negb (Ascii.eqb c "013").

Definition one_line (s : string) : bool := Str.all_chars no_break s.

(** No field of the entry, as the summary shows it, has a line break. *)
Definition entry_on_one_line (container_str : json → string)
  (info : panel_info) : bool :=
  one_line (py_str container_str (info_id info))
  && one_line (py_str container_str (info_name info))
  && one_line (py_str container_str (info_version info))
  && one_line (py_str container_str (info_version_created info))
  && one_line (py_str container_str (info_number_of_genes info))
  && one_line (py_str container_str (info_number_of_strs info))
  && one_line (py_str container_str (info_number_of_regions info)).

(** A folder with one page of two panels, and the entries of the two. *)
Definition two_panel_listing : listing :=
  mk_listing
    [page_json [panel_json 137 (JStr "2024-03-01T00:00:00Z");
                panel_json 22 (JStr "2024-01-01T00:00:00Z")]]
    ∅ None.

Definition entry_of (id : Z) (version_created : json) : panel_info :=
  mk_panel_info (JInt id) (JStr "Mendeliome") (JStr "1.0") version_created
    (JInt 12) (JInt 0) (JInt 0).

(** ** scripts/extract_panel_list.py: a whole run *)

(** [bool(v)] *)
Definition json_truthy (v : json) : bool :=
  match v with
  | JNull => false
  | JBool b => b
  | JInt z => negb (z =? 0)
  | JFloat text => negb (String.eqb text "0.0" || String.eqb text "-0.0")
  | JStr s => negb (Str.is_empty s)
  | JList items => match items with [] => false | _ :: _ => true end
  | JDict members => match members with [] => false | _ :: _ => true end
  end.

(** [len(v)], a [TypeError] for a value without a length. *)
Definition json_len (v : json) : result nat :=
  match v with
  | JStr s => Ok (String.length s)
  | JList items => Ok (length items)
  | JDict members => Ok (length members)
  | _ => Raise TypeError
  end.

(** [while next_url and next_url != "null"] on what [data.get('next')]
    gave. *)
Definition json_loop_cond (next_url : json) : bool :=
  json_truthy next_url
  && match next_url with
     | JStr s => negb (String.eqb s "null")
     | _ => true
     end.

(** The output folder of the listing script: the files
    [panel_list/json/panels_page_<key>.json] by key, each holding what
    [json.load] makes of it; the version files; [panel_list.tsv]; and
    the URLs requested so far. *)
Record folder : Type := mk_folder {
  stored_pages : gmap string (result json);
  folder_markers : gmap string file;
  folder_summary : option string;
  sent : list string
}.

Definition swagger_url : string :=
  "https://panelapp-aus.org/api/docs/?format=openapi".

Section ListingRun.

(** The API at the level of the bodies: what the [n]-th request of the
    run, to [url], is answered once [raise_for_status] and
    [response.json()] are through. *)
Variable japi : nat → string → result json.

(** [str] of a list or of a dict. *)
Variable container_str : json → string.

(** The order in which [glob] yields the stored pages. *)
Variable glob : gmap string (result json) → list (result json).

(** [self.session.get(url, timeout=30)], [raise_for_status] and
    [response.json()]; a URL that is no string makes [get] raise. *)
Definition session_get (url : json) (st : folder) : result json * folder :=
  match url with
  | JStr u =>
      (japi (length (sent st)) u,
       mk_folder (stored_pages st) (folder_markers st) (folder_summary st)
         (sent st ++ [u]))
  | _ => (Raise RequestException, st)
  end.

(** [PanelAppExtractor.check_api_version]: every exception is raised
    again; a version other than the expected one is only logged. *)
Definition check_api_version (st : folder) : result unit * folder :=
  match session_get (JStr swagger_url) st with
  | (Raise e, st') => (Raise e, st')
  | (Ok swagger_data, st') =>
      ((do info <- json_get swagger_data "info" (JDict []) ;;
        do api_version <- json_get info "version" JNull ;;
        if negb (json_truthy api_version) then Raise ValueError
        else Ok tt)%py, st')
  end.

(** What one turn of the loop of [download_panels] does once the page
    is in: the page is saved, its file being writable, then [count],
    [next] and the length of [results] are taken from it. *)
Definition save_page (page : nat) (data : json) (st : folder)
  : result json * folder :=
  let st' :=
    mk_folder (<[pretty page := Ok data]> (stored_pages st))
      (folder_markers st) (folder_summary st) (sent st) in
  ((do _ <- json_get data "count" (JInt 0) ;;
    do next_url <- json_get data "next" JNull ;;
    do results <- json_get data "results" (JList []) ;;
    do _ <- json_len results ;;
    Ok next_url)%py, st').

(** The loop of [download_panels] with the bodies of the pages. *)
Equations? download_pages (page : nat) (next_url : json) (st : folder)
  : result nat * folder by wf (1001 - page)%nat lt :=
  download_pages page next_url st with json_loop_cond next_url := {
    | false => (Ok page, st)
    | true with session_get next_url st := {
        | (Raise e, st') => (Raise e, st')
        | (Ok data, st') with save_page page data st' := {
            | (Raise e, st'') => (Raise e, st'')
            | (Ok next_url', st'') with le_lt_dec (page + 1) 1000 := {
                | left _ => download_pages (page + 1) next_url' st''
                | right _ => (Ok (page + 1)%nat, st'') } } } }.
Proof. lia. Qed.

(** [PanelAppExtractor.download_panels] with the bodies of the pages. *)
Definition download_panels_to (st : folder) : result unit * folder :=
  let panel_url := BASE_URL +:+ "/" +:+ API_VERSION +:+ "/panels/" in
  match download_pages 1 (JStr panel_url) st with
  | (Ok _, st') => (Ok tt, st')
  | (Raise e, st') => (Raise e, st')
  end.

(** [extract_panel_info] on the folder. *)
Definition extract_panel_info_in (st : folder) : result unit * folder :=
  let '(r, l) :=
    extract_panel_info container_str
      (mk_listing (glob (stored_pages st)) (folder_markers st)
         (folder_summary st)) in
  (r, mk_folder (stored_pages st) (markers l) (summary l) (sent st)).

(** [PanelAppExtractor.extract_data], the output folder being created
    without failure. *)
Definition extract_data (st : folder) : result unit * folder :=
  match check_api_version st with
  | (Raise e, st1) => (Raise e, st1)
  | (Ok _, st1) =>
      match download_panels_to st1 with
      | (Raise e, st2) => (Raise e, st2)
      | (Ok _, st2) => extract_panel_info_in st2
      end
  end.

(** [main] of the listing script: the exit status. *)
Definition listing_main (st : folder) : Z * folder :=
  match extract_data st with
  | (Ok _, st') => (0, st')
  | (Raise _, st') => (1, st')
  end.

End ListingRun.

(** A body as the abstract loop sees it. *)
Definition pyval_of (v : json) : pyval :=
  match v with
  | JNull => PyNone
  | JStr s => PyStr s
  | _ => PyOther (json_truthy v)
  end.

(** The API of the abstract loop that a body-level API gives rise to:
    a page that cannot be gone through counts as a failure. *)
Definition page_api (japi : nat → string → result json)
  : nat → string → result page :=
  λ n url,
    (do data <- japi n url ;;
     do _ <- json_get data "count" (JInt 0) ;;
     do next_url <- json_get data "next" JNull ;;
     do results <- json_get data "results" (JList []) ;;
     do _ <- json_len results ;;
     Ok (mk_page (pyval_of next_url)))%py.

(** The URL the download of the panels starts from. *)
Definition panels_url : string :=
  BASE_URL +:+ "/" +:+ API_VERSION +:+ "/panels/".

(** A [glob] that yields every stored page. *)
Definition all_pages (m : gmap string (result json)) : list (result json) :=
  (map_to_list m).*2.

Definition swagger_json (version : json) : json :=
  JDict [("info", JDict [("version", version)])].

(** An API of another version than the expected one, with one page of
    one panel. *)
Definition listing_api : nat → string → result json :=
  λ _ url,
    if String.eqb url swagger_url then Ok (swagger_json (JStr "v2"))
    else page_json [panel_json 137 (JStr "2024-03-01T00:00:00Z")].

(** An API whose documentation tells no version. *)
Definition unversioned_api : nat → string → result json :=
  λ _ url,
    if String.eqb url swagger_url then Ok (swagger_json JNull)
    else page_json [panel_json 137 (JStr "2024-03-01T00:00:00Z")].

(** An API whose second page is no JSON. *)
Definition broken_api : nat → string → result json :=
  λ n url,
    if String.eqb url swagger_url then Ok (swagger_json (JStr "v1"))
    else if (n =? 1)%nat then
      Ok (JDict [("count", JInt 2);
                 ("next", JStr "https://panelapp-aus.org/api/v1/panels/?page=2");
                 ("results", JList [panel_json 137 (JStr "2024-03-01T00:00:00Z")])])
    else Raise ValueError.

(** A folder that an earlier run left a seventh page in, with the
    version file of its panel. *)
Definition stale_folder : folder :=
  mk_folder
    {[ "7" := page_json [panel_json 22 (JStr "2024-01-01T00:00:00Z")] ]}
    {[ "22" := Content "2024-01-01T00:00:00Z" ]}
    (Some tsv_header) [].

(** ** scripts/extract_genes.py: the data folder and the run *)

(** [datetime.strptime(s, '%Y%m%d')] is modelled on the reference
    implementation [Lib/_strptime.py]: the format becomes the regular
    expression
    [(?P<Y>\d\d\d\d)(?P<m>1[0-2]|0[1-9]|[1-9])(?P<d>3[0-1]|[1-2]\d|0[1-9]|[1-9]| [1-9])],
    which is matched at the start of the string; a match that does not
    reach the end of the string is a [ValueError], and so is a date the
    calendar does not have. *)

(** The digits from [lo] to [hi]. *)
Definition digit_between (lo hi : Z) (c : ascii) : bool :=
  (48 + lo <=? Str.code c) && (Str.code c <=? 48 + hi).

(** The characters of one alternative, class by class: what is left of
    the string when they match at its start. *)
Fixpoint match_classes (classes : list (ascii → bool)) (s : string)
  : option string :=
  match classes, s with
  | [], _ => Some s
  | _ :: _, EmptyString => None
  | class :: classes', String c s' =>
      if class c then match_classes classes' s' else None
  end.

Definition year_classes : list (ascii → bool) :=
  [Str.is_ascii_digit; Str.is_ascii_digit; Str.is_ascii_digit;
   Str.is_ascii_digit].

Definition month_alternatives : list (list (ascii → bool)) :=
  [[Ascii.eqb "1"; digit_between 0 2];
   [Ascii.eqb "0"; digit_between 1 9];
   [digit_between 1 9]].

Definition day_alternatives : list (list (ascii → bool)) :=
  [[Ascii.eqb "3"; digit_between 0 1];
   [digit_between 1 2; Str.is_ascii_digit];
   [Ascii.eqb "0"; digit_between 1 9];
   [digit_between 1 9];
   [Ascii.eqb " "; digit_between 1 9]].

(** The ways a group matches at the start of [s], first alternative
    first: the text of the group and what is left after it. *)
Definition match_group (alternatives : list (list (ascii → bool)))
  (s : string) : list (string * string) :=
  omap (λ classes,
          match match_classes classes s with
          | Some rest => Some (Str.take (length classes) s, rest)
          | None => None
          end) alternatives.

(** The first match of the expression, the alternatives of the month
    being gone through again when the day does not match after one of
    them: the three groups and what is left of the string. *)
Definition match_Ymd (s : string)
  : option (string * string * string * string) :=
  match match_classes year_classes s with
  | None => None
  | Some after_year =>
      head (m_rest ← match_group month_alternatives after_year;
            d_rest ← match_group day_alternatives (snd m_rest);
            [(Str.take 4 s, fst m_rest, fst d_rest, snd d_rest)])
  end.

(** [int(group)] for a group of the expression: a space ahead of the
    digits is passed over. *)
Definition int_of_group (group : string) : Z :=
  match Str.digits_value (Str.lstrip group) 0 with
  | Some z => z
  | None => 0
  end.

Definition strptime_Ymd (s : string) : result (Z * Z * Z) :=
  match match_Ymd s with
  | None => Raise ValueError
  | Some (Y, m, d, rest) =>
      if negb (Str.is_empty rest) then Raise ValueError
      else
        let year := int_of_group Y in
        let month := int_of_group m in
        let day := int_of_group d in
        if Datetime._check_date_fields year month day
        then Ok (year, month, day)
        else Raise ValueError
  end.

(** [max(l, key=lambda x: x.name)] for a list with [first] at its head:
    the first of the entries of the greatest name. *)
Definition max_by_name (first : string * bool) (rest : list (string * bool))
  : string * bool :=
  foldl (λ best d, if String.ltb (fst best) (fst d) then d else best)
    first rest.

(** A folder [PanelGeneExtractor.find_latest_data_folder] appends to
    [date_folders]. *)
Definition is_valid_date_folder (d : string * bool) : bool :=
  is_date_folder d
  && match strptime_Ymd (fst d) with
     | Ok _ => true
     | Raise _ => false
     end.

(** [PanelGeneExtractor.find_latest_data_folder], with the entries and
    [today] as in [find_latest_data_folder]. *)
Definition extractor_find_latest_data_folder
  (entries : option (list (string * bool))) (today : string)
  : option string :=
  match entries with
  | None => None
  | Some entries =>
      match List.filter is_valid_date_folder entries with
      | [] =>
          if existsb (λ d, String.eqb (fst d) today) entries
          then Some today else None
      | first :: rest => Some (fst (max_by_name first rest))
      end
  end.

(** ** The calls on the file system that can raise

    The definitions of [extract_genes_incremental.py] above are those of
    a data folder whose directories can be searched and made and whose
    version files can be opened for writing: there [exists], [mkdir] and
    [open(..., 'w')] return.  None of these calls stands under a [try]
    of its function, so that an [OSError] of theirs ([PermissionError]
    on a directory that cannot be searched, a name too long for the file
    system, a disk that is full) goes up to [main].  The definitions of
    [Faulty] are the functions with these failures; [faults] tells which
    calls fail in a run. *)

(** How [update_panel_version_tracking] comes through [mkdir], [open]
    and [write]: the version file is written; or [mkdir] or [open]
    raises and the file is as it was; or [write], or the closing of the
    file, raises and the file, emptied when it was opened, holds
    [remains]. *)
Inductive write_outcome : Type :=
  | Written
  | NotOpened
  | Cut (remains : string).

(** The calls that raise [OSError]: [tsv_file.exists()] of
    [read_panel_data]; [version_file.exists()] of [panel_needs_update],
    by panel id; [panel_dir.mkdir] of [download_panel_genes], by panel
    id; and the writing of the version file, by panel id. *)
Record faults : Type := mk_faults {
  catalog_stat_fails : bool;
  marker_stat_fails : string → bool;
  genes_dir_fails : string → bool;
  marker_write : string → write_outcome
}.

Definition no_faults : faults :=
  mk_faults false (λ _, false) (λ _, false) (λ _, Written).

(** The version file of one panel cannot be looked up: its directory
    cannot be searched, or its name is too long. *)
Definition unsearchable (panel_id : string) : faults :=
  mk_faults false (String.eqb panel_id) (λ _, false) (λ _, Written).

(** The data folder cannot be searched. *)
Definition unsearchable_folder : faults :=
  mk_faults true (λ _, true) (λ _, false) (λ _, Written).

(** The directory of the pages of one panel cannot be made. *)
Definition no_genes_dir (panel_id : string) : faults :=
  mk_faults false (λ _, false) (String.eqb panel_id) (λ _, Written).

(** The version file of one panel cannot be opened for writing. *)
Definition read_only_marker (panel_id : string) : faults :=
  mk_faults false (λ _, false) (λ _, false)
    (λ id, if String.eqb panel_id id then NotOpened else Written).

(** [f.read().strip()] on the version file, lines 132 and 133 of
    [panel_needs_update]. *)
Definition read_version_text (panel_id : string) : M string :=
  (do content <- read_version_file panel_id ;;
   ret (Str.strip content))%io.

Module Faulty.

Section Faults.

Variable fs : faults.

(** [version_file.exists()] *)
Definition version_file_exists (panel_id : string) : M bool :=
  λ w, if marker_stat_fails fs panel_id then (Raise OSError, w)
       else (Ok (bool_decide (is_Some (version_files w !! panel_id))), w).

(** [tsv_file.exists()] *)
Definition panel_list_exists : M bool :=
  λ w, if catalog_stat_fails fs then (Raise OSError, w)
       else (Ok (bool_decide (is_Some (panel_list w))), w).

(** [panel_dir.mkdir(parents=True, exist_ok=True)],
    [open(version_file, 'w', encoding='utf-8')] and [f.write(s)], the
    line separator being "\n". *)
Definition write_version_file (panel_id : string) (s : string) : M unit :=
  λ w, match marker_write fs panel_id with
       | Written =>
           (Ok tt,
            mk_world (<[panel_id := Content s]> (version_files w))
                     (panel_list w) (requests w))
       | NotOpened => (Raise OSError, w)
       | Cut remains =>
           (Raise OSError,
            mk_world (<[panel_id := Content remains]> (version_files w))
                     (panel_list w) (requests w))
       end.

Definition update_panel_version_tracking (panel : Panel.t) : M unit :=
  let panel_id := Panel.id panel in
  let version_created := Panel.version_created panel in
  write_version_file panel_id version_created.

Definition read_panel_data : M (list Panel.t) :=
  (do found <- panel_list_exists ;;
   if negb found then ret [] else
   try_except
     (do rows <- read_panel_list ;;
      ret (read_rows rows))
     (λ _, ret []))%io.

Definition panel_needs_update (panel : Panel.t) (force : bool) : M bool :=
  (if force then ret true else
   let panel_id := Panel.id panel in
   let current_version_created := Panel.version_created panel in
   do found <- version_file_exists panel_id ;;
   if negb found then ret true else
   try_except
     (do content <- read_version_file panel_id ;;
      let last_version_created := Str.strip content in
      if Str.is_empty last_version_created then ret true else
      do current_date <-
        lift (fromisoformat
                (Str.replace "Z" "+00:00" current_version_created)) ;;
      do last_date <-
        lift (fromisoformat
                (Str.replace "Z" "+00:00" last_version_created)) ;;
      do later <- lift (gt current_date last_date) ;;
      if later then ret true else ret false)
     (λ _, ret true))%io.

(** The filter of [main]; an exception of the check ends it. *)
Fixpoint panels_to_update (panels : list Panel.t) (force : bool)
  : M (list Panel.t) :=
  match panels with
  | [] => ret []
  | panel :: rest =>
      (do keep <- panel_needs_update panel force ;;
       do kept <- panels_to_update rest force ;;
       ret (if keep then panel :: kept else kept))%io
  end.

(** [panel_dir.mkdir(parents=True, exist_ok=True)] for the directory of
    the pages of a panel. *)
Definition make_genes_dir (panel_id : string) : M unit :=
  λ w, if genes_dir_fails fs panel_id then (Raise OSError, w)
       else (Ok tt, w).

Section Api.

Variable api : nat → string → result page.

Definition download_panel_genes (panel : Panel.t) : M download_result :=
  let panel_id := Panel.id panel in
  (do _ <- make_genes_dir panel_id ;;
   let gene_url :=
     BASE_URL +:+ "/" +:+ API_VERSION +:+ "/panels/" +:+ panel_id
     +:+ "/genes/" in
   try_except
     (do page <- page_loop api 100 1 (PyStr gene_url) ;;
      ret (Downloaded panel_id (Panel.version_created panel) (page - 1)))
     (λ e, ret (Failed panel_id e)))%io.

(** One turn of the [for panel in panels_to_update] loop of [main]. *)
Definition process_panel (panel : Panel.t) (counts : nat * nat)
  : M (nat * nat) :=
  (let '(successful, failed) := counts in
   do result <- download_panel_genes panel ;;
   if success result then
     do _ <- update_panel_version_tracking panel ;;
     ret (S successful, failed)
   else ret (successful, S failed))%io.

Fixpoint process_panels (panels : list Panel.t) (counts : nat * nat)
  : M (nat * nat) :=
  match panels with
  | [] => ret counts
  | panel :: rest =>
      (do counts' <- process_panel panel counts ;;
       process_panels rest counts')%io
  end.

(** [main] from the point where the data folder is known to exist; the
    value is the exit status: that of [sys.exit], 1 after an exception,
    0 when [main] comes to its end. *)
Definition main (force : bool) : M Z :=
  try_except
    (do panels <- read_panel_data ;;
     if bool_decide (panels = []) then ret 1 else
     do to_update <- panels_to_update panels force ;;
     if bool_decide (to_update = []) then ret 0 else
     do _ <- process_panels to_update (0%nat, 0%nat) ;;
     ret 0)%io
    (λ _, ret 1).

(** [PanelGeneExtractor.download_panel_genes] of scripts/extract_genes.py,
    with the [mkdir] ahead of its [try]. *)
Definition extractor_download_panel_genes (panel_id : string) : M bool :=
  (do _ <- make_genes_dir panel_id ;;
   let gene_url :=
     BASE_URL +:+ "/" +:+ API_VERSION +:+ "/panels/" +:+ panel_id
     +:+ "/genes/" in
   try_except
     (do _ <- page_loop api 100 1 (PyStr gene_url) ;;
      ret true)
     (λ _, ret false))%io.

(** *** The run of scripts/extract_genes.py *)

Section ExtractorRun.

(** The data path as [find_latest_data_folder] goes through it: its
    entries, each with its name and [is_dir()], [None] when the path
    does not exist, and [Raise] when [exists], [iterdir] or [is_dir]
    raises. *)
Variable scan : result (option (list (string * bool))).

(** Today's date as [strftime("%Y%m%d")] gives it, and whether
    [today_folder.exists()] raises. *)
Variable today : string.
Variable today_stat_fails : bool.

(** [data_folder.exists()] for the folder named on the command line. *)
Variable folder_exists : string → result bool.

(** For a data folder: whether [tsv_file.exists()] raises, and its
    [panel_list.tsv]: absent, or failing while it is read, or its
    text. *)
Variable tsv_stat_fails : string → bool.
Variable tsv_of : string → option (result string).

(** [PanelGeneExtractor.find_latest_data_folder] *)
Definition extractor_find_latest_data_folder : result (option string) :=
  match scan with
  | Raise e => Raise e
  | Ok None => Ok None
  | Ok (Some entries) =>
      match List.filter is_valid_date_folder entries with
      | [] =>
          if today_stat_fails then Raise OSError
          else Ok (if existsb (λ d, String.eqb (fst d) today) entries
                   then Some today else None)
      | first :: rest => Ok (Some (fst (max_by_name first rest)))
      end
  end.

(** [PanelGeneExtractor.read_panel_list]: the existence check stands
    ahead of the [try]. *)
Definition extractor_read_panel_list (data_folder : string)
  : result (list string) :=
  if tsv_stat_fails data_folder then Raise OSError
  else Ok (extractor_read_panel_list (tsv_of data_folder)).

(** The loop [for panel_id in panel_ids] of [extract_genes], with its
    two counters. *)
Fixpoint download_all (panel_ids : list string) (counts : nat * nat)
  : M (nat * nat) :=
  match panel_ids with
  | [] => ret counts
  | panel_id :: rest =>
      (let '(successful, failed) := counts in
       do downloaded <- extractor_download_panel_genes panel_id ;;
       if (downloaded : bool) then download_all rest (S successful, failed)
       else download_all rest (successful, S failed))%io
  end.

(** [PanelGeneExtractor.extract_genes] *)
Definition extract_genes (data_folder : option string) : M unit :=
  (do folder <-
     lift match data_folder with
          | Some folder => Ok folder
          | None =>
              match extractor_find_latest_data_folder with
              | Ok (Some folder) => Ok folder
              | Ok None => Raise ValueError
              | Raise e => Raise e
              end
          end ;;
   do panel_ids <- lift (extractor_read_panel_list folder) ;;
   if bool_decide (panel_ids = []) then ret tt
   else do _ <- download_all panel_ids (0%nat, 0%nat) ;; ret tt)%io.

(** [main] of scripts/extract_genes.py; [folder] is [args.folder], [None]
    when the option is not given.  The value is the exit status. *)
Definition extractor_main (folder : option string) : M Z :=
  try_except
    (match folder with
     | Some name =>
         if negb (Str.is_empty name) then
           (do there <- lift (folder_exists name) ;;
            if negb there then ret 1
            else do _ <- extract_genes (Some name) ;; ret 0)%io
         else (do _ <- extract_genes None ;; ret 0)%io
     | None => (do _ <- extract_genes None ;; ret 0)%io
     end)
    (λ _, ret 1).

(** The folder a run of [main] works on: [Ok None] when there is none,
    [Raise] when looking for it raises. *)
Definition run_folder (folder : option string) : result (option string) :=
  match folder with
  | Some name =>
      if Str.is_empty name then extractor_find_latest_data_folder
      else match folder_exists name with
           | Ok true => Ok (Some name)
           | Ok false => Ok None
           | Raise e => Raise e
           end
  | None => extractor_find_latest_data_folder
  end.

End ExtractorRun.

End Api.

End Faults.

End Faulty.

(** * Properties *)

(** ** The calendar *)

Section Calendar.

Ltac euclid := Z.to_euclidean_division_equations; lia.

Lemma days_before_year_succ y :
  _days_before_year (y + 1)
  = _days_before_year y + (if _is_leap y then 366 else 365).
Proof.
  unfold _days_before_year, _is_leap.
  replace (y + 1 - 1) with y by lia.
  destruct (Z.eqb_spec (y mod 4) 0); destruct (Z.eqb_spec (y mod 100) 0);
    destruct (Z.eqb_spec (y mod 400) 0); cbn [negb andb orb]; cbv zeta;
    euclid.
Qed.

Lemma days_before_year_mono y y' :
  y ≤ y' → _days_before_year y ≤ _days_before_year y'.
Proof.
  intros H. replace y' with (y + Z.of_nat (Z.to_nat (y' - y))) by lia.
  induction (Z.to_nat (y' - y)) as [|k IH].
  - replace (y + Z.of_nat 0) with y by lia. lia.
  - replace (y + Z.of_nat (S k)) with (y + Z.of_nat k + 1) by lia.
    rewrite days_before_year_succ. destruct (_is_leap (y + Z.of_nat k)); lia.
Qed.

Lemma month_cases m :
  1 ≤ m ≤ 12 →
  m = 1 ∨ m = 2 ∨ m = 3 ∨ m = 4 ∨ m = 5 ∨ m = 6 ∨ m = 7 ∨ m = 8
  ∨ m = 9 ∨ m = 10 ∨ m = 11 ∨ m = 12.
Proof. lia. Qed.

(** The days of a month end where the next month begins. *)
Lemma days_before_month_next y m :
  1 ≤ m ≤ 11 →
  _days_before_month y (m + 1) = _days_before_month y m + _days_in_month y m.
Proof.
  intros H. assert (Hm : 1 ≤ m ≤ 12) by lia.
  destruct (month_cases m Hm) as
    [->|[->|[->|[->|[->|[->|[->|[->|[->|[->|[->| ->]]]]]]]]]]];
    try lia; unfold _days_before_month, _days_in_month;
    destruct (_is_leap y); reflexivity.
Qed.

Lemma days_in_month_pos y m : 1 ≤ m ≤ 12 → 28 ≤ _days_in_month y m.
Proof.
  intros Hm.
  destruct (month_cases m Hm) as
    [->|[->|[->|[->|[->|[->|[->|[->|[->|[->|[->| ->]]]]]]]]]]];
    unfold _days_in_month; destruct (_is_leap y); by vm_compute.
Qed.

Lemma days_before_month_mono y m m' :
  1 ≤ m → m < m' → m' ≤ 12 →
  _days_before_month y m + _days_in_month y m ≤ _days_before_month y m'.
Proof.
  intros H1 Hlt.
  replace m' with (m + 1 + Z.of_nat (Z.to_nat (m' - m - 1))) by lia.
  induction (Z.to_nat (m' - m - 1)) as [|k IH]; intros H12.
  - replace (m + 1 + Z.of_nat 0) with (m + 1) by lia.
    rewrite days_before_month_next by lia. lia.
  - replace (m + 1 + Z.of_nat (S k)) with (m + 1 + Z.of_nat k + 1) by lia.
    rewrite days_before_month_next by lia.
    pose proof (days_in_month_pos y (m + 1 + Z.of_nat k)). lia.
Qed.

Lemma days_in_year y m :
  1 ≤ m ≤ 12 →
  _days_before_month y m + _days_in_month y m
  ≤ (if _is_leap y then 366 else 365).
Proof.
  intros Hm.
  destruct (month_cases m Hm) as
    [->|[->|[->|[->|[->|[->|[->|[->|[->|[->|[->| ->]]]]]]]]]]];
    unfold _days_before_month, _days_in_month; destruct (_is_leap y);
    by vm_compute.
Qed.

Lemma check_date_fields_inv y m d :
  _check_date_fields y m d = true →
  1 ≤ y ≤ 9999 ∧ 1 ≤ m ≤ 12 ∧ 1 ≤ d ≤ _days_in_month y m.
Proof. unfold _check_date_fields. lia. Qed.

Lemma check_time_fields_inv hh mm ss us :
  _check_time_fields hh mm ss us = true →
  0 ≤ hh ≤ 23 ∧ 0 ≤ mm ≤ 59 ∧ 0 ≤ ss ≤ 59 ∧ 0 ≤ us ≤ 999999.
Proof. unfold _check_time_fields. lia. Qed.

(** The ordinal of a day follows the order of (year, month, day). *)
Lemma ymd2ord_year y m d y' m' d' :
  _check_date_fields y m d = true → _check_date_fields y' m' d' = true →
  y < y' → _ymd2ord y m d < _ymd2ord y' m' d'.
Proof.
  intros [Hy [Hm Hd]]%check_date_fields_inv
         [Hy' [Hm' Hd']]%check_date_fields_inv Hlt.
  unfold _ymd2ord.
  pose proof (days_in_year y m Hm).
  pose proof (days_before_year_succ y).
  pose proof (days_before_year_mono (y + 1) y' ltac:(lia)).
  assert (0 ≤ _days_before_month y' m').
  { unfold _days_before_month.
    destruct (month_cases m' Hm') as
      [->|[->|[->|[->|[->|[->|[->|[->|[->|[->|[->| ->]]]]]]]]]]];
      destruct (_is_leap y'); by vm_compute. }
  destruct (_is_leap y); lia.
Qed.

Lemma ymd2ord_month y m d m' d' :
  _check_date_fields y m d = true → _check_date_fields y m' d' = true →
  m < m' → _ymd2ord y m d < _ymd2ord y m' d'.
Proof.
  intros [Hy [Hm Hd]]%check_date_fields_inv
         [Hy' [Hm' Hd']]%check_date_fields_inv Hlt.
  unfold _ymd2ord.
  pose proof (days_before_month_mono y m m' ltac:(lia) Hlt ltac:(lia)).
  lia.
Qed.

Lemma compare_lt_eq a b : a < b → Lt = (a ?= b).
Proof. intros H. symmetry. by apply Z.compare_lt_iff. Qed.

Lemma compare_gt_eq a b : b < a → Gt = (a ?= b).
Proof. intros H. symmetry. by apply Z.compare_gt_iff. Qed.

(** Comparing the fields, as Python compares the two tuples, is
    comparing the wall-clock readings. *)
Lemma tuple_compare_local a b :
  valid a → valid b →
  tuple_compare (fields a) (fields b)
  = (local_micros a ?= local_micros b).
Proof.
  intros [Hda Hta] [Hdb Htb].
  destruct a as [y m d hh mm ss us tz], b as [y' m' d' hh' mm' ss' us' tz'].
  cbn [year month day hour minute second microsecond] in *.
  pose proof (check_time_fields_inv _ _ _ _ Hta).
  pose proof (check_time_fields_inv _ _ _ _ Htb).
  unfold fields, local_micros, day_micros.
  cbn [year month day hour minute second microsecond tuple_compare].
  destruct (Z.compare_spec y y') as [->|Hy|Hy].
  2: { pose proof (ymd2ord_year _ _ _ _ _ _ Hda Hdb Hy).
       apply compare_lt_eq. lia. }
  2: { pose proof (ymd2ord_year _ _ _ _ _ _ Hdb Hda Hy).
       apply compare_gt_eq. lia. }
  destruct (Z.compare_spec m m') as [->|Hm|Hm].
  2: { pose proof (ymd2ord_month _ _ _ _ _ Hda Hdb Hm).
       apply compare_lt_eq. lia. }
  2: { pose proof (ymd2ord_month _ _ _ _ _ Hdb Hda Hm).
       apply compare_gt_eq. lia. }
  unfold _ymd2ord.
  destruct (Z.compare_spec d d') as [->|Hd|Hd];
    [|apply compare_lt_eq; lia|apply compare_gt_eq; lia].
  destruct (Z.compare_spec hh hh') as [->|Hh|Hh];
    [|apply compare_lt_eq; lia|apply compare_gt_eq; lia].
  destruct (Z.compare_spec mm mm') as [->|Hmi|Hmi];
    [|apply compare_lt_eq; lia|apply compare_gt_eq; lia].
  destruct (Z.compare_spec ss ss') as [->|Hs|Hs];
    [|apply compare_lt_eq; lia|apply compare_gt_eq; lia].
  destruct (Z.compare_spec us us') as [->|Hu|Hu];
    [|apply compare_lt_eq; lia|apply compare_gt_eq; lia].
  symmetry. apply Z.compare_eq_iff. reflexivity.
Qed.

(** [a > b] on two values that are both naive or both aware: [b] is
    strictly earlier than [a]. *)
Lemma gt_same_awareness a b :
  valid a → valid b → is_aware a = is_aware b →
  gt a b = Ok (bool_decide (utc_micros b < utc_micros a)).
Proof.
  intros Ha Hb Haw. pose proof (tuple_compare_local a b Ha Hb) as Hc.
  unfold gt, _cmp, utc_micros, is_aware in *.
  destruct (tzinfo a) as [aoff|], (tzinfo b) as [boff|];
    try discriminate; cbn [result_bind].
  - destruct (Z.eqb_spec aoff boff) as [->|Hne]; cbn [result_bind].
    + rewrite Hc. f_equal.
      destruct (Z.compare_spec (local_micros a) (local_micros b));
        symmetry; [apply bool_decide_eq_false|apply bool_decide_eq_false
                  |apply bool_decide_eq_true]; lia.
    + f_equal. unfold sub_aware.
      destruct (Z.compare_spec
                  (local_micros a - local_micros b + boff - aoff) 0);
        symmetry; [apply bool_decide_eq_false|apply bool_decide_eq_false
                  |apply bool_decide_eq_true]; lia.
  - rewrite Hc. f_equal.
    destruct (Z.compare_spec (local_micros a) (local_micros b));
      symmetry; [apply bool_decide_eq_false|apply bool_decide_eq_false
                |apply bool_decide_eq_true]; lia.
Qed.

(** A naive value against an aware one does not compare. *)
Lemma gt_mixed a b :
  is_aware a ≠ is_aware b → gt a b = Raise TypeError.
Proof.
  unfold gt, _cmp, is_aware.
  destruct (tzinfo a), (tzinfo b); intros H; try reflexivity; congruence.
Qed.

(** A value that [fromisoformat] returns has passed the checks of the
    constructor. *)
Lemma fromisoformat_valid s d : fromisoformat s = Ok d → valid d.
Proof.
  unfold fromisoformat.
  destruct (_parse_isoformat_date _) as [[[y m] dd]|]; [|discriminate].
  cbn [result_bind].
  destruct (if Str.is_empty _ then _ else _)
    as [[[[[hh mm] ss] us] tz]|]; [|discriminate].
  cbn [result_bind]. unfold datetime_new.
  destruct (_check_date_fields y m dd) eqn:Hd; [|discriminate].
  destruct (_check_time_fields hh mm ss us) eqn:Ht; [|discriminate].
  cbn [andb]. intros [= <-]. split; assumption.
Qed.

End Calendar.

(** ** The staleness check *)

Section Staleness.

Implicit Types (p : Panel.t) (w : world).

Lemma needs_update_forced p w : panel_needs_update p true w = (Ok true, w).
Proof. reflexivity. Qed.

Lemma needs_update_absent p w :
  version_files w !! Panel.id p = None →
  panel_needs_update p false w = (Ok true, w).
Proof.
  intros H. unfold panel_needs_update, bind, version_file_exists.
  rewrite H. reflexivity.
Qed.

Lemma needs_update_unreadable p w :
  version_files w !! Panel.id p = Some Unreadable →
  panel_needs_update p false w = (Ok true, w).
Proof.
  intros H.
  unfold panel_needs_update, bind, version_file_exists, try_except,
    read_version_file.
  rewrite H. cbn. rewrite H. reflexivity.
Qed.

(** With a readable version file the answer is a function of the two
    markers. *)
Lemma needs_update_content p w content :
  version_files w !! Panel.id p = Some (Content content) →
  panel_needs_update p false w
  = (Ok (compare_markers (Panel.version_created p)
           (Str.strip (Str.universal_newlines content))), w).
Proof.
  intros H.
  unfold panel_needs_update, bind, version_file_exists, try_except,
    read_version_file, compare_markers.
  rewrite H. cbn -[fromisoformat gt Str.strip Str.universal_newlines].
  rewrite H.
  destruct (Str.is_empty _); [reflexivity|].
  unfold lift, ret.
  destruct (fromisoformat (Str.replace _ _ (Panel.version_created p)));
    [|reflexivity].
  destruct (fromisoformat _); [|reflexivity].
  cbn [result_bind]. destruct (gt _ _) as [[]|]; reflexivity.
Qed.

(** The check returns a value and leaves the world as it was. *)
Lemma needs_update_total p force w :
  ∃ b, panel_needs_update p force w = (Ok b, w).
Proof.
  destruct force; [eexists; apply needs_update_forced|].
  destruct (version_files w !! Panel.id p) as [[|content]|] eqn:H.
  - eexists. by apply needs_update_unreadable.
  - eexists. by apply needs_update_content.
  - eexists. by apply needs_update_absent.
Qed.

Lemma compare_markers_parsed current last cur_date last_date :
  fromisoformat (Str.replace "Z" "+00:00" current) = Ok cur_date →
  fromisoformat (Str.replace "Z" "+00:00" last) = Ok last_date →
  compare_markers current last
  = match gt cur_date last_date with Ok later => later | Raise _ => true end.
Proof.
  intros Hc Hl. unfold compare_markers.
  destruct last; [discriminate Hl|].
  cbn [Str.is_empty]. rewrite Hc, Hl. reflexivity.
Qed.

(** The check is the comparison applied to what [read_marker] finds. *)
Lemma needs_update_reads_marker p w :
  panel_needs_update p false w
  = match read_marker (Panel.id p) w with
    | (Ok (Some last), w') =>
        (Ok (compare_markers (Panel.version_created p) last), w')
    | (Ok None, w') => (Ok true, w')
    | (Raise e, w') => (Raise e, w')
    end.
Proof.
  destruct (version_files w !! Panel.id p) as [[|content]|] eqn:H.
  - rewrite (needs_update_unreadable _ _ H).
    unfold read_marker, bind, version_file_exists, try_except,
      read_version_file.
    rewrite H. cbn. by rewrite H.
  - rewrite (needs_update_content _ _ _ H).
    unfold read_marker, bind, version_file_exists, try_except,
      read_version_file.
    rewrite H. cbn -[compare_markers Str.strip Str.universal_newlines].
    rewrite H. unfold compare_markers.
    destruct (Str.is_empty _) eqn:He; cbn [ret]; [reflexivity|].
    by rewrite He.
  - rewrite (needs_update_absent _ _ H).
    unfold read_marker, bind, version_file_exists. by rewrite H.
Qed.

(** C1 (as amended).  When both markers parse and both carry an offset,
    or neither does, the check answers true exactly when the incoming
    marker denotes a strictly later instant than the stored one; on equal
    instants it answers false. *)
Theorem staleness_strictly_later p w content cur_date last_date :
  version_files w !! Panel.id p = Some (Content content) →
  fromisoformat (Str.replace "Z" "+00:00" (Panel.version_created p))
  = Ok cur_date →
  fromisoformat
    (Str.replace "Z" "+00:00" (Str.strip (Str.universal_newlines content)))
  = Ok last_date →
  is_aware cur_date = is_aware last_date →
  panel_needs_update p false w
  = (Ok (bool_decide (utc_micros last_date < utc_micros cur_date)), w).
Proof.
  intros Hf Hc Hl Haw. rewrite (needs_update_content _ _ _ Hf).
  rewrite (compare_markers_parsed _ _ _ _ Hc Hl).
  rewrite gt_same_awareness by eauto using fromisoformat_valid.
  reflexivity.
Qed.

Lemma staleness_strictly_later_witness :
  panel_needs_update (panel_137 "2024-03-02T01:00:00+02:00") false
    (one_marker "137" "2024-03-01T23:30:00Z")
  = (Ok false, one_marker "137" "2024-03-01T23:30:00Z").
Proof.
  apply (staleness_strictly_later
           (panel_137 "2024-03-02T01:00:00+02:00")
           (one_marker "137" "2024-03-01T23:30:00Z")
           "2024-03-01T23:30:00Z"
           (mk_datetime 2024 3 2 1 0 0 0 (Some 7200000000))
           (mk_datetime 2024 3 1 23 30 0 0 (Some 0)));
    reflexivity.
Defined.

(** C1 as stated fails: a stored marker with an offset and an incoming
    marker without one both parse and denote the same instant, yet the
    check answers true. *)
Lemma staleness_mixed_equal_counterexample :
  let p := panel_137 "2024-03-01T00:00:00" in
  let w := one_marker "137" "2024-03-01T00:00:00Z" in
  ∃ cur_date last_date,
    fromisoformat (Str.replace "Z" "+00:00" (Panel.version_created p))
    = Ok cur_date
    ∧ fromisoformat (Str.replace "Z" "+00:00" "2024-03-01T00:00:00Z")
      = Ok last_date
    ∧ utc_micros cur_date = utc_micros last_date
    ∧ panel_needs_update p false w = (Ok true, w).
Proof.
  exists (mk_datetime 2024 3 1 0 0 0 0 None),
         (mk_datetime 2024 3 1 0 0 0 0 (Some 0)).
  repeat split; reflexivity.
Qed.

(** C2 (as amended).  A marker without an offset is not moved to UTC.
    When neither marker has an offset the wall-clock readings are
    compared, which is the comparison both would get with +00:00; when
    exactly one of the two has no offset the comparison raises and the
    check answers true. *)
Theorem staleness_without_offset p w content cur_date last_date :
  version_files w !! Panel.id p = Some (Content content) →
  fromisoformat (Str.replace "Z" "+00:00" (Panel.version_created p))
  = Ok cur_date →
  fromisoformat
    (Str.replace "Z" "+00:00" (Str.strip (Str.universal_newlines content)))
  = Ok last_date →
  tzinfo cur_date = None ∨ tzinfo last_date = None →
  panel_needs_update p false w
  = (Ok match tzinfo cur_date, tzinfo last_date with
        | None, None =>
            bool_decide (local_micros last_date < local_micros cur_date)
        | _, _ => true
        end, w).
Proof.
  intros Hf Hc Hl Hnaive. rewrite (needs_update_content _ _ _ Hf).
  rewrite (compare_markers_parsed _ _ _ _ Hc Hl).
  destruct (tzinfo cur_date) as [co|] eqn:Ec,
           (tzinfo last_date) as [lo|] eqn:El.
  - destruct Hnaive; discriminate.
  - rewrite gt_mixed; [reflexivity|]. unfold is_aware. by rewrite Ec, El.
  - rewrite gt_mixed; [reflexivity|]. unfold is_aware. by rewrite Ec, El.
  - rewrite gt_same_awareness; eauto using fromisoformat_valid.
    + unfold utc_micros. rewrite Ec, El. do 2 f_equal.
      apply bool_decide_ext. lia.
    + unfold is_aware. by rewrite Ec, El.
Qed.

Lemma staleness_without_offset_witness :
  panel_needs_update (panel_137 "2024-02-15T00:00:00") false
    (one_marker "137" "2024-03-01T00:00:00")
  = (Ok false, one_marker "137" "2024-03-01T00:00:00").
Proof.
  apply (staleness_without_offset
           (panel_137 "2024-02-15T00:00:00")
           (one_marker "137" "2024-03-01T00:00:00")
           "2024-03-01T00:00:00"
           (mk_datetime 2024 2 15 0 0 0 0 None)
           (mk_datetime 2024 3 1 0 0 0 0 None));
    first [reflexivity | by left].
Defined.

(** C2 as stated fails on its own example: the stored marker
    "2024-03-01T00:00:00" against the incoming "2024-02-15T00:00:00Z" is
    answered true, not false. *)
Lemma staleness_without_offset_counterexample :
  panel_needs_update (panel_137 "2024-02-15T00:00:00Z") false
    (one_marker "137" "2024-03-01T00:00:00")
  = (Ok true, one_marker "137" "2024-03-01T00:00:00").
Proof. reflexivity. Qed.


End Staleness.

(** ** The planner *)

Section Planner.

Implicit Types (p : Panel.t) (w : world) (panels : list Panel.t).

Lemma needs_update_value p force w :
  panel_needs_update p force w = (Ok (force || is_stale p w), w).
Proof.
  destruct force; [apply needs_update_forced|].
  unfold is_stale.
  destruct (needs_update_total p false w) as [b Hb].
  rewrite Hb. reflexivity.
Qed.

Lemma panels_to_update_filter panels force w :
  panels_to_update panels force w
  = (Ok (List.filter (λ p, force || is_stale p w) panels), w).
Proof.
  induction panels as [|p rest IH]; [reflexivity|].
  cbn [panels_to_update List.filter]. unfold bind at 1.
  rewrite needs_update_value. unfold bind at 1. rewrite IH.
  unfold ret. destruct (force || is_stale p w); reflexivity.
Qed.

Lemma filter_sublist {A} (f : A → bool) (l : list A) :
  sublist (List.filter f l) l.
Proof.
  induction l as [|x l IH]; cbn [List.filter]; [constructor|].
  destruct (f x); by constructor.
Qed.

(** C3.  The plan is the catalog filtered, in catalog order, by "forced
    or stale"; forcing returns the whole catalog. *)
Theorem plan_filters_catalog panels force w :
  let plan := List.filter (λ p, force || is_stale p w) panels in
  panels_to_update panels force w = (Ok plan, w)
  ∧ sublist plan panels
  ∧ (∀ p, In p plan ↔
          In p panels
          ∧ (force = true ∨ panel_needs_update p false w = (Ok true, w)))
  ∧ panels_to_update panels true w = (Ok panels, w).
Proof.
  cbv zeta. split; [apply panels_to_update_filter|].
  split; [apply filter_sublist|]. split.
  - intros p. rewrite filter_In, orb_true_iff.
    rewrite (needs_update_value p false w). cbn [orb].
    split; intros [Hin [Hf|Hs]]; (split; [exact Hin|]); auto.
    + right. by rewrite Hs.
    + right. by injection Hs.
  - rewrite panels_to_update_filter. cbn [orb].
    replace (List.filter (λ _, true) panels) with panels; [reflexivity|].
    induction panels as [|p rest IH]; [reflexivity|].
    cbn [List.filter]. by rewrite <- IH.
Qed.

(** C8.  Planning leaves the world, and so every stored marker, as it
    found it. *)
Theorem plan_leaves_storage panels force w :
  snd (panels_to_update panels force w) = w
  ∧ version_files (snd (panels_to_update panels force w)) = version_files w.
Proof. rewrite panels_to_update_filter. split; reflexivity. Qed.

End Planner.

(** ** The version tracker *)

Section Tracker.

Implicit Types (p : Panel.t) (w : world).

Lemma universal_newlines_without_cr s :
  Str.all_chars not_cr s = true → Str.universal_newlines s = s.
Proof.
  induction s as [|c s IH]; [reflexivity|].
  cbn [Str.all_chars Str.universal_newlines]. unfold not_cr at 1.
  intros [Hc Hs]%andb_true_iff.
  destruct (Ascii.eqb c "013"); [discriminate|]. by rewrite IH.
Qed.

Lemma read_marker_after_write panel_id text w :
  let w' := snd (write_version_file panel_id text w) in
  read_marker panel_id w'
  = (Ok (nonblank (Str.strip (Str.universal_newlines text))), w').
Proof.
  cbv zeta. unfold write_version_file. cbn [snd].
  unfold read_marker, bind, version_file_exists, try_except,
    read_version_file. cbn [version_files].
  rewrite lookup_insert_eq.
  cbn -[Str.strip Str.universal_newlines]. rewrite lookup_insert_eq.
  unfold nonblank. destruct (Str.is_empty _); reflexivity.
Qed.

End Tracker.

(** ** The catalog loader *)

Section Catalog.

Implicit Types (w : world) (row : csv_row).

Lemma read_row_accepted row :
  match read_row row with
  | Ok r => r
  | Raise _ => None
  end = accepted_row row.
Proof.
  unfold read_row, accepted_row, py_strip.
  destruct (row_get row "id" "") as [id|]; [|reflexivity].
  cbn [result_bind]. unfold Str.isdigit at 1.
  rewrite andb_assoc, andb_diag. fold (Str.isdigit (Str.strip id)).
  destruct (Str.isdigit (Str.strip id));
    destruct (row_get row "name" "Unknown") as [name|]; try reflexivity;
    cbn [result_bind];
    destruct (row_get row "version" "Unknown") as [version|];
    try reflexivity; cbn [result_bind];
    destruct (row_get row "version_created" "") as [vc|]; reflexivity.
Qed.

Lemma read_rows_accepted rows : read_rows rows = omap accepted_row rows.
Proof.
  induction rows as [|row rest IH]; [reflexivity|].
  cbn [read_rows omap list_omap]. rewrite <- read_row_accepted, <- IH.
  destruct (read_row row) as [[panel|]|]; reflexivity.
Qed.

(** C9 (as amended).  The loader returns, in row order, one panel for
    each row whose id, stripped, passes [isdigit] and whose name, version
    and version_created are not [None]; every other row is left out. *)
Theorem read_panel_data_accepts w rows :
  panel_list w = Some (Ok rows) →
  read_panel_data w = (Ok (omap accepted_row rows), w).
Proof.
  intros H. unfold read_panel_data, bind, panel_list_exists, try_except,
    read_panel_list.
  rewrite H. cbn. rewrite H. unfold ret. by rewrite read_rows_accepted.
Qed.

Lemma read_panel_data_accepts_witness :
  read_panel_data (catalog_of [full_row; short_row; full_row])
  = (Ok [panel_137 "2024-03-01T00:00:00Z"; panel_137 "2024-03-01T00:00:00Z"],
     catalog_of [full_row; short_row; full_row]).
Proof.
  apply (read_panel_data_accepts
           (catalog_of [full_row; short_row; full_row])
           [full_row; short_row; full_row]).
  reflexivity.
Defined.

(** C9 as stated fails: a row whose id is "137" but which ends before
    the version column is left out of the catalog. *)
Lemma read_panel_data_short_row_counterexample :
  row_get short_row "id" "" = Some "137"
  ∧ Str.strip "137" = "137"
  ∧ Str.all_chars Str.is_ascii_digit "137" = true
  ∧ read_panel_data (catalog_of [short_row])
    = (Ok [], catalog_of [short_row]).
Proof. repeat split. Qed.

End Catalog.

(** ** Pagination and the processing pass *)

Section Pass.

Variable api : nat → string → result page.

Implicit Types (p : Panel.t) (w : world).

Lemma extends_refl bound w : extends bound w w.
Proof.
  repeat split. exists []. rewrite app_nil_r. split; [done|cbn; lia].
Qed.

Lemma extends_trans b1 b2 b w1 w2 w3 :
  extends b1 w1 w2 → extends b2 w2 w3 → (b1 + b2 ≤ b)%nat →
  extends b w1 w3.
Proof.
  intros (Hv1 & Hp1 & u1 & Hr1 & Hl1) (Hv2 & Hp2 & u2 & Hr2 & Hl2) Hb.
  repeat split; [congruence|congruence|].
  exists (u1 ++ u2)%list. rewrite Hr2, Hr1, <- app_assoc, length_app.
  split; [done|lia].
Qed.

Lemma fetch_page_extends next_url w :
  extends 1 w (snd (fetch_page api next_url w)).
Proof.
  unfold fetch_page. destruct next_url as [|url|t]; cbn [snd];
    try apply extends_refl.
  repeat split. exists [url]. split; [done|cbn; lia].
Qed.

Lemma page_loop_extends limit page next_url w :
  extends (Nat.max 1 (S limit - page)) w
    (snd (page_loop api limit page next_url w)).
Proof.
  funelim (page_loop api limit page next_url w); cbn [snd];
    try match goal with
        | Hf : fetch_page api ?u ?w0 = (_, ?w1) |- _ =>
            assert (extends 1 w0 w1)
              by (pose proof (fetch_page_extends u w0) as Hx;
                  rewrite Hf in Hx; exact Hx)
        end.
  - apply extends_refl.
  - eapply extends_trans; [eassumption|apply (extends_refl 0)|lia].
  - eapply extends_trans; [eassumption|eassumption|lia].
  - eapply extends_trans; [eassumption|apply (extends_refl 0)|lia].
Qed.

Lemma download_panel_genes_total p w :
  ∃ r w',
    download_panel_genes api p w = (Ok r, w') ∧ extends 100 w w'.
Proof.
  unfold download_panel_genes, try_except, bind, ret.
  pose proof (page_loop_extends 100 1
                (PyStr (BASE_URL +:+ "/" +:+ API_VERSION +:+ "/panels/"
                        +:+ Panel.id p +:+ "/genes/")) w) as Hx.
  destruct (page_loop _ _ _ _ _) as [[page|e] w'];
    eexists _, w'; (split; [reflexivity|exact Hx]).
Qed.

Lemma download_panels_extends w :
  extends 1000 w (snd (download_panels api w)).
Proof.
  unfold download_panels, try_except, bind, ret, lift.
  pose proof (page_loop_extends 1000 1
                (PyStr (BASE_URL +:+ "/" +:+ API_VERSION +:+ "/panels/"))
                w) as Hx.
  destruct (page_loop _ _ _ _ _) as [[page|e] w']; exact Hx.
Qed.

Lemma extractor_download_extends panel_id w :
  extends 100 w (snd (extractor_download_panel_genes api panel_id w)).
Proof.
  unfold extractor_download_panel_genes, try_except, bind, ret.
  pose proof (page_loop_extends 100 1
                (PyStr (BASE_URL +:+ "/" +:+ API_VERSION +:+ "/panels/"
                        +:+ panel_id +:+ "/genes/")) w) as Hx.
  destruct (page_loop _ _ _ _ _) as [[page|e] w']; exact Hx.
Qed.

(** C10.  Whatever the API answers, the gene download of a panel returns
    after at most 100 requests, in the incremental script and in
    [PanelGeneExtractor] alike, and the download of the panel list returns
    after at most 1000. *)
Theorem pagination_is_bounded p w :
  (∃ r w' urls,
     download_panel_genes api p w = (Ok r, w')
     ∧ requests w' = (requests w ++ urls)%list
     ∧ (length urls ≤ 100)%nat)
  ∧ (∃ r w' urls,
       download_panels api w = (r, w')
       ∧ requests w' = (requests w ++ urls)%list
       ∧ (length urls ≤ 1000)%nat)
  ∧ (∃ r w' urls,
       extractor_download_panel_genes api (Panel.id p) w = (r, w')
       ∧ requests w' = (requests w ++ urls)%list
       ∧ (length urls ≤ 100)%nat).
Proof.
  split; [|split].
  - destruct (download_panel_genes_total p w)
      as (r & w' & Hd & _ & _ & urls & Hr & Hl).
    by exists r, w', urls.
  - destruct (download_panels_extends w) as (_ & _ & urls & Hr & Hl).
    destruct (download_panels api w) as [r w']. by exists r, w', urls.
  - destruct (extractor_download_extends (Panel.id p) w)
      as (_ & _ & urls & Hr & Hl).
    destruct (extractor_download_panel_genes api (Panel.id p) w) as [r w'].
    by exists r, w', urls.
Qed.

Lemma is_stale_marker q w1 w2 :
  version_files w1 !! Panel.id q = version_files w2 !! Panel.id q →
  is_stale q w1 = is_stale q w2.
Proof.
  intros H. unfold is_stale.
  destruct (version_files w2 !! Panel.id q) as [[|content]|] eqn:H2.
  - by rewrite !needs_update_unreadable.
  - by rewrite (needs_update_content q w1 content),
               (needs_update_content q w2 content).
  - by rewrite !needs_update_absent.
Qed.

(** One turn of the loop: the marker of the panel is written exactly
    when its download succeeded, and no other marker is touched. *)
Lemma process_panel_step p counts w :
  ∃ counts' w',
    process_panel api p counts w = (Ok counts', w')
    ∧ version_files w'
      = if refresh_succeeds api p w
        then <[Panel.id p := Content (Panel.version_created p)]>
               (version_files w)
        else version_files w.
Proof.
  destruct (download_panel_genes_total p w) as (r & w1 & Hd & Hv & _).
  unfold process_panel, refresh_succeeds. destruct counts as [ok ko].
  unfold bind. rewrite Hd. cbn [fst].
  destruct (success r); cbn; eexists _, _; (split; [reflexivity|]);
    cbn; by rewrite Hv.
Qed.

Lemma process_panels_cons p rest counts w counts' w' :
  process_panel api p counts w = (Ok counts', w') →
  process_panels api (p :: rest) counts w
  = process_panels api rest counts' w'
  ∧ attempts api (p :: rest) counts w
    = (p, w) :: attempts api rest counts' w'.
Proof.
  intros H. cbn [process_panels attempts]. unfold bind. by rewrite H.
Qed.

Lemma pass_keeps_failed_markers panels counts w panel_id :
  (∀ p w0, In (p, w0) (attempts api panels counts w) →
           Panel.id p = panel_id → refresh_succeeds api p w0 = false) →
  version_files (snd (process_panels api panels counts w)) !! panel_id
  = version_files w !! panel_id.
Proof.
  revert counts w. induction panels as [|p rest IH]; intros counts w Hfail;
    [reflexivity|].
  destruct (process_panel_step p counts w) as (counts' & w' & Hstep & Hv).
  destruct (process_panels_cons p rest counts w counts' w' Hstep)
    as [-> Hatt].
  rewrite Hatt in Hfail. rewrite IH.
  - rewrite Hv. destruct (refresh_succeeds api p w) eqn:Hok; [|done].
    destruct (decide (Panel.id p = panel_id)) as [Heq|Hne].
    + rewrite (Hfail p w) in Hok; [discriminate|by left|done].
    + by rewrite lookup_insert_ne.
  - intros q w0 Hin. apply Hfail. by right.
Qed.

Lemma pass_writes_after_success panels counts w panel_id :
  version_files (snd (process_panels api panels counts w)) !! panel_id
  ≠ version_files w !! panel_id →
  ∃ p w0, In (p, w0) (attempts api panels counts w)
          ∧ Panel.id p = panel_id
          ∧ refresh_succeeds api p w0 = true.
Proof.
  revert counts w. induction panels as [|p rest IH]; intros counts w Hne;
    [done|].
  destruct (process_panel_step p counts w) as (counts' & w' & Hstep & Hv).
  destruct (process_panels_cons p rest counts w counts' w' Hstep)
    as [Hrun ->].
  rewrite Hrun in Hne.
  destruct (refresh_succeeds api p w) eqn:Hok.
  - destruct (decide (Panel.id p = panel_id)) as [Heq|Hdiff].
    + exists p, w. split; [by left|done].
    + destruct (IH counts' w') as (q & w0 & Hin & Hq & Hs).
      * by rewrite Hv, lookup_insert_ne.
      * exists q, w0. split; [by right|done].
  - destruct (IH counts' w') as (q & w0 & Hin & Hq & Hs).
    + by rewrite Hv.
    + exists q, w0. split; [by right|done].
Qed.

(** C4.  Across the processing pass a stored marker changes only through
    a turn whose download succeeded; a panel whose every download in the
    pass failed keeps its marker, or its lack of one, and so is as stale
    after the pass as it was before. *)
Theorem marker_written_only_after_success panels counts w panel_id :
  let w' := snd (process_panels api panels counts w) in
  (version_files w' !! panel_id ≠ version_files w !! panel_id →
   ∃ p w0, In (p, w0) (attempts api panels counts w)
           ∧ Panel.id p = panel_id
           ∧ refresh_succeeds api p w0 = true)
  ∧ ((∀ p w0, In (p, w0) (attempts api panels counts w) →
              Panel.id p = panel_id → refresh_succeeds api p w0 = false) →
     version_files w' !! panel_id = version_files w !! panel_id
     ∧ ∀ q, Panel.id q = panel_id → is_stale q w' = is_stale q w).
Proof.
  cbv zeta. split; [apply pass_writes_after_success|].
  intros Hfail.
  pose proof (pass_keeps_failed_markers panels counts w panel_id Hfail)
    as Hkeep.
  split; [exact Hkeep|].
  intros q <-. by apply is_stale_marker.
Qed.

(** A catalog file that cannot be read makes the loader return the
    empty catalog, on which [main] exits with status 1. *)
Lemma unreadable_catalog force w e :
  panel_list w = Some (Raise e) →
  read_panel_data w = (Ok [], w) ∧ main api force w = (Ok 1, w).
Proof.
  intros H.
  assert (Hread : read_panel_data w = (Ok [], w)).
  { unfold read_panel_data, bind, panel_list_exists, try_except,
      read_panel_list.
    rewrite H. cbn. by rewrite H. }
  split; [exact Hread|].
  unfold main, try_except, bind. by rewrite Hread.
Qed.

End Pass.

(** ** The properties on concrete runs *)

Lemma marker_written_only_after_success_witness :
  let panels :=
    [panel_of "137" "2024-03-01T00:00:00Z";
     panel_of "22" "2024-01-01T00:00:00Z"] in
  let w := one_marker "137" "2023-01-01T00:00:00Z" in
  let w' := snd (process_panels api_without_137 panels (0, 0)%nat w) in
  version_files w' !! "137" = version_files w !! "137"
  ∧ ∀ q, Panel.id q = "137" → is_stale q w' = is_stale q w.
Proof.
  apply (proj2 (marker_written_only_after_success api_without_137
                  [panel_of "137" "2024-03-01T00:00:00Z";
                   panel_of "22" "2024-01-01T00:00:00Z"]
                  (0, 0)%nat (one_marker "137" "2023-01-01T00:00:00Z")
                  "137")).
  intros p w0 Hin Hid. vm_compute in Hin.
  destruct Hin as [Hin|[Hin|[]]]; injection Hin as <- <-.
  - reflexivity.
  - discriminate Hid.
Defined.

(** C5 as stated fails: with the version file of panel 137 and the catalog
    file both unreadable, the check and the loader return a value and
    raise nothing. *)
Lemma storage_failure_counterexample :
  let w := mk_world {[ "137" := Unreadable ]} (Some (Raise OSError)) [] in
  fst (panel_needs_update (panel_137 "2024-03-01T00:00:00Z") false w)
  = Ok true
  ∧ fst (read_panel_data w) = Ok []
  ∧ (∀ e,
       fst (panel_needs_update (panel_137 "2024-03-01T00:00:00Z") false w)
       ≠ Raise e)
  ∧ (∀ e, fst (read_panel_data w) ≠ Raise e).
Proof. repeat split; discriminate. Qed.

(** An API that always hands out a next link is asked 100 times for the
    genes of a panel, and 1000 times for the panel list. *)
Example endless_gene_download :
  let '(r, w') :=
    download_panel_genes endless_api (panel_137 "2024-03-01T00:00:00Z")
      (mk_world ∅ None []) in
  r = Ok (Downloaded "137" "2024-03-01T00:00:00Z" 100)
  ∧ length (requests w') = 100%nat.
Proof. vm_compute. split; reflexivity. Qed.

Example endless_panel_download :
  let '(r, w') := download_panels endless_api (mk_world ∅ None []) in
  r = Ok tt ∧ length (requests w') = 1000%nat.
Proof. vm_compute. split; reflexivity. Qed.

(** The scenario of the specification: a panel without a record is
    planned; once its download has succeeded and its marker is written,
    it is planned no more. *)
Example plan_then_commit :
  let e := panel_137 "2024-03-01T00:00:00Z" in
  let w := mk_world ∅ None [] in
  fst (panels_to_update [e] false w) = Ok [e]
  ∧ fst (panels_to_update [e] false
           (snd (process_panels one_page_api [e] (0, 0)%nat w)))
    = Ok [].
Proof. vm_compute. split; reflexivity. Qed.

(** A panel whose download fails is planned again. *)
Example plan_after_failure :
  let e := panel_137 "2024-03-01T00:00:00Z" in
  let w := mk_world ∅ None [] in
  fst (panels_to_update [e] false
         (snd (process_panels api_without_137 [e] (0, 0)%nat w)))
  = Ok [e].
Proof. vm_compute. reflexivity. Qed.

Example fromisoformat_utc :
  fromisoformat (Str.replace "Z" "+00:00" "2024-03-01T00:00:00Z")
  = Ok (mk_datetime 2024 3 1 0 0 0 0 (Some 0)).
Proof. reflexivity. Qed.

Example fromisoformat_offset :
  fromisoformat "2024-03-01T12:30:05.250-05:30"
  = Ok (mk_datetime 2024 3 1 12 30 5 250000 (Some (-19800000000))).
Proof. reflexivity. Qed.

Example fromisoformat_no_such_day :
  fromisoformat "2024-02-30" = Raise ValueError.
Proof. reflexivity. Qed.

(** The earlier incoming marker of the specification's scenario. *)
Example earlier_marker_is_not_stale :
  fst (panel_needs_update (panel_137 "2024-02-15T00:00:00Z") false
         (one_marker "137" "2024-03-01T00:00:00Z"))
  = Ok false.
Proof. reflexivity. Qed.

(** [isdigit] lets a superscript digit through. *)
Example isdigit_superscript : Str.isdigit (String "178" "") = true.
Proof. reflexivity. Qed.

(** * Further properties of the incremental script *)

(** ** Stripping *)

Section Stripping.


Lemma lstrip_fixed s :
  match s with
  | EmptyString => True
  | String c _ => Str.isspace c = false
  end →
  Str.lstrip s = s.
Proof. destruct s as [|c s]; [done|]. cbn [Str.lstrip]. by intros ->. Qed.




Lemma isdigit_char_not_space c :
  Str.isdigit_char c = true → Str.isspace c = false.
Proof. unfold Str.isdigit_char, Str.is_ascii_digit, Str.isspace. lia. Qed.

Lemma rstrip_without_space s :
  Str.all_chars (λ c, negb (Str.isspace c)) s = true → Str.rstrip s = s.
Proof.
  induction s as [|c s IH]; [reflexivity|].
  cbn [Str.all_chars Str.rstrip]. intros [Hc Hs]%andb_true_iff.
  rewrite (IH Hs). apply negb_true_iff in Hc. by rewrite Hc.
Qed.

Lemma all_chars_impl (f g : ascii → bool) s :
  (∀ c, f c = true → g c = true) →
  Str.all_chars f s = true → Str.all_chars g s = true.
Proof.
  intros Hfg. induction s as [|c s IH]; [done|].
  cbn [Str.all_chars]. intros [Hc Hs]%andb_true_iff.
  by rewrite (Hfg c Hc), (IH Hs).
Qed.

(** A string of digits has nothing to strip. *)
Lemma strip_digits s : Str.isdigit s = true → Str.strip s = s.
Proof.
  unfold Str.isdigit. intros [_ Hall]%andb_true_iff.
  assert (Hns : Str.all_chars (λ c, negb (Str.isspace c)) s = true).
  { eapply all_chars_impl; [|exact Hall].
    intros c Hc. by rewrite (isdigit_char_not_space c Hc). }
  unfold Str.strip. rewrite lstrip_fixed; [by apply rstrip_without_space|].
  destruct s as [|c s]; [exact I|].
  cbn [Str.all_chars] in Hns. apply andb_true_iff in Hns as [Hc _].
  by apply negb_true_iff.
Qed.

End Stripping.

(** ** The catalog and the tracker *)

Section CatalogAndTracker.

Implicit Types (p q : Panel.t) (w : world).


Lemma read_panel_data_rows w rows :
  panel_list w = Some (Ok rows) →
  read_panel_data w = (Ok (omap accepted_row rows), w).
Proof.
  intros H. unfold read_panel_data, bind, panel_list_exists, try_except,
    read_panel_list.
  rewrite H. cbn. rewrite H. unfold ret. by rewrite read_rows_accepted.
Qed.

Lemma read_panel_data_total w :
  ∃ panels, read_panel_data w = (Ok panels, w)
            ∧ ∀ p, In p panels →
                   ∃ rows row, panel_list w = Some (Ok rows)
                               ∧ In row rows ∧ accepted_row row = Some p.
Proof.
  destruct (panel_list w) as [[rows|e]|] eqn:H.
  - exists (omap accepted_row rows).
    split; [by apply read_panel_data_rows|].
    intros p Hin. apply list_elem_of_In, list_elem_of_omap in Hin.
    destruct Hin as (row & Hrow & Hacc).
    exists rows, row. by rewrite <- list_elem_of_In.
  - exists []. split; [|intros p []].
    unfold read_panel_data, bind, panel_list_exists, try_except,
      read_panel_list.
    rewrite H. cbn. by rewrite H.
  - exists []. split; [|intros p []].
    unfold read_panel_data, bind, panel_list_exists. by rewrite H.
Qed.




(** A commit touches the marker of its panel and nothing else. *)
Lemma commit_frame p w :
  version_files (commit p w)
  = <[Panel.id p := Content (Panel.version_created p)]> (version_files w)
  ∧ panel_list (commit p w) = panel_list w
  ∧ requests (commit p w) = requests w.
Proof. done. Qed.

Lemma gt_irreflexive d : valid d → gt d d = Ok false.
Proof.
  intros Hd. rewrite gt_same_awareness by done.
  f_equal. apply bool_decide_eq_false. lia.
Qed.

Lemma compare_markers_same text d :
  fromisoformat (Str.replace "Z" "+00:00" text) = Ok d →
  compare_markers text text = false.
Proof.
  intros Hd. rewrite (compare_markers_parsed _ _ _ _ Hd Hd).
  by rewrite gt_irreflexive by eauto using fromisoformat_valid.
Qed.

(** X3.  Once a panel is committed it is up to date, and so is every
    catalog entry with its id and version: the check answers false,
    provided the version parses as a timestamp and is read back as it
    was written. *)
Theorem commit_makes_up_to_date p q w d :
  fromisoformat (Str.replace "Z" "+00:00" (Panel.version_created p)) = Ok d →
  Str.strip (Str.universal_newlines (Panel.version_created p))
  = Panel.version_created p →
  Panel.id q = Panel.id p →
  Panel.version_created q = Panel.version_created p →
  panel_needs_update q false (commit p w) = (Ok false, commit p w).
Proof.
  intros Hd Hclean Hid Hvc.
  rewrite (needs_update_content q (commit p w) (Panel.version_created p)).
  - rewrite Hclean, Hvc. by rewrite (compare_markers_same _ d Hd).
  - rewrite Hid. destruct (commit_frame p w) as [-> _].
    apply lookup_insert_eq.
Qed.

Lemma commit_makes_up_to_date_witness :
  let p := panel_137 "2024-03-01T00:00:00Z" in
  let w := one_marker "137" "2023-01-01T00:00:00Z" in
  panel_needs_update p false (commit p w) = (Ok false, commit p w).
Proof.
  apply (commit_makes_up_to_date (panel_137 "2024-03-01T00:00:00Z")
           (panel_137 "2024-03-01T00:00:00Z")
           (one_marker "137" "2023-01-01T00:00:00Z")
           (mk_datetime 2024 3 1 0 0 0 0 (Some 0)));
    reflexivity.
Defined.

(** X4.  A panel whose version does not parse as a timestamp is stale in
    every state of the data folder, also right after its own commit: it
    is downloaded on every run. *)
Theorem unparsed_version_is_always_stale p w e :
  fromisoformat (Str.replace "Z" "+00:00" (Panel.version_created p))
  = Raise e →
  panel_needs_update p false w = (Ok true, w)
  ∧ panel_needs_update p false (commit p w) = (Ok true, commit p w).
Proof.
  intros He.
  assert (Hany : ∀ w', panel_needs_update p false w' = (Ok true, w')).
  { intros w'.
    destruct (version_files w' !! Panel.id p) as [[|content]|] eqn:H.
    - by apply needs_update_unreadable.
    - rewrite (needs_update_content _ _ _ H). unfold compare_markers.
      destruct (Str.is_empty _); [reflexivity|]. by rewrite He.
    - by apply needs_update_absent. }
  split; apply Hany.
Qed.

Lemma unparsed_version_is_always_stale_witness :
  let p := panel_137 "None" in
  let w := mk_world ∅ None [] in
  panel_needs_update p false w = (Ok true, w)
  ∧ panel_needs_update p false (commit p w) = (Ok true, commit p w).
Proof.
  apply (unparsed_version_is_always_stale (panel_137 "None")
           (mk_world ∅ None []) ValueError).
  reflexivity.
Defined.

End CatalogAndTracker.

(** ** Downloads and the pass *)

Section Downloads.

Variable api : nat → string → result page.

Implicit Types (p q : Panel.t) (w : world).

Lemma fetch_page_ok next_url w data w' :
  fetch_page api next_url w = (Ok data, w') →
  ∃ url, next_url = PyStr url
         ∧ api (length (requests w)) url = Ok data
         ∧ requests w' = (requests w ++ [url])%list
         ∧ version_files w' = version_files w
         ∧ panel_list w' = panel_list w.
Proof.
  unfold fetch_page. destruct next_url as [|url|t]; try discriminate.
  intros [= Hapi <-]. by exists url.
Qed.

Lemma fetch_page_raise next_url w e w' :
  fetch_page api next_url w = (Raise e, w') →
  (∃ url, next_url = PyStr url
          ∧ requests w' = (requests w ++ [url])%list)
  ∨ (w' = w ∧ ∀ url, next_url ≠ PyStr url).
Proof.
  unfold fetch_page. destruct next_url as [|url|t].
  - intros [= _ <-]. by right.
  - intros [= _ <-]. left. by exists url.
  - intros [= _ <-]. by right.
Qed.

(** The page counter moves by one for each request. *)
Lemma page_loop_counts limit page next_url w :
  match page_loop api limit page next_url w with
  | (Ok page', w') =>
      (page ≤ page')%nat
      ∧ ∃ urls, requests w' = (requests w ++ urls)%list
                ∧ length urls = (page' - page)%nat
  | (Raise _, _) => True
  end.
Proof.
  funelim (page_loop api limit page next_url w);
    try match goal with
        | Hf : fetch_page api _ _ = (Ok _, _) |- _ =>
            destruct (fetch_page_ok _ _ _ _ Hf)
              as (url & -> & Hapi & Hreq & _)
        end.
  - split; [lia|]. exists []. rewrite app_nil_r. split; [done|cbn; lia].
  - exact I.
  - destruct (page_loop api limit (page0 + 1) (next data) w')
      as [[page'|e] w'']; [|exact I].
    destruct H as (Hle & urls & Hr & Hl). split; [lia|].
    exists (url :: urls). rewrite Hr, Hreq, <- app_assoc.
    split; [done|cbn; lia].
  - split; [lia|]. exists [url]. split; [done|cbn; lia].
Qed.

(** The requests of the loop follow the next links. *)
Lemma page_loop_follows_links limit page next_url w :
  let w' := snd (page_loop api limit page next_url w) in
  (∃ url rest,
     next_url = PyStr url
     ∧ requests w' = (requests w ++ url :: rest)%list
     ∧ is_chain api (length (requests w)) url rest)
  ∨ (requests w' = requests w
     ∧ ∀ url, next_url = PyStr url → loop_cond next_url = false).
Proof.
  cbv zeta. funelim (page_loop api limit page next_url w); cbn [snd].
  - right. by split.
  - destruct (fetch_page_raise _ _ _ _ Heq) as [(url & -> & Hr)|[-> Hns]].
    + left. by exists url, [].
    + right. split; [done|]. intros url ->. by destruct (Hns url).
  - destruct (fetch_page_ok _ _ _ _ Heq0) as (url & -> & Hapi & Hreq & _).
    left. destruct H as [(url' & rest & Hn & Hr & Hc)|[Hr _]].
    + exists url, (url' :: rest). split; [done|].
      rewrite Hr, Hreq, <- app_assoc. split; [done|].
      cbn [is_chain]. split; [by exists data|].
      rewrite Hreq, length_app in Hc. cbn [length] in Hc.
      by replace (length (requests w) + 1)%nat
        with (S (length (requests w))) in Hc by lia.
    + exists url, []. by rewrite Hr, Hreq.
  - destruct (fetch_page_ok _ _ _ _ Heq0) as (url & -> & Hapi & Hreq & _).
    left. by exists url, [].
Qed.

Lemma gene_url_condition panel_id :
  loop_cond (PyStr (gene_url panel_id)) = true.
Proof. reflexivity. Qed.

Lemma download_panel_genes_unfold p w :
  download_panel_genes api p w
  = match page_loop api 100 1 (PyStr (gene_url (Panel.id p))) w with
    | (Ok page, w') =>
        (Ok (Downloaded (Panel.id p) (Panel.version_created p) (page - 1)),
         w')
    | (Raise e, w') => (Ok (Failed (Panel.id p) e), w')
    end.
Proof.
  unfold download_panel_genes, try_except, bind, ret, gene_url.
  by destruct (page_loop _ _ _ _ _) as [[page|e] w'].
Qed.

(** X5.  A download starts at the gene URL of the panel and goes on to
    the next link of each page; when it succeeds, it reports the id and
    version of the panel and as many pages as it made requests, at least
    one and at most 100. *)
Theorem download_reports_its_requests p w :
  let '(r, w') := download_panel_genes api p w in
  ∃ rest,
    requests w' = (requests w ++ gene_url (Panel.id p) :: rest)%list
    ∧ is_chain api (length (requests w)) (gene_url (Panel.id p)) rest
    ∧ match r with
      | Ok (Downloaded panel_id version_created pages_downloaded) =>
          panel_id = Panel.id p
          ∧ version_created = Panel.version_created p
          ∧ pages_downloaded = S (length rest)
          ∧ (1 ≤ pages_downloaded ≤ 100)%nat
      | _ => True
      end.
Proof.
  rewrite download_panel_genes_unfold.
  pose proof (page_loop_follows_links 100 1
                (PyStr (gene_url (Panel.id p))) w) as Hlinks.
  pose proof (page_loop_counts 100 1 (PyStr (gene_url (Panel.id p))) w)
    as Hcount.
  pose proof (page_loop_extends api 100 1
                (PyStr (gene_url (Panel.id p))) w) as Hbound.
  cbv zeta in Hlinks.
  destruct (page_loop api 100 1 _ w) as [[page|e] w']; cbn [snd] in *;
    (destruct Hlinks as [(url & rest & [= <-] & Hr & Hc)|[_ Hno]];
     [|by specialize (Hno _ eq_refl)]);
    exists rest; (split; [exact Hr|]); (split; [exact Hc|]); [|exact I].
  destruct Hcount as (Hle & urls & Hr' & Hl).
  destruct Hbound as (_ & _ & urls' & Hr'' & Hl').
  rewrite Hr in Hr', Hr''.
  apply app_inv_head in Hr', Hr''. subst urls urls'.
  cbn [length] in *. repeat split; lia.
Qed.

End Downloads.

Section PassAndMain.

Variable api : nat → string → result page.

Implicit Types (p q : Panel.t) (w : world) (panels : list Panel.t).

Lemma process_panel_counts p successful failed w :
  ∃ w',
    process_panel api p (successful, failed) w
    = (Ok (if refresh_succeeds api p w
           then (S successful, failed) else (successful, S failed)), w')
    ∧ extends 100 (if refresh_succeeds api p w then commit p w else w) w'.
Proof.
  destruct (download_panel_genes_total api p w) as (r & w1 & Hd & Hext).
  unfold process_panel, refresh_succeeds, bind. rewrite Hd. cbn [fst].
  destruct (success r); cbn.
  - eexists. split; [reflexivity|].
    destruct Hext as (Hv & Hp & urls & Hr & Hl).
    repeat split; cbn; [by rewrite Hv|done|by exists urls].
  - by exists w1.
Qed.

Lemma attempts_panels panels counts w p w0 :
  In (p, w0) (attempts api panels counts w) → In p panels.
Proof.
  revert counts w. induction panels as [|p' rest IH]; intros counts w;
    [done|].
  cbn [attempts]. intros [[= <- <-]|Hin]; [by left|]. right.
  destruct (process_panel api p' counts w) as [[counts'|e] w'];
    [by eapply IH|done].
Qed.

(** Where no directory fails to be made and no version file to be
    written, the pass takes one turn for each panel it is given and
    counts each turn once: as successful when the download succeeded, as
    failed otherwise. *)
Lemma pass_counts panels successful failed w :
  ∃ successful' failed' w',
    process_panels api panels (successful, failed) w
    = (Ok (successful', failed'), w')
    ∧ length (attempts api panels (successful, failed) w) = length panels
    ∧ (successful' - successful)%nat
      = length (List.filter
                  (λ attempt, refresh_succeeds api (fst attempt) (snd attempt))
                  (attempts api panels (successful, failed) w))
    ∧ (successful' + failed')%nat
      = (successful + failed + length panels)%nat
    ∧ (successful ≤ successful')%nat.
Proof.
  revert successful failed w.
  induction panels as [|p rest IH]; intros s f w.
  - exists s, f, w. cbn. repeat split; lia.
  - destruct (process_panel_counts p s f w) as (w1 & Hstep & _).
    destruct (process_panels_cons api p rest (s, f) w _ w1 Hstep)
      as [-> ->].
    cbn [List.filter length fst snd].
    destruct (refresh_succeeds api p w);
      [destruct (IH (S s) f w1) as (s' & f' & w' & -> & Hl & Hs & Hsum & Hle)
      |destruct (IH s (S f) w1) as (s' & f' & w' & -> & Hl & Hs & Hsum & Hle)];
      exists s', f', w'; cbn [length]; repeat split; lia.
Qed.

Lemma pass_leaves_other_ids panels counts w panel_id :
  ¬ In panel_id (map Panel.id panels) →
  version_files (snd (process_panels api panels counts w)) !! panel_id
  = version_files w !! panel_id.
Proof.
  intros Hnot. apply pass_keeps_failed_markers.
  intros p w0 Hin Hid. destruct Hnot. apply in_map_iff.
  exists p. split; [exact Hid|]. by eapply attempts_panels.
Qed.

Lemma pass_commits_successes panels counts w p w0 :
  NoDup (map Panel.id panels) →
  In (p, w0) (attempts api panels counts w) →
  refresh_succeeds api p w0 = true →
  version_files (snd (process_panels api panels counts w)) !! Panel.id p
  = Some (Content (Panel.version_created p)).
Proof.
  revert counts w. induction panels as [|p' rest IH]; intros counts w Hnd Hin;
    [done|].
  destruct counts as [s f].
  destruct (process_panel_counts p' s f w) as (w1 & Hstep & Hext).
  destruct (process_panels_cons api p' rest (s, f) w _ w1 Hstep)
    as [Hrun Hatt].
  rewrite Hrun. rewrite Hatt in Hin.
  cbn [map] in Hnd. apply NoDup_cons in Hnd as [Hfresh Hnd].
  destruct Hin as [[= <- <-]|Hin].
  - intros Hok. rewrite Hok in Hext.
    rewrite pass_leaves_other_ids
      by (by rewrite <- list_elem_of_In).
    destruct Hext as (-> & _). destruct (commit_frame p' w) as [-> _].
    apply lookup_insert_eq.
  - by apply IH.
Qed.

(** X7.  In a pass over panels of distinct ids, a panel whose download
    succeeded holds its own version as marker when the pass ends, and is
    up to date, provided the version parses as a timestamp and is read
    back as it was written. *)
Theorem pass_brings_successes_up_to_date panels counts w p w0 d :
  NoDup (map Panel.id panels) →
  In (p, w0) (attempts api panels counts w) →
  refresh_succeeds api p w0 = true →
  fromisoformat (Str.replace "Z" "+00:00" (Panel.version_created p)) = Ok d →
  Str.strip (Str.universal_newlines (Panel.version_created p))
  = Panel.version_created p →
  let w' := snd (process_panels api panels counts w) in
  version_files w' !! Panel.id p = Some (Content (Panel.version_created p))
  ∧ panel_needs_update p false w' = (Ok false, w').
Proof.
  intros Hnd Hin Hok Hd Hclean. cbv zeta.
  pose proof (pass_commits_successes panels counts w p w0 Hnd Hin Hok) as Hm.
  split; [exact Hm|].
  rewrite (needs_update_content _ _ _ Hm), Hclean.
  by rewrite (compare_markers_same _ d Hd).
Qed.

Lemma process_panels_total panels counts w :
  ∃ counts' w',
    process_panels api panels counts w = (Ok counts', w')
    ∧ panel_list w' = panel_list w.
Proof.
  revert counts w. induction panels as [|p rest IH]; intros [s f] w.
  - by exists (s, f), w.
  - destruct (process_panel_counts p s f w) as (w1 & Hstep & Hext).
    destruct (process_panels_cons api p rest (s, f) w _ w1 Hstep) as [-> _].
    destruct (IH (if refresh_succeeds api p w then (S s, f) else (s, S f))
                w1) as (c' & w' & -> & Hp).
    exists c', w'. split; [done|]. rewrite Hp.
    destruct Hext as (_ & -> & _). by destruct (refresh_succeeds api p w).
Qed.

(** Where no call on the file system fails outside a [try], [main] exits
    with status 1 exactly when the loader returns no panel, and with
    status 0 otherwise, also when downloads have failed. *)
Lemma main_status force w :
  ∃ panels w',
    read_panel_data w = (Ok panels, w)
    ∧ main api force w
      = (Ok (if bool_decide (panels = []) then 1 else 0), w')
    ∧ panel_list w' = panel_list w.
Proof.
  destruct (read_panel_data_total w) as (panels & Hread & _).
  exists panels. unfold main, try_except, bind at 1. rewrite Hread.
  destruct (bool_decide (panels = [])).
  - by exists w.
  - unfold bind at 1. rewrite panels_to_update_filter.
    destruct (bool_decide (List.filter _ panels = [])); [by exists w|].
    unfold bind.
    destruct (process_panels_total
                (List.filter (λ p, force || is_stale p w) panels)
                (0, 0)%nat w) as (c' & w' & -> & Hp).
    by exists w'.
Qed.

(** X9.  When the catalog has panels and none of them is stale, [main]
    without the force flag exits with status 0 having requested nothing
    and written nothing. *)
Theorem main_with_nothing_stale w rows :
  panel_list w = Some (Ok rows) →
  omap accepted_row rows ≠ [] →
  (∀ p, In p (omap accepted_row rows) → is_stale p w = false) →
  main api false w = (Ok 0, w).
Proof.
  intros Hrows Hne Hfresh.
  unfold main, try_except, bind at 1.
  rewrite (read_panel_data_rows w rows Hrows).
  rewrite bool_decide_eq_false_2 by done.
  unfold bind at 1. rewrite panels_to_update_filter. cbn [orb].
  assert (Hnil : ∀ l, (∀ p, In p l → is_stale p w = false) →
                      List.filter (λ p, is_stale p w) l = []).
  { induction l as [|p rest IH]; intros Hl; [reflexivity|].
    cbn [List.filter]. rewrite (Hl p) by by left.
    apply IH. intros q Hq. apply Hl. by right. }
  by rewrite (Hnil _ Hfresh).
Qed.

Lemma download_request_count p w :
  ∃ urls,
    requests (snd (download_panel_genes api p w))
    = (requests w ++ urls)%list
    ∧ (1 ≤ length urls ≤ 100)%nat.
Proof.
  rewrite download_panel_genes_unfold.
  pose proof (page_loop_follows_links api 100 1
                (PyStr (gene_url (Panel.id p))) w) as Hlinks.
  pose proof (page_loop_extends api 100 1
                (PyStr (gene_url (Panel.id p))) w) as Hbound.
  cbv zeta in Hlinks.
  destruct Hbound as (_ & _ & urls & Hr & Hl).
  exists urls.
  destruct (page_loop api 100 1 _ w) as [[page|e] w']; cbn [snd] in *;
    (split; [exact Hr|]);
    (destruct Hlinks as [(url & rest & _ & Hr' & _)|[_ Hno]];
     [|by specialize (Hno _ eq_refl)]);
    rewrite Hr in Hr'; apply app_inv_head in Hr'; subst urls;
    cbn [length] in *; lia.
Qed.

Lemma process_panel_request_count p counts w :
  ∃ urls,
    requests (snd (process_panel api p counts w))
    = (requests w ++ urls)%list
    ∧ (1 ≤ length urls ≤ 100)%nat.
Proof.
  destruct (download_request_count p w) as (urls & Hr & Hl).
  exists urls. split; [|exact Hl].
  unfold process_panel. destruct counts as [s f]. unfold bind.
  destruct (download_panel_genes api p w) as [[r|e] w1]; cbn [snd] in *;
    [|done].
  by destruct (success r).
Qed.

(** Where no directory fails to be made and no version file to be
    written, a pass over [n] panels makes at least [n] and at most
    [100 n] requests to the API. *)
Lemma pass_requests panels counts w :
  ∃ urls,
    requests (snd (process_panels api panels counts w))
    = (requests w ++ urls)%list
    ∧ (length panels ≤ length urls ≤ 100 * length panels)%nat.
Proof.
  revert counts w. induction panels as [|p rest IH]; intros counts w.
  - exists []. cbn. rewrite app_nil_r. split; [done|lia].
  - destruct (process_panel_request_count p counts w) as (u1 & Hr1 & Hl1).
    destruct counts as [s f].
    destruct (process_panel_counts p s f w) as (w1 & Hstep & _).
    rewrite Hstep in Hr1. cbn [snd] in Hr1.
    destruct (process_panels_cons api p rest (s, f) w _ w1 Hstep) as [-> _].
    destruct (IH (if refresh_succeeds api p w then (S s, f) else (s, S f))
                w1) as (u2 & -> & Hl2).
    exists (u1 ++ u2)%list. rewrite Hr1, <- app_assoc, length_app.
    split; [done|cbn [length]; lia].
Qed.

End PassAndMain.

Lemma main_with_nothing_stale_witness :
  let w :=
    mk_world {[ "137" := Content "2024-03-01T00:00:00Z" ]}
      (Some (Ok [full_row; short_row])) [] in
  main endless_api false w = (Ok 0, w).
Proof.
  apply (main_with_nothing_stale endless_api
           (mk_world {[ "137" := Content "2024-03-01T00:00:00Z" ]}
              (Some (Ok [full_row; short_row])) [])
           [full_row; short_row]).
  - reflexivity.
  - discriminate.
  - intros p [<-|[]]. reflexivity.
Defined.


(** * The listing script *)

Section Listing.

Variable container_str : json → string.

Abbreviation dir_of := (λ info, py_str container_str (info_id info)).

Implicit Types (panel : json) (info : panel_info)
  (files : gmap string file) (pd : list panel_info).

Lemma panel_entry_inv panel info :
  panel_entry panel = Ok info →
  ∃ members,
    panel = JDict members
    ∧ info_version_created info
      = match member members "version_created" with
        | Some v => v
        | None => JNull
        end.
Proof.
  destruct panel as [| | | | | |members]; try discriminate.
  intros H. exists members. split; [reflexivity|].
  unfold panel_entry in H. cbn [json_get result_bind] in H.
  destruct (match member members "stats" with Some v => v | None => _ end);
    try discriminate.
  cbn [json_get result_bind] in H. by injection H as <-.
Qed.

Lemma track_panel_ok panel info pd files :
  panel_entry panel = Ok info →
  track_panel container_str panel (pd, files)
  = (if tracked_cleanly panel then Ok tt else Raise TypeError,
     ((pd ++ [info])%list, record_marker container_str files info)).
Proof.
  intros Hinfo. destruct (panel_entry_inv _ _ Hinfo) as (members & -> & Hvc).
  unfold track_panel, tracked_cleanly, record_marker. rewrite Hinfo, Hvc.
  cbn [json_get].
  destruct (member members "version_created") as [[]|]; reflexivity.
Qed.

Lemma track_panel_raise panel e pd files :
  panel_entry panel = Raise e →
  track_panel container_str panel (pd, files) = (Raise e, (pd, files)).
Proof. intros H. unfold track_panel. by rewrite H. Qed.

Lemma tracked_cleanly_entry panel :
  tracked_cleanly panel = true → ∃ info, panel_entry panel = Ok info.
Proof.
  unfold tracked_cleanly. destruct (panel_entry panel) as [info|];
    [by exists info|discriminate].
Qed.

(** A page whose panels all pass is taken in whole. *)
Lemma track_panels_clean panels pd files :
  forallb tracked_cleanly panels = true →
  track_panels container_str panels (pd, files)
  = (Ok tt,
     ((pd ++ entries_of panels)%list,
      foldl (record_marker container_str) files (entries_of panels))).
Proof.
  revert pd files. induction panels as [|panel rest IH]; intros pd files.
  - intros _. cbn. by rewrite app_nil_r.
  - cbn [forallb]. intros [Hc Hrest]%andb_true_iff.
    destruct (tracked_cleanly_entry _ Hc) as [info Hinfo].
    cbn [track_panels]. rewrite (track_panel_ok _ _ _ _ Hinfo), Hc.
    rewrite (IH _ _ Hrest). unfold entries_of. cbn [omap list_omap].
    rewrite Hinfo. cbn [foldl]. by rewrite <- app_assoc.
Qed.

(** Whatever the pages hold, the version files written are those of the
    entries collected. *)
Lemma track_panels_invariant panels pd files :
  ∃ new,
    snd (track_panels container_str panels (pd, files))
    = ((pd ++ new)%list, foldl (record_marker container_str) files new).
Proof.
  revert pd files. induction panels as [|panel rest IH]; intros pd files.
  - exists []. cbn. by rewrite app_nil_r.
  - cbn [track_panels].
    destruct (panel_entry panel) as [info|e] eqn:Hinfo.
    + rewrite (track_panel_ok _ _ _ _ Hinfo).
      destruct (tracked_cleanly panel).
      * destruct (IH (pd ++ [info])%list
                    (record_marker container_str files info)) as [new ->].
        exists (info :: new). by rewrite <- app_assoc.
      * by exists [info].
    + rewrite (track_panel_raise _ _ _ _ Hinfo). exists []. cbn.
      by rewrite app_nil_r.
Qed.

Lemma track_page_invariant page_file pd files :
  ∃ new,
    track_page container_str page_file (pd, files)
    = ((pd ++ new)%list, foldl (record_marker container_str) files new).
Proof.
  unfold track_page.
  destruct (result_bind page_file _) as [panels|e].
  - apply track_panels_invariant.
  - exists []. cbn. by rewrite app_nil_r.
Qed.

Lemma track_pages_invariant pages pd files :
  ∃ new,
    foldl (λ st page_file, track_page container_str page_file st)
      (pd, files) pages
    = ((pd ++ new)%list, foldl (record_marker container_str) files new).
Proof.
  revert pd files. induction pages as [|page_file rest IH]; intros pd files.
  - exists []. cbn. by rewrite app_nil_r.
  - cbn [foldl].
    destruct (track_page_invariant page_file pd files) as [new1 ->].
    destruct (IH (pd ++ new1)%list
                (foldl (record_marker container_str) files new1))
      as [new2 ->].
    exists (new1 ++ new2)%list. by rewrite <- app_assoc, foldl_app.
Qed.

Lemma extract_panel_info_unfold l :
  extract_panel_info container_str l
  = (Ok tt,
     mk_listing (page_files l)
       (foldl (record_marker container_str) (markers l)
          (panels_listed container_str l))
       (Some (tsv_header
              +:+ String.concat ""
                    (map (tsv_line container_str)
                       (panels_listed container_str l))))).
Proof.
  unfold extract_panel_info, panels_listed.
  destruct (track_pages_invariant (page_files l) [] (markers l)) as [new ->].
  reflexivity.
Qed.

Lemma record_markers_other infos files dir :
  ¬ In dir (map dir_of infos) →
  foldl (record_marker container_str) files infos !! dir = files !! dir.
Proof.
  revert files. induction infos as [|info rest IH]; intros files Hnot;
    [reflexivity|].
  cbn [foldl]. rewrite IH by (intros Hin; apply Hnot; by right).
  unfold record_marker. apply lookup_insert_ne.
  intros Heq. apply Hnot. by left.
Qed.

Lemma record_markers_listed infos files info :
  NoDup (map dir_of infos) → In info infos →
  foldl (record_marker container_str) files infos !! dir_of info
  = Some (Content (marker_text (info_version_created info))).
Proof.
  revert files. induction infos as [|info' rest IH]; intros files Hnd Hin;
    [done|].
  cbn [map] in Hnd. apply NoDup_cons in Hnd as [Hfresh Hnd].
  cbn [foldl]. destruct Hin as [->|Hin].
  - rewrite record_markers_other by (by rewrite <- list_elem_of_In).
    unfold record_marker. apply lookup_insert_eq.
  - by apply IH.
Qed.

Lemma record_markers_readable infos files info :
  In info infos →
  ∃ text,
    foldl (record_marker container_str) files infos !! dir_of info
    = Some (Content text).
Proof.
  revert files info.
  induction infos as [|info' rest IH]; intros files info Hin; [done|].
  cbn [foldl]. destruct Hin as [->|Hin]; [|by apply IH].
  destruct (in_dec string_dec (dir_of info) (map dir_of rest))
    as [Hlater|Hlast].
  - apply in_map_iff in Hlater as (info2 & Heq & Hin2).
    destruct (IH (record_marker container_str files info) info2 Hin2)
      as [text Htext].
    exists text. by rewrite <- Heq.
  - rewrite (record_markers_other _ _ _ Hlast).
    eexists. unfold record_marker. apply lookup_insert_eq.
Qed.

(** X10.  [extract_panel_info] returns without raising.  The summary
    holds the header and one line for each entry collected, and the
    version files are the ones found with those of the entries written
    over them in order: a version file is written for every panel of the
    summary and for no other. *)
Theorem summary_and_markers_agree l :
  let listed := panels_listed container_str l in
  let l' := snd (extract_panel_info container_str l) in
  fst (extract_panel_info container_str l) = Ok tt
  ∧ page_files l' = page_files l
  ∧ summary l'
    = Some (tsv_header
            +:+ String.concat "" (map (tsv_line container_str) listed))
  ∧ markers l' = foldl (record_marker container_str) (markers l) listed
  ∧ (∀ info, In info listed →
             ∃ text, markers l' !! dir_of info = Some (Content text))
  ∧ (∀ dir, ¬ In dir (map dir_of listed) →
            markers l' !! dir = markers l !! dir).
Proof.
  cbv zeta. rewrite extract_panel_info_unfold. cbn [fst snd].
  cbn [page_files summary markers].
  repeat split.
  - intros info Hin. by apply record_markers_readable.
  - intros dir Hnot. by apply record_markers_other.
Qed.

(** X11.  After [extract_panel_info], a panel of the summary with a
    string as version, told apart from the others by its id, counts as
    up to date for the incremental script: the check answers false for
    the catalog entry of that id and version, provided the version
    parses as a timestamp and is read back as it was written. *)
Theorem listed_panel_is_up_to_date l info s q w d :
  In info (panels_listed container_str l) →
  NoDup (map dir_of (panels_listed container_str l)) →
  info_version_created info = JStr s →
  version_files w = markers (snd (extract_panel_info container_str l)) →
  Panel.id q = dir_of info →
  Panel.version_created q = s →
  fromisoformat (Str.replace "Z" "+00:00" s) = Ok d →
  Str.strip (Str.universal_newlines s) = s →
  panel_needs_update q false w = (Ok false, w).
Proof.
  intros Hin Hnd Hvc Hfiles Hid Hq Hd Hclean.
  rewrite (needs_update_content q w s).
  - rewrite Hclean, Hq. by rewrite (compare_markers_same _ d Hd).
  - rewrite Hfiles, Hid, extract_panel_info_unfold. cbn [snd markers].
    rewrite (record_markers_listed _ _ info Hnd Hin). by rewrite Hvc.
Qed.

Lemma track_pages_clean pages pd files :
  (∀ page_file, In page_file pages →
                forallb tracked_cleanly (page_panels page_file) = true) →
  foldl (λ st page_file, track_page container_str page_file st)
    (pd, files) pages
  = ((pd ++ entries_of (concat (map page_panels pages)))%list,
     foldl (record_marker container_str) files
       (entries_of (concat (map page_panels pages)))).
Proof.
  revert pd files.
  induction pages as [|page_file rest IH]; intros pd files Hclean.
  - cbn. by rewrite app_nil_r.
  - cbn [foldl map concat].
    assert (Hpage :
      track_page container_str page_file (pd, files)
      = ((pd ++ entries_of (page_panels page_file))%list,
         foldl (record_marker container_str) files
           (entries_of (page_panels page_file)))).
    { specialize (Hclean page_file (or_introl eq_refl)).
      unfold track_page, page_panels in *.
      destruct (result_bind page_file _) as [panels|e].
      - by rewrite (track_panels_clean _ _ _ Hclean).
      - cbn. by rewrite app_nil_r. }
    rewrite Hpage, IH by (intros pf Hpf; apply Hclean; by right).
    unfold entries_of. rewrite omap_app, foldl_app.
    by rewrite <- app_assoc.
Qed.

(** X12.  When every panel of every page has an entry and a string, or
    nothing, as version, all of them are collected, page after page in
    the order of the pages. *)
Theorem clean_pages_are_listed_in_full l :
  (∀ page_file, In page_file (page_files l) →
                forallb tracked_cleanly (page_panels page_file) = true) →
  panels_listed container_str l
  = entries_of (concat (map page_panels (page_files l))).
Proof.
  intros Hclean. unfold panels_listed.
  by rewrite (track_pages_clean _ [] (markers l) Hclean).
Qed.

(** X13.  A panel whose [version_created] is there but is no string ends
    the turn of its page: it is collected and its version file is left
    empty, and the panels after it in the page are neither collected nor
    given a version file. *)
Theorem unwritable_version_cuts_the_page before bad after info v pd files :
  forallb tracked_cleanly before = true →
  panel_entry bad = Ok info →
  json_get bad "version_created" (JStr "") = Ok v →
  (∀ s, v ≠ JStr s) →
  track_panels container_str (before ++ bad :: after) (pd, files)
  = (Raise TypeError,
     ((pd ++ entries_of before ++ [info])%list,
      <[dir_of info := Content ""]>
        (foldl (record_marker container_str) files (entries_of before)))).
Proof.
  intros Hbefore Hinfo Hv Hns.
  assert (Hbad : tracked_cleanly bad = false).
  { unfold tracked_cleanly. rewrite Hinfo, Hv.
    destruct v; try reflexivity. by destruct (Hns s). }
  assert (Htext : marker_text (info_version_created info) = "").
  { destruct (panel_entry_inv _ _ Hinfo) as (members & -> & ->).
    cbn [json_get] in Hv. injection Hv as Hv.
    destruct (member members "version_created") as [v'|]; [|reflexivity].
    subst v'. destruct v; try reflexivity. by destruct (Hns s). }
  revert pd files. induction before as [|panel rest IH]; intros pd files.
  - cbn [app track_panels]. rewrite (track_panel_ok _ _ _ _ Hinfo), Hbad.
    unfold record_marker. by rewrite Htext.
  - cbn [forallb] in Hbefore. apply andb_true_iff in Hbefore as [Hc Hrest].
    destruct (tracked_cleanly_entry _ Hc) as [info' Hinfo'].
    cbn [app track_panels]. rewrite (track_panel_ok _ _ _ _ Hinfo'), Hc.
    rewrite (IH Hrest). unfold entries_of. cbn [omap list_omap].
    rewrite Hinfo'. cbn [foldl]. by rewrite <- !app_assoc.
Qed.

End Listing.

(** * The wrapper script *)

Section WrapperProperties.

Variable script_path_of : string → string.
Variable path_exists : list command → string → bool.
Variable subprocess_run : list command → command → run_outcome.

Abbreviation run := (run_script path_exists subprocess_run).
Abbreviation wmain :=
  (wrapper_main script_path_of path_exists subprocess_run).
Abbreviation step_of := (step_of path_exists).

(** A script is run at most once by [run_script], and only if it is
    there. *)
Lemma run_script_ran script_path args optional ran :
  snd (run script_path args optional ran)
  = if path_exists ran script_path
    then (ran ++ [(script_path, args)])%list else ran.
Proof.
  unfold run_script. destruct (path_exists ran script_path); cbn [negb];
    [|reflexivity].
  by destruct (subprocess_run ran (script_path, args)).
Qed.

Lemma run_script_value script_path args optional ran :
  fst (run script_path args optional ran)
  = if path_exists ran script_path
    then match subprocess_run ran (script_path, args) with
         | Exited returncode => returncode =? 0
         | _ => false
         end
    else optional.
Proof.
  unfold run_script. destruct (path_exists ran script_path); cbn [negb].
  - destruct (subprocess_run ran (script_path, args)) as [rc| |];
      try reflexivity. cbn [fst]. by destruct (rc =? 0).
  - by destruct optional.
Qed.

(** X14.  The wrapper exits with status 0 exactly when the panel list
    script is there, exits with 0 and leaves the output path in place;
    what the scripts after it do, the gene extraction among them, does
    not change the status. *)
Theorem wrapper_exit_status args ran :
  fst (wmain args ran)
  = if panel_list_step_ok script_path_of path_exists subprocess_run args ran
    then 0 else 1.
Proof.
  unfold wrapper_main, panel_list_step_ok. cbn [fst].
  pose proof (run_script_ran (script_path_of "extract_panel_list.py")
                (with_verbose args ["--output-path"; output_path args])
                false ran) as Hran.
  pose proof (run_script_value (script_path_of "extract_panel_list.py")
                (with_verbose args ["--output-path"; output_path args])
                false ran) as Hval.
  destruct (run _ _ false ran) as [listed ran1]. cbn [fst snd] in *.
  subst listed ran1.
  destruct (path_exists ran (script_path_of "extract_panel_list.py"));
    [|reflexivity].
  destruct (subprocess_run ran _) as [rc| |]; try reflexivity.
  destruct (rc =? 0); [|reflexivity]. cbn [negb andb].
  destruct (path_exists _ (output_path args)); [|reflexivity]. cbn [negb].
  destruct (skip_genes args); cbn [negb];
    [|destruct (run _ _ false _)]; reflexivity.
Qed.

Ltac sublist_steps :=
  cbn [app];
  repeat first [ apply sublist_nil_l
               | apply sublist_skip
               | apply sublist_cons ].

Lemma run_script_step script script_args optional ran :
  snd (run script script_args optional ran)
  = (ran ++ step_of script script_args ran)%list.
Proof.
  rewrite run_script_ran. unfold step_of.
  destruct (path_exists ran script); [reflexivity|by rewrite app_nil_r].
Qed.

Lemma wrapper_main_ran args ran :
  let c1 := (script_path_of "extract_panel_list.py",
             with_verbose args ["--output-path"; output_path args]) in
  let data_args := with_verbose args ["--data-path"; output_path args] in
  let s1 := step_of (fst c1) (snd c1) ran in
  let ran1 := (ran ++ s1)%list in
  let s2 :=
    if skip_genes args then []
    else step_of (script_path_of "extract_genes_incremental.py") data_args
           ran1 in
  let ran2 := (ran1 ++ s2)%list in
  let s3 :=
    if skip_strs args then []
    else step_of (script_path_of "extract_strs.py") data_args ran2 in
  let ran3 := (ran2 ++ s3)%list in
  let s4 :=
    if skip_regions args then []
    else step_of (script_path_of "extract_regions.py") data_args ran3 in
  snd (wmain args ran)
  = if Z.eqb (fst (wmain args ran)) 1 then ran1
    else (ran ++ s1 ++ s2 ++ s3 ++ s4)%list.
Proof.
  cbv zeta. unfold wrapper_main.
  pose proof (run_script_step (script_path_of "extract_panel_list.py")
                (with_verbose args ["--output-path"; output_path args])
                false ran) as Hran.
  destruct (run _ _ false ran) as [listed ran1]. cbn [fst snd] in *.
  subst ran1. destruct listed; cbn [negb]; [|reflexivity].
  destruct (path_exists _ (output_path args)); cbn [negb]; [|reflexivity].
  cbn [fst snd Z.eqb].
  destruct (skip_genes args); cbn [negb].
  - rewrite app_nil_r.
    destruct (skip_strs args), (skip_regions args); cbn [negb];
      rewrite ?run_script_step, ?app_nil_r, <- ?app_assoc; reflexivity.
  - pose proof (run_script_step
                  (script_path_of "extract_genes_incremental.py")
                  (with_verbose args ["--data-path"; output_path args])
                  false
                  (ran ++ step_of (script_path_of "extract_panel_list.py")
                            (with_verbose args
                               ["--output-path"; output_path args]) ran))
      as Hgene.
    destruct (run _ _ false _) as [done ran2]. cbn [snd] in Hgene.
    subst ran2.
    destruct (skip_strs args), (skip_regions args); cbn [negb];
      rewrite ?run_script_step, ?app_nil_r, <- ?app_assoc; reflexivity.
Qed.

Lemma each_existed_app ran new1 new2 :
  each_existed path_exists ran (new1 ++ new2)
  = each_existed path_exists ran new1
    && each_existed path_exists (ran ++ new1) new2.
Proof.
  revert ran. induction new1 as [|cmd rest IH]; intros ran.
  - cbn. by rewrite app_nil_r.
  - cbn [app each_existed]. rewrite IH, <- app_assoc. cbn [app].
    by rewrite andb_assoc.
Qed.

Lemma each_existed_step script script_args ran :
  each_existed path_exists ran (step_of script script_args ran) = true.
Proof.
  unfold step_of. destruct (path_exists ran script) eqn:H; [|reflexivity].
  cbn. by rewrite H.
Qed.

(** X15.  The wrapper runs its scripts in the order panel list, genes,
    STRs, regions, each at most once and never one that its flags skip.
    A script it comes to is run exactly when it is there at that moment:
    every command run was there when its turn came, and one that was not
    is left out.  When the wrapper exits with status 1 it has run nothing
    after the panel list script. *)
Theorem wrapper_runs_in_order args ran :
  let c1 := (script_path_of "extract_panel_list.py",
             with_verbose args ["--output-path"; output_path args]) in
  let data_args := with_verbose args ["--data-path"; output_path args] in
  let s1 := step_of (fst c1) (snd c1) ran in
  let ran1 := (ran ++ s1)%list in
  let s2 :=
    if skip_genes args then []
    else step_of (script_path_of "extract_genes_incremental.py") data_args
           ran1 in
  let ran2 := (ran1 ++ s2)%list in
  let s3 :=
    if skip_strs args then []
    else step_of (script_path_of "extract_strs.py") data_args ran2 in
  let ran3 := (ran2 ++ s3)%list in
  let s4 :=
    if skip_regions args then []
    else step_of (script_path_of "extract_regions.py") data_args ran3 in
  let new :=
    if Z.eqb (fst (wmain args ran)) 1 then s1
    else (s1 ++ s2 ++ s3 ++ s4)%list in
  snd (wmain args ran) = (ran ++ new)%list
  ∧ sublist new (planned_commands script_path_of args)
  ∧ each_existed path_exists ran new = true
  ∧ (fst (wmain args ran) = 1 → sublist new [c1]).
Proof.
  pose proof (wrapper_main_ran args ran) as Hran. cbv zeta in *.
  assert (Hskip : ∀ (skip : bool) script script_args ran0,
    each_existed path_exists ran0
      (if skip then [] else step_of script script_args ran0) = true).
  { intros [] script script_args ran0; [reflexivity|].
    apply each_existed_step. }
  split; [|split; [|split]].
  - rewrite Hran. by destruct (fst (wmain args ran) =? 1).
  - unfold planned_commands, step_of. cbn [fst snd].
    destruct (fst (wmain args ran) =? 1).
    + destruct (path_exists ran _); sublist_steps.
    + destruct (path_exists ran _), (skip_genes args), (skip_strs args),
        (skip_regions args);
        repeat match goal with
               | |- context [path_exists ?r ?x] =>
                   destruct (path_exists r x)
               end;
        cbn [app]; sublist_steps.
  - destruct (fst (wmain args ran) =? 1); [apply each_existed_step|].
    rewrite !each_existed_app, each_existed_step, !Hskip. reflexivity.
  - intros H1. rewrite H1. cbn [Z.eqb]. unfold step_of. cbn [fst snd].
    destruct (path_exists ran _); sublist_steps.
Qed.

End WrapperProperties.

(** * The latest data folder *)

Section LatestFolder.

Lemma ascii_compare_trans a b c o :
  Ascii.compare a b = o → Ascii.compare b c = o → Ascii.compare a c = o.
Proof.
  unfold Ascii.compare. destruct o; intros H1 H2.
  - apply N.compare_eq_iff in H1. apply N.compare_eq_iff in H2.
    apply N.compare_eq_iff. congruence.
  - rewrite N.compare_lt_iff in *. lia.
  - rewrite N.compare_gt_iff in *. lia.
Qed.

(** The order of Python on strings is transitive. *)
Lemma string_leb_trans s1 s2 s3 :
  String.leb s1 s2 = true → String.leb s2 s3 = true →
  String.leb s1 s3 = true.
Proof.
  unfold String.leb. revert s2 s3.
  induction s1 as [|a s1 IH]; intros [|b s2] [|c s3]; cbn [String.compare];
    try done.
  destruct (Ascii.compare a b) eqn:Hab; [| |done];
    destruct (Ascii.compare b c) eqn:Hbc; try done.
  - apply Ascii.compare_eq_iff in Hab as ->. rewrite Hbc. apply IH.
  - apply Ascii.compare_eq_iff in Hab as ->. by rewrite Hbc.
  - apply Ascii.compare_eq_iff in Hbc as <-. by rewrite Hab.
  - by rewrite (ascii_compare_trans a b c Lt Hab Hbc).
Qed.

Lemma insert_by_name_head x l :
  ∃ h t, insert_by_name x l = h :: t
         ∧ (h = x ∨ ∃ t', l = h :: t')
         ∧ String.leb (fst x) (fst h) = true
         ∧ (∀ h' t', l = h' :: t' → String.leb (fst h') (fst h) = true).
Proof.
  assert (Hrefl : ∀ s, String.leb s s = true).
  { intros s. by destruct (String.leb_total s s). }
  destruct l as [|y l']; cbn [insert_by_name].
  - exists x, []. repeat split; [by left|apply Hrefl|done].
  - destruct (String.leb (fst y) (fst x)) eqn:Hle.
    + exists x, (y :: l'). repeat split; [by left|apply Hrefl|].
      by intros h' t' [= <- <-].
    + exists y, (insert_by_name x l'). repeat split.
      * right. by exists l'.
      * destruct (String.leb_total (fst x) (fst y)) as [H|H]; [done|].
        by rewrite H in Hle.
      * intros h' t' [= <- <-]. apply Hrefl.
Qed.

(** The first of the sorted entries is one of them and no other has a
    greater name. *)
Lemma sorted_by_name_reverse_head l d :
  In d l →
  ∃ h t, sorted_by_name_reverse l = h :: t
         ∧ In h l
         ∧ ∀ d', In d' l → String.leb (fst d') (fst h) = true.
Proof.
  revert d. induction l as [|x l IH]; intros d Hd; [done|].
  unfold sorted_by_name_reverse. cbn [foldr].
  fold (sorted_by_name_reverse l).
  destruct (insert_by_name_head x (sorted_by_name_reverse l))
    as (h & t & -> & Hh & Hx & Hold).
  exists h, t. split; [done|].
  destruct l as [|y l'].
  - cbn in Hh. destruct Hh as [->|(t' & Ht')]; [|done].
    split; [by left|]. by intros d' [<-|[]].
  - destruct (IH y (or_introl eq_refl)) as (h0 & t0 & Hs & Hin0 & Hmax0).
    specialize (Hold h0 t0 Hs). split.
    + destruct Hh as [->|(t' & Ht')]; [by left|].
      rewrite Hs in Ht'. injection Ht' as <- _. by right.
    + intros d' [<-|Hd']; [done|].
      eapply string_leb_trans; [by apply Hmax0|done].
Qed.

(** X17.  When the data path holds a directory with a name of eight
    digits, [find_latest_data_folder] returns such a directory, and no
    other such directory has a greater name; [today] plays no part. *)
Theorem latest_folder_is_greatest entries today d :
  In d entries → is_date_folder d = true →
  ∃ name,
    find_latest_data_folder (Some entries) today = Some name
    ∧ In (name, true) entries
    ∧ is_date_folder (name, true) = true
    ∧ ∀ d', In d' entries → is_date_folder d' = true →
            String.leb (fst d') name = true.
Proof.
  intros Hd Hdate. unfold find_latest_data_folder.
  assert (Hf : In d (List.filter is_date_folder entries))
    by (by apply filter_In).
  destruct (sorted_by_name_reverse_head _ d Hf)
    as (h & t & Hs & Hin & Hmax).
  destruct (List.filter is_date_folder entries) as [|x l] eqn:Hfilter;
    [done|].
  rewrite Hs. exists (fst h). split; [done|].
  rewrite <- Hfilter in Hin, Hmax. apply filter_In in Hin as [Hin Hh].
  assert (Hdir : h = (fst h, true)).
  { destruct h as [n b]. unfold is_date_folder in Hh. cbn [fst snd] in *.
    destruct b; [done|discriminate]. }
  rewrite <- Hdir. repeat split; [done|done|].
  intros d' Hd' Hdate'. apply Hmax. by apply filter_In.
Qed.

Lemma latest_folder_is_greatest_witness :
  ∃ name,
    find_latest_data_folder
      (Some [("20240301", true); ("20250115", true); ("20991231", false);
             ("notes", true)]) "20260101"
    = Some name
    ∧ In (name, true)
        [("20240301", true); ("20250115", true); ("20991231", false);
         ("notes", true)]
    ∧ is_date_folder (name, true) = true
    ∧ ∀ d', In d' [("20240301", true); ("20250115", true);
                   ("20991231", false); ("notes", true)] →
            is_date_folder d' = true → String.leb (fst d') name = true.
Proof.
  apply (latest_folder_is_greatest
           [("20240301", true); ("20250115", true); ("20991231", false);
            ("notes", true)] "20260101" ("20240301", true)).
  - by left.
  - reflexivity.
Defined.

(** X18.  Without a directory of eight digits under the data path,
    [find_latest_data_folder] returns the name of today when some entry
    carries it and nothing otherwise, and nothing for a data path that
    does not exist; what it returns is then no directory of eight
    digits. *)
Theorem latest_folder_without_date_folders entries today :
  (∀ d, In d entries → is_date_folder d = false) →
  find_latest_data_folder None today = None
  ∧ find_latest_data_folder (Some entries) today
    = (if bool_decide (today ∈ map fst entries) then Some today else None)
  ∧ (¬ In (today, true) entries ∨ is_date_folder (today, true) = false).
Proof.
  intros Hnone. split; [reflexivity|]. split.
  - unfold find_latest_data_folder.
    assert (Hf : List.filter is_date_folder entries = []).
    { clear today. induction entries as [|x l IH]; [reflexivity|].
      cbn [List.filter]. rewrite (Hnone x) by by left.
      apply IH. intros d Hd. apply Hnone. by right. }
    rewrite Hf.
    destruct (existsb _ entries) eqn:Hex.
    + apply existsb_exists in Hex as (d & Hd & Heq).
      apply String.eqb_eq in Heq. rewrite bool_decide_eq_true_2; [done|].
      apply list_elem_of_In, in_map_iff. by exists d.
    + rewrite bool_decide_eq_false_2; [done|].
      intros (d & Heq & Hd)%list_elem_of_In%in_map_iff.
      assert (existsb (λ d, String.eqb (fst d) today) entries = true).
      { apply existsb_exists. exists d. split; [done|].
        by apply String.eqb_eq. }
      congruence.
  - destruct (is_date_folder (today, true)) eqn:Ht; [|by right].
    left. intros Hin. by rewrite (Hnone _ Hin) in Ht.
Qed.

Lemma latest_folder_without_date_folders_witness :
  find_latest_data_folder None "20260101" = None
  ∧ find_latest_data_folder (Some [("20260101", false); ("notes", true)])
      "20260101"
    = (if bool_decide
            ("20260101" ∈ map fst [("20260101", false); ("notes", true)])
       then Some "20260101" else None)
  ∧ (¬ In ("20260101", true) [("20260101", false); ("notes", true)]
     ∨ is_date_folder ("20260101", true) = false).
Proof.
  apply (latest_folder_without_date_folders
           [("20260101", false); ("notes", true)] "20260101").
  intros d [<-|[<-|[]]]; reflexivity.
Defined.

End LatestFolder.

(** * The panel list read back by scripts/extract_genes.py *)

Section ReadBack.

Variable container_str : json → string.

Abbreviation dir_of := (λ info, py_str container_str (info_id info)).

Lemma append_cons c s t : String c s +:+ t = String c (s +:+ t).
Proof. reflexivity. Qed.

Lemma append_nil_l t : "" +:+ t = t.
Proof. reflexivity. Qed.

Lemma append_nil_r s : s +:+ "" = s.
Proof.
  induction s as [|c s IH]; [reflexivity|]. by rewrite append_cons, IH.
Qed.

Lemma rstrip_app_no_space d r :
  Str.all_chars (λ c, negb (Str.isspace c)) d = true →
  Str.rstrip (d +:+ r) = d +:+ Str.rstrip r.
Proof.
  induction d as [|c d IH]; [done|].
  rewrite !append_cons. cbn [Str.all_chars Str.rstrip].
  intros [Hc Hd]%andb_true_iff. apply negb_true_iff in Hc.
  by rewrite Hc, (IH Hd).
Qed.

Lemma split_on_field d sep :
  Str.all_chars (λ c, negb (Ascii.eqb c sep)) d = true →
  split_on sep d = [d]
  ∧ ∀ rest, split_on sep (d +:+ String sep rest) = d :: split_on sep rest.
Proof.
  induction d as [|c d IH]; cbn [Str.all_chars split_on].
  - intros _. split; [done|]. intros rest.
    rewrite append_nil_l. cbn [split_on]. by rewrite Ascii.eqb_refl.
  - intros [Hc Hd]%andb_true_iff. apply negb_true_iff in Hc.
    destruct (IH Hd) as [H1 H2]. rewrite Hc, H1. split; [done|].
    intros rest. rewrite append_cons. cbn [split_on].
    by rewrite Hc, (H2 rest).
Qed.

Lemma digits_no_space_no_tab d :
  Str.isdigit d = true →
  d ≠ ""
  ∧ Str.all_chars (λ c, negb (Str.isspace c)) d = true
  ∧ Str.all_chars (λ c, negb (Ascii.eqb c "009")) d = true.
Proof.
  unfold Str.isdigit. intros [Hne Hall]%andb_true_iff.
  split; [by destruct d|]. split.
  - eapply all_chars_impl; [|exact Hall].
    intros c Hc. by rewrite (isdigit_char_not_space c Hc).
  - eapply all_chars_impl; [|exact Hall].
    intros c Hc. apply negb_true_iff, Ascii.eqb_neq. intros ->.
    discriminate Hc.
Qed.

(** A line that starts with digits and a tab yields the digits. *)
Lemma line_panel_id_digits d tail :
  Str.isdigit d = true →
  line_panel_id (d +:+ String "009" tail) = Some d.
Proof.
  intros Hd. destruct (digits_no_space_no_tab d Hd) as (Hne & Hns & Hnt).
  unfold line_panel_id, Str.strip.
  rewrite lstrip_fixed.
  - rewrite (rstrip_app_no_space d _ Hns).
    destruct (split_on_field d "009" Hnt) as [H1 H2].
    cbn [Str.rstrip].
    destruct (Str.isspace "009" && Str.is_empty (Str.rstrip tail)).
    + by rewrite append_nil_r, H1, Hd.
    + by rewrite H2, Hd.
  - destruct d as [|c d]; [done|]. rewrite append_cons.
    cbn [Str.all_chars] in Hns. apply andb_true_iff in Hns as [Hc _].
    by apply negb_true_iff.
Qed.

Lemma file_lines_line body rest :
  Str.all_chars (λ c, negb (Ascii.eqb c "010")) body = true →
  file_lines (body +:+ String "010" rest)
  = (body +:+ String "010" "") :: file_lines rest.
Proof.
  induction body as [|c body IH]; cbn [Str.all_chars].
  - intros _. rewrite !append_nil_l. cbn [file_lines].
    by rewrite Ascii.eqb_refl.
  - intros [Hc Hb]%andb_true_iff. apply negb_true_iff in Hc.
    rewrite !append_cons. cbn [file_lines]. by rewrite Hc, (IH Hb).
Qed.

Lemma append_assoc s t u : (s +:+ t) +:+ u = s +:+ (t +:+ u).
Proof.
  induction s as [|c s IH]; [reflexivity|]. by rewrite !append_cons, IH.
Qed.

Lemma all_chars_app f s t :
  Str.all_chars f (s +:+ t) = Str.all_chars f s && Str.all_chars f t.
Proof.
  induction s as [|c s IH]; [reflexivity|].
  rewrite append_cons. cbn [Str.all_chars]. by rewrite IH, andb_assoc.
Qed.

Abbreviation line_body := (line_body container_str).

Lemma tsv_line_body info :
  tsv_line container_str info = line_body info +:+ String "010" "".
Proof.
  unfold tsv_line, line_body. by rewrite !append_assoc, !append_cons.
Qed.

Lemma line_body_one_line info :
  entry_on_one_line container_str info = true →
  Str.all_chars no_break (line_body info) = true.
Proof.
  unfold entry_on_one_line, one_line, line_body.
  rewrite !andb_true_iff. intros [[[[[[H1 H2] H3] H4] H5] H6] H7].
  rewrite !all_chars_app. cbn [Str.all_chars].
  rewrite H1, H2, H3, H4, H5, H6, H7. reflexivity.
Qed.

Lemma concat_lines lines :
  String.concat "" lines = foldr String.append "" lines.
Proof.
  induction lines as [|line rest IH]; [reflexivity|].
  cbn [String.concat foldr]. destruct rest as [|line' rest'].
  - by rewrite append_nil_r.
  - by rewrite append_nil_l, IH.
Qed.

Lemma summary_lines infos :
  (∀ info, In info infos → entry_on_one_line container_str info = true) →
  Str.all_chars not_cr
    (foldr String.append "" (map (tsv_line container_str) infos)) = true
  ∧ file_lines (foldr String.append "" (map (tsv_line container_str) infos))
    = map (tsv_line container_str) infos.
Proof.
  induction infos as [|info rest IH]; intros Hone; [done|].
  destruct IH as [IHcr IHlines]; [intros i Hi; apply Hone; by right|].
  pose proof (line_body_one_line info (Hone info (or_introl eq_refl)))
    as Hbody.
  cbn [map foldr]. rewrite tsv_line_body, append_assoc. split.
  - rewrite all_chars_app, append_cons, append_nil_l.
    cbn [Str.all_chars]. rewrite IHcr.
    rewrite (all_chars_impl no_break not_cr); [reflexivity| |exact Hbody].
    unfold no_break, not_cr. intros c. rewrite andb_true_iff. by intros [].
  - rewrite append_cons, append_nil_l, file_lines_line, IHlines; [done|].
    eapply all_chars_impl; [|exact Hbody].
    unfold no_break. intros c. rewrite andb_true_iff. by intros [].
Qed.

(** X19.  The summary that [extract_panel_info] writes is read back by
    [read_panel_list] of scripts/extract_genes.py as the ids of the
    entries, in order, when the id of each entry shows as digits (as a
    non-negative integer does) and no field of an entry has a line
    break. *)
Theorem summary_is_read_back l :
  (∀ info, In info (panels_listed container_str l) →
           Str.isdigit (dir_of info) = true
           ∧ entry_on_one_line container_str info = true) →
  extractor_read_panel_list
    (Ok <$> summary (snd (extract_panel_info container_str l)))
  = map dir_of (panels_listed container_str l).
Proof.
  intros Hwell. rewrite extract_panel_info_unfold. cbn [snd summary fmap].
  unfold option_fmap, option_map, extractor_read_panel_list.
  rewrite concat_lines.
  destruct (summary_lines (panels_listed container_str l)) as [Hcr Hlines];
    [intros info Hin; by apply Hwell|].
  rewrite universal_newlines_without_cr.
  2: { rewrite all_chars_app, Hcr. reflexivity. }
  set (names :=
    "id" +:+ String "009" "name" +:+ String "009" "version"
    +:+ String "009" "version_created" +:+ String "009" "number_of_genes"
    +:+ String "009" "number_of_strs" +:+ String "009" "number_of_regions").
  assert (Hhead : tsv_header = names +:+ String "010" "") by reflexivity.
  rewrite Hhead, append_assoc.
  rewrite (append_cons "010" ""). rewrite (append_nil_l (foldr _ _ _)).
  rewrite file_lines_line by reflexivity. rewrite Hlines.
  clear Hcr Hlines Hhead names.
  induction (panels_listed container_str l) as [|info rest IH];
    [reflexivity|].
  cbn [map omap list_omap].
  assert (Hline : line_panel_id (tsv_line container_str info)
                  = Some (dir_of info)).
  { unfold tsv_line. rewrite append_cons.
    apply line_panel_id_digits. apply Hwell. by left. }
  rewrite Hline. cbn. f_equal. apply IH.
  intros i Hi. apply Hwell. by right.
Qed.

Lemma pretty_N_go_digits x s :
  Str.all_chars Str.is_ascii_digit s = true →
  Str.all_chars Str.is_ascii_digit (pretty_N_go x s) = true.
Proof.
  revert s. induction (N.lt_wf_0 x) as [x _ IH]; intros s Hs.
  assert (x = 0 ∨ 0 < x)%N as [->|Hx] by lia.
  - by rewrite pretty_N_go_0.
  - rewrite pretty_N_go_step by done. apply IH; [by apply N.div_lt|].
    cbn [Str.all_chars]. rewrite Hs, andb_true_r.
    unfold pretty_N_char. by repeat case_match.
Qed.

(** A non-negative integer shows as digits. *)
Lemma nonnegative_shows_as_digits z :
  0 ≤ z → Str.isdigit (py_str container_str (JInt z)) = true.
Proof.
  intros Hz. cbn [py_str]. unfold Str.isdigit.
  assert (Hall : Str.all_chars Str.is_ascii_digit (pretty z) = true).
  { destruct z as [|x|x]; [reflexivity| |lia].
    unfold pretty, pretty_Z, pretty, pretty_positive, pretty, pretty_N.
    case_decide; [reflexivity|]. by apply pretty_N_go_digits. }
  apply andb_true_iff. split.
  - destruct z as [|x|x]; [reflexivity| |lia].
    unfold pretty, pretty_Z, pretty, pretty_positive, pretty, pretty_N.
    case_decide; [reflexivity|].
    destruct (pretty_N_go (N.pos x) "") eqn:Hgo; [|reflexivity].
    exfalso. revert Hgo. clear.
    assert (Hlen : ∀ y s,
              (String.length s ≤ String.length (pretty_N_go y s))%nat).
    { intros y. induction (N.lt_wf_0 y) as [y _ IH]; intros s.
      assert (y = 0 ∨ 0 < y)%N as [->|Hy] by lia;
        [by rewrite pretty_N_go_0|].
      rewrite pretty_N_go_step by done.
      etrans; [|by eapply IH, N.div_lt]. cbn. lia. }
    intros Hgo. specialize (Hlen (N.pos x `div` 10)%N
                              (String (pretty_N_char (N.pos x `mod` 10)) "")).
    rewrite <- pretty_N_go_step, Hgo in Hlen by lia. cbn in Hlen. lia.
  - eapply all_chars_impl; [|exact Hall].
    intros c Hc. unfold Str.isdigit_char. by rewrite Hc.
Qed.

End ReadBack.

(** * Where the two readers of the panel list part *)

Section Readers.

(** X20.  [read_panel_list] strips a line before it splits it, so a row
    whose id column is empty and whose next column holds digits is read
    with those digits as its id; the loader of the incremental script
    leaves a row with an empty id out. *)
Theorem empty_id_column_is_read_over d tail (row : csv_row) :
  Str.isdigit d = true →
  row !! "id" = Some (Some "") →
  line_panel_id (String "009" (d +:+ String "009" tail)) = Some d
  ∧ read_row row = Ok None
  ∧ read_rows [row] = [].
Proof.
  intros Hd Hrow.
  assert (Hnone : read_row row = Ok None).
  { unfold read_row, row_get. by rewrite Hrow. }
  split; [|split; [exact Hnone|]].
  - rewrite <- (line_panel_id_digits d tail Hd).
    unfold line_panel_id, Str.strip. reflexivity.
  - cbn [read_rows]. by rewrite Hnone.
Qed.

Lemma empty_id_column_is_read_over_witness :
  line_panel_id (String "009" ("137" +:+ String "009" "Mendeliome"))
  = Some "137"
  ∧ read_row {[ "id" := Some ""; "name" := Some "137" ]} = Ok None
  ∧ read_rows [({[ "id" := Some ""; "name" := Some "137" ]} : csv_row)] = [].
Proof.
  apply (empty_id_column_is_read_over "137" "Mendeliome"
           {[ "id" := Some ""; "name" := Some "137" ]});
    reflexivity.
Defined.

End Readers.

(** * The end of a download *)

Section DownloadEnd.

Variable api : nat → string → result page.

(** A loop that returns below its limit has seen a page without a link
    to go on with. *)
Lemma page_loop_end limit page next_url w :
  match page_loop api limit page next_url w with
  | (Ok page', w') =>
      (page' ≤ limit)%nat →
      (w' = w ∧ loop_cond next_url = false)
      ∨ ∃ before url data,
          requests w' = (before ++ [url])%list
          ∧ api (length before) url = Ok data
          ∧ loop_cond (next data) = false
  | (Raise _, _) => True
  end.
Proof.
  funelim (page_loop api limit page next_url w).
  - intros _. left. by split.
  - exact I.
  - destruct (fetch_page_ok _ _ _ _ _ Heq0)
      as (url & -> & Hapi & Hreq & _).
    destruct (page_loop api limit (page0 + 1) (next data) w')
      as [[page'|e] w'']; [|exact I].
    intros Hle. destruct (H Hle) as [[-> Hc]|Hlater]; [|by right].
    right. by exists (requests w), url, data.
  - intros Hle. lia.
Qed.

(** X21.  A download that reports fewer than 100 pages has followed the
    links to their end: the page that answered its last request has no
    link to go on with. *)
Theorem download_below_limit_is_complete p w panel_id version_created n w' :
  download_panel_genes api p w
  = (Ok (Downloaded panel_id version_created n), w') →
  (n < 100)%nat →
  ∃ before url data,
    requests w' = (before ++ [url])%list
    ∧ api (length before) url = Ok data
    ∧ loop_cond (next data) = false.
Proof.
  rewrite download_panel_genes_unfold.
  pose proof (page_loop_end 100 1 (PyStr (gene_url (Panel.id p))) w) as Hend.
  pose proof (page_loop_counts api 100 1 (PyStr (gene_url (Panel.id p))) w)
    as Hcount.
  destruct (page_loop api 100 1 _ w) as [[page|e] w1]; [|discriminate].
  intros [= _ _ <- <-] Hn. destruct Hcount as [Hle _].
  destruct Hend as [[_ Hc]|Hlast]; [lia|discriminate Hc|exact Hlast].
Qed.

End DownloadEnd.

Lemma download_below_limit_is_complete_witness :
  ∃ before url data,
    requests
      (snd (download_panel_genes three_page_api
              (panel_137 "2024-03-01T00:00:00Z") (mk_world ∅ None [])))
    = (before ++ [url])%list
    ∧ three_page_api (length before) url = Ok data
    ∧ loop_cond (next data) = false.
Proof.
  apply (download_below_limit_is_complete three_page_api
           (panel_137 "2024-03-01T00:00:00Z") (mk_world ∅ None [])
           "137" "2024-03-01T00:00:00Z" 3%nat).
  - vm_compute. reflexivity.
  - lia.
Defined.

(** * Concrete runs of the further properties *)

Lemma pass_brings_successes_up_to_date_witness :
  let panels :=
    [panel_137 "2024-03-01T00:00:00Z";
     panel_of "22" "2024-01-01T00:00:00Z"] in
  let w := one_marker "137" "2023-01-01T00:00:00Z" in
  let w' := snd (process_panels one_page_api panels (0, 0)%nat w) in
  version_files w' !! "137" = Some (Content "2024-03-01T00:00:00Z")
  ∧ panel_needs_update (panel_137 "2024-03-01T00:00:00Z") false w'
    = (Ok false, w').
Proof.
  apply (pass_brings_successes_up_to_date one_page_api
           [panel_137 "2024-03-01T00:00:00Z";
            panel_of "22" "2024-01-01T00:00:00Z"]
           (0, 0)%nat (one_marker "137" "2023-01-01T00:00:00Z")
           (panel_137 "2024-03-01T00:00:00Z")
           (one_marker "137" "2023-01-01T00:00:00Z")
           (mk_datetime 2024 3 1 0 0 0 0 (Some 0))).
  - apply (bool_decide_unpack _). by vm_compute.
  - left. reflexivity.
  - reflexivity.
  - reflexivity.
  - reflexivity.
Defined.

Lemma listed_panel_is_up_to_date_witness :
  let w :=
    mk_world
      (markers (snd (extract_panel_info no_container two_panel_listing)))
      None [] in
  panel_needs_update (panel_137 "2024-03-01T00:00:00Z") false w
  = (Ok false, w).
Proof.
  apply (listed_panel_is_up_to_date no_container two_panel_listing
           (entry_of 137 (JStr "2024-03-01T00:00:00Z"))
           "2024-03-01T00:00:00Z"
           (panel_137 "2024-03-01T00:00:00Z")
           (mk_world
              (markers
                 (snd (extract_panel_info no_container two_panel_listing)))
              None [])
           (mk_datetime 2024 3 1 0 0 0 0 (Some 0))).
  - left. reflexivity.
  - apply (bool_decide_unpack _). by vm_compute.
  - reflexivity.
  - reflexivity.
  - reflexivity.
  - reflexivity.
  - reflexivity.
  - reflexivity.
Defined.

Lemma clean_pages_are_listed_in_full_witness :
  panels_listed no_container two_panel_listing
  = [entry_of 137 (JStr "2024-03-01T00:00:00Z");
     entry_of 22 (JStr "2024-01-01T00:00:00Z")].
Proof.
  apply (clean_pages_are_listed_in_full no_container two_panel_listing).
  intros page_file [<-|[]]. reflexivity.
Defined.

Lemma unwritable_version_cuts_the_page_witness :
  track_panels no_container
    [panel_json 1 (JStr "2024-01-01T00:00:00Z"); panel_json 2 JNull;
     panel_json 3 (JStr "2024-03-01T00:00:00Z")]
    ([], ∅)
  = (Raise TypeError,
     ([entry_of 1 (JStr "2024-01-01T00:00:00Z"); entry_of 2 JNull],
      <["2" := Content ""]>
        (<["1" := Content "2024-01-01T00:00:00Z"]> ∅))).
Proof.
  apply (unwritable_version_cuts_the_page no_container
           [panel_json 1 (JStr "2024-01-01T00:00:00Z")]
           (panel_json 2 JNull)
           [panel_json 3 (JStr "2024-03-01T00:00:00Z")]
           (entry_of 2 JNull) JNull [] ∅).
  - reflexivity.
  - reflexivity.
  - reflexivity.
  - intros s. discriminate.
Defined.

Lemma summary_is_read_back_witness :
  extractor_read_panel_list
    (Ok <$> summary (snd (extract_panel_info no_container two_panel_listing)))
  = ["137"; "22"].
Proof.
  apply (summary_is_read_back no_container two_panel_listing).
  intros info [<-|[<-|[]]]; split; reflexivity.
Defined.

(** * A whole run of the listing script *)

Section ListingRunProperties.

Variable japi : nat → string → result json.
Variable container_str : json → string.
Variable glob : gmap string (result json) → list (result json).

Abbreviation pages_from := (download_pages japi).
Abbreviation listing_dir_of := (λ info, py_str container_str (info_id info)).

Lemma loop_cond_of_json next_url :
  loop_cond (pyval_of next_url) = json_loop_cond next_url.
Proof.
  destruct next_url; try reflexivity; unfold json_loop_cond;
    cbn [pyval_of loop_cond]; by rewrite andb_true_r.
Qed.

Lemma session_get_fetch_page next_url st w :
  sent st = requests w →
  let '(r, st') := session_get japi next_url st in
  let '(r', w') :=
    fetch_page (page_api japi) (pyval_of next_url) w in
  sent st' = requests w'
  ∧ stored_pages st' = stored_pages st
  ∧ folder_markers st' = folder_markers st
  ∧ folder_summary st' = folder_summary st
  ∧ match r with
    | Raise e => r' = Raise e
    | Ok data =>
        ∀ page, r' = (do next_url' <- fst (save_page page data st') ;;
                      Ok (mk_page (pyval_of next_url')))%py
    end.
Proof.
  intros Hsent. destruct next_url; cbn [session_get pyval_of fetch_page];
    try by repeat split.
  rewrite Hsent. unfold page_api.
  destruct (japi (length (requests w)) s) as [data|e]; cbn [result_bind];
    [|by repeat split].
  repeat split. intros page. unfold save_page. cbn [fst].
  destruct (json_get data "count" (JInt 0)); cbn [result_bind]; [|done].
  destruct (json_get data "next" JNull); cbn [result_bind]; [|done].
  destruct (json_get data "results" (JList [])); cbn [result_bind]; [|done].
  by destruct (json_len _).
Qed.

(** The loop with the bodies and the loop over the links go the same
    way. *)
Lemma download_pages_page_loop page next_url st w :
  sent st = requests w →
  fst (pages_from page next_url st)
  = fst (page_loop (page_api japi) 1000 page (pyval_of next_url) w)
  ∧ sent (snd (pages_from page next_url st))
    = requests (snd (page_loop (page_api japi) 1000 page
                       (pyval_of next_url) w)).
Proof.
  remember (1001 - page)%nat as m eqn:Hm.
  revert page next_url st w Hm. induction m as [m IH] using lt_wf_ind.
  intros page next_url st w Hm Hsent.
  simp download_pages page_loop. rewrite loop_cond_of_json.
  destruct (json_loop_cond next_url) eqn:Hc; cbn; [|done].
  pose proof (session_get_fetch_page next_url st w Hsent) as Hstep.
  destruct (session_get japi next_url st) as [[data|e] st1];
    destruct (fetch_page (page_api japi) (pyval_of next_url) w) as [r' w'];
    destruct Hstep as (Hs & _ & _ & _ & Hr); cbn; [|by subst r'].
  rewrite (Hr page). unfold save_page. cbn [fst].
  destruct (result_bind (json_get data "count" (JInt 0)) _) as [nx|e];
    cbn; [|done].
  destruct (le_lt_dec (page + 1) 1000) as [Hle|Hgt]; cbn.
  - apply (IH (1001 - (page + 1))%nat); [lia|reflexivity|exact Hs].
  - done.
Qed.

(** One turn of the loop, written out. *)
Lemma download_pages_turn page next_url st :
  pages_from page next_url st
  = if json_loop_cond next_url then
      match session_get japi next_url st with
      | (Raise e, st') => (Raise e, st')
      | (Ok data, st') =>
          match save_page page data st' with
          | (Raise e, st'') => (Raise e, st'')
          | (Ok next_url', st'') =>
              if le_lt_dec (page + 1) 1000
              then pages_from (page + 1) next_url' st''
              else (Ok (page + 1)%nat, st'')
          end
      end
    else (Ok page, st).
Proof.
  simp download_pages.
  destruct (json_loop_cond next_url); cbn; [|done].
  destruct (session_get japi next_url st) as [[data|e] st1]; cbn; [|done].
  unfold save_page.
  destruct (result_bind (json_get data "count" (JInt 0)) _) as [nx|e];
    cbn; [|done].
  by destruct (le_lt_dec (page + 1) 1000).
Qed.

(** What a request and the saving of a page leave as it was. *)
Lemma session_get_inv next_url st r st' :
  session_get japi next_url st = (r, st') →
  stored_pages st' = stored_pages st
  ∧ folder_markers st' = folder_markers st
  ∧ folder_summary st' = folder_summary st
  ∧ ((r = Raise RequestException ∧ sent st' = sent st
      ∧ ∀ u, next_url ≠ JStr u)
     ∨ ∃ u, next_url = JStr u ∧ sent st' = (sent st ++ [u])%list
            ∧ r = japi (length (sent st)) u).
Proof.
  destruct next_url; cbn [session_get]; intros [= <- <-];
    repeat split; try (by left); right; by eexists.
Qed.

Lemma save_page_inv page data st r st' :
  save_page page data st = (r, st') →
  stored_pages st' = <[pretty page := Ok data]> (stored_pages st)
  ∧ folder_markers st' = folder_markers st
  ∧ folder_summary st' = folder_summary st
  ∧ sent st' = sent st.
Proof. unfold save_page. by intros [= <- <-]. Qed.

(** Whatever its end, the loop deletes no page, touches no page but
    those of its own numbers, and neither a version file nor the
    summary; and it takes no request back. *)
Lemma download_pages_frame page next_url st :
  let st' := snd (pages_from page next_url st) in
  folder_markers st' = folder_markers st
  ∧ folder_summary st' = folder_summary st
  ∧ (∃ urls, sent st' = (sent st ++ urls)%list)
  ∧ (∀ k, is_Some (stored_pages st !! k) → is_Some (stored_pages st' !! k))
  ∧ (∀ k, (∀ p, (page <= p)%nat → k ≠ pretty p) →
          stored_pages st' !! k = stored_pages st !! k).
Proof.
  remember (1001 - page)%nat as m eqn:Hm.
  revert page next_url st Hm. induction m as [m IH] using lt_wf_ind.
  intros page next_url st Hm. cbv zeta.
  rewrite download_pages_turn.
  assert (Hsame : ∀ s : folder,
    folder_markers s = folder_markers st → folder_summary s = folder_summary st →
    (∃ urls, sent s = (sent st ++ urls)%list) →
    stored_pages s = stored_pages st →
    folder_markers s = folder_markers st
    ∧ folder_summary s = folder_summary st
    ∧ (∃ urls, sent s = (sent st ++ urls)%list)
    ∧ (∀ k, is_Some (stored_pages st !! k) → is_Some (stored_pages s !! k))
    ∧ (∀ k, (∀ p, (page <= p)%nat → k ≠ pretty p) →
            stored_pages s !! k = stored_pages st !! k)).
  { intros s H1 H2 H3 H4. rewrite H4. by repeat split. }
  destruct (json_loop_cond next_url); cbn [snd].
  2:{ apply Hsame; try done. exists []. by rewrite app_nil_r. }
  destruct (session_get japi next_url st) as [r st1] eqn:Hget.
  destruct (session_get_inv _ _ _ _ Hget) as (Hp1 & Hm1 & Hs1 & Hsent1).
  assert (Hurls1 : ∃ urls, sent st1 = (sent st ++ urls)%list).
  { destruct Hsent1 as [(_ & -> & _)|(u & _ & -> & _)]; [|by eexists].
    exists []. by rewrite app_nil_r. }
  destruct r as [data|e]; cbn [snd]; [|by apply Hsame].
  destruct (save_page page data st1) as [r2 st2] eqn:Hsave.
  destruct (save_page_inv _ _ _ _ _ Hsave) as (Hp2 & Hm2 & Hs2 & Hsent2).
  assert (Hstep :
    folder_markers st2 = folder_markers st
    ∧ folder_summary st2 = folder_summary st
    ∧ (∃ urls, sent st2 = (sent st ++ urls)%list)
    ∧ (∀ k, is_Some (stored_pages st !! k) → is_Some (stored_pages st2 !! k))
    ∧ (∀ k, (∀ p, (page <= p)%nat → k ≠ pretty p) →
            stored_pages st2 !! k = stored_pages st !! k)).
  { rewrite Hm2, Hs2, Hsent2, Hp2, Hp1. repeat split; try done.
    - intros k Hk. destruct (decide (pretty page = k)) as [<-|Hne].
      + rewrite lookup_insert_eq. by eexists.
      + by rewrite lookup_insert_ne.
    - intros k Hk. apply lookup_insert_ne. intros Heq.
      by apply (Hk page). }
  destruct r2 as [nx|e]; cbn [snd]; [|exact Hstep].
  destruct (le_lt_dec (page + 1) 1000) as [Hle|Hgt]; cbn [snd];
    [|exact Hstep].
  destruct (IH (1001 - (page + 1))%nat ltac:(lia) (page + 1)%nat nx st2
              eq_refl) as (Hm3 & Hs3 & [urls3 Hsent3] & Hkeep3 & Hp3).
  destruct Hstep as (Hm' & Hs' & [urls' Hsent'] & Hkeep' & Hp').
  repeat split.
  - congruence.
  - congruence.
  - exists (urls' ++ urls3)%list. by rewrite Hsent3, Hsent', app_assoc.
  - intros k Hk. by apply Hkeep3, Hkeep'.
  - intros k Hk. rewrite Hp3 by (intros p Hp; apply Hk; lia).
    by apply Hp'.
Qed.

(** When the loop comes to its end at page [n], it has sent one request
    for each page from its first to [n - 1] and stored the answer to the
    [p]-th of them as page [p]; no other page is touched. *)
Lemma download_pages_ok page next_url st n :
  fst (pages_from page next_url st) = Ok n →
  let st' := snd (pages_from page next_url st) in
  (page <= n)%nat ∧ ((page <= 1000)%nat → (n <= 1001)%nat)
  ∧ length (sent st') = (length (sent st) + (n - page))%nat
  ∧ (json_loop_cond next_url = true → (page < n)%nat)
  ∧ (∀ p, (page <= p < n)%nat →
          ∃ url data,
            sent st' !! (length (sent st) + (p - page))%nat = Some url
            ∧ japi (length (sent st) + (p - page))%nat url = Ok data
            ∧ stored_pages st' !! pretty p = Some (Ok data))
  ∧ (∀ k, (∀ p, (page <= p < n)%nat → k ≠ pretty p) →
          stored_pages st' !! k = stored_pages st !! k).
Proof.
  remember (1001 - page)%nat as m eqn:Hm.
  revert page next_url st n Hm. induction m as [m IH] using lt_wf_ind.
  intros page next_url st n Hm. cbv zeta.
  rewrite download_pages_turn.
  destruct (json_loop_cond next_url); cbn [fst snd].
  2:{ intros [= <-]. repeat split; try lia; try done; intros p Hp; lia. }
  destruct (session_get japi next_url st) as [r st1] eqn:Hget.
  destruct (session_get_inv _ _ _ _ Hget) as (Hp1 & _ & _ & Hsent1).
  destruct r as [data|e]; cbn [fst snd]; [|done].
  destruct Hsent1 as [(? & _)|(u & -> & Hsent1 & Hdata)]; [done|].
  destruct (save_page page data st1) as [r2 st2] eqn:Hsave.
  destruct (save_page_inv _ _ _ _ _ Hsave) as (Hp2 & _ & _ & Hsent2).
  destruct r2 as [nx|e]; cbn [fst snd]; [|done].
  assert (Hlen2 : length (sent st2) = S (length (sent st))).
  { rewrite Hsent2, Hsent1, length_app. cbn. lia. }
  assert (Hfirst : sent st2 !! length (sent st) = Some u).
  { rewrite Hsent2, Hsent1. rewrite lookup_app_r by lia.
    by rewrite Nat.sub_diag. }
  assert (Hstored : stored_pages st2 !! pretty page = Some (Ok data)).
  { rewrite Hp2. apply lookup_insert_eq. }
  assert (Hother : ∀ k, k ≠ pretty page →
    stored_pages st2 !! k = stored_pages st !! k).
  { intros k Hk. rewrite Hp2, Hp1. by apply lookup_insert_ne. }
  destruct (le_lt_dec (page + 1) 1000) as [Hle|Hgt]; cbn [fst snd].
  - intros Hn.
    destruct (IH (1001 - (page + 1))%nat ltac:(lia) (page + 1)%nat nx st2 n
                eq_refl Hn) as (Hge & Hbound & Hlen & _ & Hpages & Hframe).
    destruct (download_pages_frame (page + 1) nx st2)
      as (_ & _ & [urls Hurls] & _ & Hlow).
    cbv zeta in Hlow, Hurls.
    repeat split; try lia.
    + intros p Hp. destruct (decide (p = page)) as [->|Hne].
      * exists u, data. rewrite Nat.sub_diag, Nat.add_0_r. repeat split.
        -- rewrite Hurls. rewrite lookup_app_l by lia. exact Hfirst.
        -- by rewrite Hdata.
        -- rewrite Hlow; [exact Hstored|].
           intros p Hp' Heq. apply (inj pretty) in Heq. lia.
      * destruct (Hpages p ltac:(lia)) as (url & data' & H1 & H2 & H3).
        exists url, data'.
        replace (length (sent st) + (p - page))%nat
          with (length (sent st2) + (p - (page + 1)))%nat by lia.
        by repeat split.
    + intros k Hk. rewrite Hframe by (intros p Hp; apply Hk; lia).
      apply Hother. apply Hk. lia.
  - intros [= <-]. repeat split; try lia.
    + intros p Hp. assert (p = page) as -> by lia.
      exists u, data. rewrite Nat.sub_diag, Nat.add_0_r.
      repeat split; [exact Hfirst|by rewrite Hdata|exact Hstored].
    + intros k Hk. apply Hother. apply Hk. lia.
Qed.

(** The first request of the loop goes to the URL it starts from. *)
Lemma download_pages_first page u st :
  json_loop_cond (JStr u) = true →
  ∃ rest, sent (snd (pages_from page (JStr u) st))
          = (sent st ++ u :: rest)%list.
Proof.
  intros Hc. rewrite download_pages_turn, Hc. cbn [session_get].
  destruct (japi (length (sent st)) u) as [data|e]; cbn [snd];
    [|by exists []].
  destruct (save_page page data _) as [r2 st2] eqn:Hsave.
  destruct (save_page_inv _ _ _ _ _ Hsave) as (_ & _ & _ & Hsent2).
  cbn [sent] in Hsent2.
  destruct r2 as [nx|e]; cbn [snd]; [|by exists []].
  destruct (le_lt_dec (page + 1) 1000); cbn [snd]; [|by exists []].
  destruct (download_pages_frame (page + 1) nx st2)
    as (_ & _ & [urls Hurls] & _).
  cbv zeta in Hurls. exists urls. by rewrite Hurls, Hsent2, <- app_assoc.
Qed.

Lemma check_api_version_frame st :
  let st' := snd (check_api_version japi st) in
  stored_pages st' = stored_pages st
  ∧ folder_markers st' = folder_markers st
  ∧ folder_summary st' = folder_summary st
  ∧ sent st' = (sent st ++ [swagger_url])%list.
Proof.
  unfold check_api_version. cbn [session_get].
  by destruct (japi (length (sent st)) swagger_url).
Qed.

Lemma panels_url_loops : json_loop_cond (JStr panels_url) = true.
Proof. reflexivity. Qed.

Lemma download_panels_to_unfold st :
  download_panels_to japi st
  = (match fst (pages_from 1 (JStr panels_url) st) with
     | Ok _ => Ok tt
     | Raise e => Raise e
     end, snd (pages_from 1 (JStr panels_url) st)).
Proof.
  unfold download_panels_to.
  change (BASE_URL +:+ "/" +:+ API_VERSION +:+ "/panels/") with panels_url.
  by destruct (pages_from 1 (JStr panels_url) st) as [[n|e] st'].
Qed.

(** A panel the loop over a page comes to is collected, whatever comes
    after it. *)
Lemma track_panels_reached before panel after info pd files :
  forallb tracked_cleanly before = true →
  panel_entry panel = Ok info →
  In info (fst (snd (track_panels container_str (before ++ panel :: after)
                       (pd, files)))).
Proof.
  intros Hbefore Hinfo. revert pd files.
  induction before as [|first rest IH]; intros pd files.
  - cbn [app track_panels]. rewrite (track_panel_ok _ _ _ _ _ Hinfo).
    destruct (tracked_cleanly panel).
    + destruct (track_panels_invariant container_str after (pd ++ [info])%list
                  (record_marker container_str files info)) as [new ->].
      cbn [fst]. rewrite <- app_assoc. apply in_or_app. right. by left.
    + cbn [fst snd]. apply in_or_app. right. by left.
  - cbn [forallb] in Hbefore. apply andb_true_iff in Hbefore as [Hc Hrest].
    destruct (tracked_cleanly_entry _ Hc) as [info' Hinfo'].
    cbn [app track_panels]. rewrite (track_panel_ok _ _ _ _ _ Hinfo'), Hc.
    by apply IH.
Qed.

Lemma track_pages_reached pages page_file before panel after info pd files :
  In page_file pages →
  page_panels page_file = (before ++ panel :: after)%list →
  forallb tracked_cleanly before = true →
  panel_entry panel = Ok info →
  In info (fst (foldl (λ st pf, track_page container_str pf st)
                  (pd, files) pages)).
Proof.
  intros Hin Hpanels Hbefore Hinfo. revert pd files.
  induction pages as [|pf rest IH]; intros pd files; [done|].
  cbn [foldl]. destruct Hin as [->|Hin].
  - assert (Hhere : In info (fst (track_page container_str page_file
                                    (pd, files)))).
    { unfold track_page, page_panels in *.
      destruct (result_bind page_file _) as [panels|e].
      - subst panels. by apply track_panels_reached.
      - by destruct before. }
    destruct (track_page container_str page_file (pd, files))
      as [pd1 files1].
    destruct (track_pages_invariant container_str rest pd1 files1)
      as [new ->].
    cbn [fst] in *. apply in_or_app. by left.
  - destruct (track_page container_str pf (pd, files)) as [pd1 files1].
    by apply IH.
Qed.

Lemma extract_panel_info_in_unfold st :
  let listed :=
    panels_listed container_str
      (mk_listing (glob (stored_pages st)) (folder_markers st)
         (folder_summary st)) in
  extract_panel_info_in container_str glob st
  = (Ok tt,
     mk_folder (stored_pages st)
       (foldl (record_marker container_str) (folder_markers st) listed)
       (Some (tsv_header
              +:+ String.concat "" (map (tsv_line container_str) listed)))
       (sent st)).
Proof.
  cbv zeta. unfold extract_panel_info_in.
  by rewrite extract_panel_info_unfold.
Qed.

Abbreviation listing_run := (listing_main japi container_str glob).

(** The three ways a run can go. *)
Lemma listing_main_cases st :
  let st1 := snd (check_api_version japi st) in
  let st2 := snd (pages_from 1 (JStr panels_url) st1) in
  match fst (check_api_version japi st) with
  | Raise _ => listing_run st = (1, st1)
  | Ok _ =>
      match fst (pages_from 1 (JStr panels_url) st1) with
      | Raise _ => listing_run st = (1, st2)
      | Ok _ =>
          listing_run st
          = (0, snd (extract_panel_info_in container_str glob st2))
      end
  end.
Proof.
  cbv zeta. unfold listing_main, extract_data.
  destruct (check_api_version japi st) as [[[]|e] st1]; cbn [fst snd];
    [|done].
  rewrite download_panels_to_unfold.
  destruct (pages_from 1 (JStr panels_url) st1) as [[n|e] st2];
    cbn [fst snd]; [|done].
  rewrite extract_panel_info_in_unfold. reflexivity.
Qed.

(** X23.  When the download of the panels returns, it has sent between
    one and a thousand requests, the first to the URL of the panels, and
    stored the answer to the [p]-th of them as page [p]; every other
    page of the folder, the version files and the summary are as they
    were. *)
Theorem download_stores_what_it_fetches st :
  fst (download_panels_to japi st) = Ok tt →
  let st' := snd (download_panels_to japi st) in
  ∃ n rest,
    (1 <= n <= 1000)%nat
    ∧ sent st' = (sent st ++ panels_url :: rest)%list
    ∧ length rest = (n - 1)%nat
    ∧ (∀ p, (1 <= p <= n)%nat →
            ∃ url data,
              sent st' !! (length (sent st) + (p - 1))%nat = Some url
              ∧ japi (length (sent st) + (p - 1))%nat url = Ok data
              ∧ stored_pages st' !! pretty p = Some (Ok data))
    ∧ (∀ k, (∀ p, (1 <= p <= n)%nat → k ≠ pretty p) →
            stored_pages st' !! k = stored_pages st !! k)
    ∧ folder_markers st' = folder_markers st
    ∧ folder_summary st' = folder_summary st.
Proof.
  rewrite download_panels_to_unfold. cbn [fst snd].
  destruct (fst (pages_from 1 (JStr panels_url) st)) as [n|e] eqn:Hn;
    [intros _|done].
  destruct (download_pages_ok 1 (JStr panels_url) st n Hn)
    as (Hge & Hbound & Hlen & Hpos & Hpages & Hframe).
  specialize (Hpos panels_url_loops).
  destruct (download_pages_first 1 panels_url st panels_url_loops)
    as [rest Hrest].
  destruct (download_pages_frame 1 (JStr panels_url) st)
    as (Hm & Hs & _).
  exists (n - 1)%nat, rest. repeat split; try lia; try done.
  - rewrite Hrest, length_app in Hlen. cbn [length] in Hlen. lia.
  - intros p Hp. apply Hpages. lia.
  - intros k Hk. apply Hframe. intros p Hp. apply Hk. lia.
Qed.

(** X24.  A version check that raises, because the request for the
    documentation of the API fails or because the documentation tells no
    version, ends the run with status 1 after that one request: no page
    is asked for, and the folder is as it was.  A documentation that
    tells a version lets the check return whichever version it is, the
    expected one or another, and the run goes on to ask for the first
    page of the panels. *)
Theorem version_check_decides_the_run st :
  (∀ e, fst (check_api_version japi st) = Raise e →
        listing_run st
        = (1, mk_folder (stored_pages st) (folder_markers st)
                (folder_summary st) (sent st ++ [swagger_url])))
  ∧ (∀ swagger info version,
       japi (length (sent st)) swagger_url = Ok swagger →
       json_get swagger "info" (JDict []) = Ok info →
       json_get info "version" JNull = Ok version →
       json_truthy version = true →
       fst (check_api_version japi st) = Ok tt
       ∧ ∃ rest,
           sent (snd (listing_run st))
           = (sent st ++ swagger_url :: panels_url :: rest)%list).
Proof.
  pose proof (listing_main_cases st) as Hrun. cbv zeta in Hrun.
  destruct (check_api_version_frame st) as (H1 & H2 & H3 & H4).
  cbv zeta in *. split.
  - intros e Hcheck. rewrite Hcheck in Hrun. rewrite Hrun. f_equal.
    destruct (snd (check_api_version japi st)); cbn in *. by subst.
  - intros swagger info version Hget Hinfo Hversion Htruthy.
    assert (Hcheck : fst (check_api_version japi st) = Ok tt).
    { unfold check_api_version. cbn [session_get]. rewrite Hget.
      cbn [fst]. rewrite Hinfo. cbn [result_bind]. rewrite Hversion.
      cbn [result_bind]. by rewrite Htruthy. }
    split; [exact Hcheck|]. rewrite Hcheck in Hrun.
    set (st1 := snd (check_api_version japi st)) in *.
    destruct (download_pages_first 1 panels_url st1 panels_url_loops)
      as [rest Hrest].
    exists rest.
    destruct (fst (pages_from 1 (JStr panels_url) st1)); rewrite Hrun;
      [rewrite extract_panel_info_in_unfold; cbn [snd sent]|cbn [snd]];
      by rewrite Hrest, H4, <- app_assoc.
Qed.

(** X25.  A run that ends with status 0 has asked for the documentation
    of the API first and for the first page of the panels next, has sent
    at most 1001 requests, and has written the summary. *)
Theorem successful_run_requests st :
  fst (listing_run st) = 0 →
  ∃ rest,
    sent (snd (listing_run st))
    = (sent st ++ swagger_url :: panels_url :: rest)%list
    ∧ (length rest < 1000)%nat
    ∧ is_Some (folder_summary (snd (listing_run st))).
Proof.
  pose proof (listing_main_cases st) as Hrun. cbv zeta in Hrun.
  destruct (check_api_version_frame st) as (_ & _ & _ & Hsent1).
  cbv zeta in Hsent1.
  destruct (fst (check_api_version japi st)); [|by rewrite Hrun].
  set (st1 := snd (check_api_version japi st)) in *.
  destruct (fst (pages_from 1 (JStr panels_url) st1)) as [n|e] eqn:Hn;
    [|by rewrite Hrun].
  intros _. rewrite Hrun, extract_panel_info_in_unfold. cbn [snd sent
    folder_summary].
  destruct (download_pages_ok 1 (JStr panels_url) st1 n Hn)
    as (Hge & Hbound & Hlen & _).
  destruct (download_pages_first 1 panels_url st1 panels_url_loops)
    as [rest Hrest].
  exists rest. rewrite Hrest, Hsent1, <- app_assoc. repeat split.
  - rewrite Hrest, length_app in Hlen. cbn [length] in Hlen. lia.
  - by eexists.
Qed.

(** X26.  A run that ends with status 1 has written neither a version
    file nor the summary, and has deleted no page: what it leaves behind
    of its own are the pages it stored before it failed. *)
Theorem failed_run_keeps_summary_and_markers st :
  fst (listing_main japi container_str glob st) = 1 →
  let st' := snd (listing_main japi container_str glob st) in
  folder_markers st' = folder_markers st
  ∧ folder_summary st' = folder_summary st
  ∧ (∀ k, is_Some (stored_pages st !! k) → is_Some (stored_pages st' !! k))
  ∧ (∀ k, (∀ p, (1 <= p)%nat → k ≠ pretty p) →
          stored_pages st' !! k = stored_pages st !! k).
Proof.
  pose proof (listing_main_cases st) as Hrun. cbv zeta in Hrun.
  destruct (check_api_version_frame st) as (Hp1 & Hm1 & Hs1 & _).
  cbv zeta in *.
  destruct (fst (check_api_version japi st)).
  2:{ intros _. rewrite Hrun. cbn [snd]. rewrite Hp1. by repeat split. }
  set (st1 := snd (check_api_version japi st)) in *.
  destruct (download_pages_frame 1 (JStr panels_url) st1)
    as (Hm2 & Hs2 & _ & Hkeep & Hframe).
  cbv zeta in *.
  destruct (fst (pages_from 1 (JStr panels_url) st1)) as [n|e];
    [by rewrite Hrun|].
  intros _. rewrite Hrun. cbn [snd]. rewrite <- Hp1.
  repeat split; try congruence; done.
Qed.

(** X27.  The run never removes the pages of an earlier run: with a
    [glob] that yields every page of the folder, a page that is none of
    those the run stores is gone through again, and a panel the loop
    over that page comes to is in the summary of the run and has its
    version file written by it. *)
Theorem stale_page_is_listed_again st n k data before panel after info :
  (∀ m key page_file, m !! key = Some page_file → In page_file (glob m)) →
  fst (check_api_version japi st) = Ok tt →
  fst (pages_from 1 (JStr panels_url) (snd (check_api_version japi st)))
  = Ok n →
  stored_pages st !! k = Some data →
  (∀ p, (1 <= p < n)%nat → k ≠ pretty p) →
  page_panels data = (before ++ panel :: after)%list →
  forallb tracked_cleanly before = true →
  panel_entry panel = Ok info →
  ∃ listed text,
    fst (listing_run st) = 0
    ∧ In info listed
    ∧ folder_summary (snd (listing_run st))
      = Some (tsv_header
              +:+ String.concat "" (map (tsv_line container_str) listed))
    ∧ folder_markers (snd (listing_run st)) !! listing_dir_of info
      = Some (Content text).
Proof.
  intros Hglob Hcheck Hn Hk Hfresh Hpanels Hbefore Hinfo.
  pose proof (listing_main_cases st) as Hrun. cbv zeta in Hrun.
  rewrite Hcheck, Hn in Hrun.
  destruct (check_api_version_frame st) as (Hp1 & _).
  cbv zeta in Hp1.
  set (st1 := snd (check_api_version japi st)) in *.
  destruct (download_pages_ok 1 (JStr panels_url) st1 n Hn)
    as (_ & _ & _ & _ & _ & Hframe).
  cbv zeta in Hframe.
  set (st2 := snd (pages_from 1 (JStr panels_url) st1)) in *.
  assert (Hstill : stored_pages st2 !! k = Some data).
  { rewrite (Hframe k Hfresh), Hp1. exact Hk. }
  set (l := mk_listing (glob (stored_pages st2)) (folder_markers st2)
              (folder_summary st2)).
  assert (Hlisted : In info (panels_listed container_str l)).
  { unfold panels_listed.
    apply (track_pages_reached _ data before panel after); try done.
    cbn [page_files l]. by apply (Hglob _ k). }
  destruct (record_markers_readable container_str _ (folder_markers st2)
              info Hlisted) as [text Htext].
  exists (panels_listed container_str l), text.
  rewrite Hrun, extract_panel_info_in_unfold. cbn [fst snd folder_summary
    folder_markers]. by repeat split.
Qed.

End ListingRunProperties.

Lemma download_stores_what_it_fetches_witness :
  let st' := snd (download_panels_to listing_api stale_folder) in
  ∃ n rest,
    (1 <= n <= 1000)%nat
    ∧ sent st' = (sent stale_folder ++ panels_url :: rest)%list
    ∧ length rest = (n - 1)%nat
    ∧ (∀ p, (1 <= p <= n)%nat →
            ∃ url data,
              sent st' !! (length (sent stale_folder) + (p - 1))%nat
              = Some url
              ∧ listing_api (length (sent stale_folder) + (p - 1))%nat url
                = Ok data
              ∧ stored_pages st' !! pretty p = Some (Ok data))
    ∧ (∀ k, (∀ p, (1 <= p <= n)%nat → k ≠ pretty p) →
            stored_pages st' !! k = stored_pages stale_folder !! k)
    ∧ folder_markers st' = folder_markers stale_folder
    ∧ folder_summary st' = folder_summary stale_folder.
Proof.
  apply (download_stores_what_it_fetches listing_api stale_folder).
  vm_compute. reflexivity.
Defined.

Lemma version_check_decides_the_run_witness :
  listing_main unversioned_api no_container all_pages stale_folder
  = (1, mk_folder (stored_pages stale_folder) (folder_markers stale_folder)
          (folder_summary stale_folder)
          (sent stale_folder ++ [swagger_url]))
  ∧ fst (check_api_version listing_api stale_folder) = Ok tt
  ∧ ∃ rest,
      sent (snd (listing_main listing_api no_container all_pages
                   stale_folder))
      = (sent stale_folder ++ swagger_url :: panels_url :: rest)%list.
Proof.
  split.
  - apply (proj1 (version_check_decides_the_run unversioned_api
                    no_container all_pages stale_folder) ValueError).
    vm_compute. reflexivity.
  - apply (proj2 (version_check_decides_the_run listing_api no_container
                    all_pages stale_folder)
             (swagger_json (JStr "v2")) (JDict [("version", JStr "v2")])
             (JStr "v2")); reflexivity.
Defined.

Lemma successful_run_requests_witness :
  ∃ rest,
    sent (snd (listing_main listing_api no_container all_pages stale_folder))
    = (sent stale_folder ++ swagger_url :: panels_url :: rest)%list
    ∧ (length rest < 1000)%nat
    ∧ is_Some (folder_summary
                 (snd (listing_main listing_api no_container all_pages
                         stale_folder))).
Proof.
  apply (successful_run_requests listing_api no_container all_pages
           stale_folder).
  vm_compute. reflexivity.
Defined.

Lemma failed_run_keeps_summary_and_markers_witness :
  let st' :=
    snd (listing_main broken_api no_container all_pages stale_folder) in
  folder_markers st' = folder_markers stale_folder
  ∧ folder_summary st' = folder_summary stale_folder
  ∧ (∀ k, is_Some (stored_pages stale_folder !! k) →
          is_Some (stored_pages st' !! k))
  ∧ (∀ k, (∀ p, (1 <= p)%nat → k ≠ pretty p) →
          stored_pages st' !! k = stored_pages stale_folder !! k).
Proof.
  apply (failed_run_keeps_summary_and_markers broken_api no_container
           all_pages stale_folder).
  vm_compute. reflexivity.
Defined.

Lemma stale_page_is_listed_again_witness :
  let st' :=
    snd (listing_main listing_api no_container all_pages stale_folder) in
  ∃ listed text,
    fst (listing_main listing_api no_container all_pages stale_folder) = 0
    ∧ In (entry_of 22 (JStr "2024-01-01T00:00:00Z")) listed
    ∧ folder_summary st'
      = Some (tsv_header
              +:+ String.concat "" (map (tsv_line no_container) listed))
    ∧ folder_markers st' !! "22" = Some (Content text).
Proof.
  apply (stale_page_is_listed_again listing_api no_container all_pages
           stale_folder 2 "7"
           (page_json [panel_json 22 (JStr "2024-01-01T00:00:00Z")])
           [] (panel_json 22 (JStr "2024-01-01T00:00:00Z")) []
           (entry_of 22 (JStr "2024-01-01T00:00:00Z"))).
  - intros m key page_file Hkey. apply list_elem_of_In.
    unfold all_pages. apply list_elem_of_fmap.
    exists (key, page_file). split; [reflexivity|].
    by apply elem_of_map_to_list.
  - vm_compute. reflexivity.
  - vm_compute. reflexivity.
  - vm_compute. reflexivity.
  - intros p Hp. assert (p = 1%nat) as -> by lia. by vm_compute.
  - reflexivity.
  - reflexivity.
  - reflexivity.
Defined.

(** * The data folder and the run of the gene script *)

Section ExtractorFolder.

Lemma string_ltb_leb a b : String.ltb a b = true → String.leb a b = true.
Proof. unfold String.ltb, String.leb. by destruct (String.compare a b). Qed.

Lemma string_not_ltb_leb a b :
  String.ltb a b = false → String.leb b a = true.
Proof.
  unfold String.ltb, String.leb. rewrite (String.compare_antisym a b).
  by destruct (String.compare b a).
Qed.

Lemma string_leb_refl a : String.leb a a = true.
Proof. by destruct (String.leb_total a a). Qed.

(** [max] returns one of the entries, and none has a greater name. *)
Lemma max_by_name_spec first rest :
  In (max_by_name first rest) (first :: rest)
  ∧ ∀ d, In d (first :: rest) →
         String.leb (fst d) (fst (max_by_name first rest)) = true.
Proof.
  unfold max_by_name. revert first.
  induction rest as [|x rest IH]; intros first; cbn [foldl].
  - split; [by left|]. intros d [<-|[]]. apply string_leb_refl.
  - destruct (IH (if String.ltb (fst first) (fst x) then x else first))
      as [Hin Hmax].
    split.
    + destruct Hin as [Heq|Hin]; [|by right; right].
      rewrite <- Heq.
      destruct (String.ltb (fst first) (fst x)); [right|]; by left.
    + intros d [<-|[<-|Hd]].
      * destruct (String.ltb (fst first) (fst x)) eqn:Hlt.
        -- eapply string_leb_trans; [by apply string_ltb_leb|].
           apply Hmax. by left.
        -- apply Hmax. by left.
      * destruct (String.ltb (fst first) (fst x)) eqn:Hlt.
        -- apply Hmax. by left.
        -- eapply string_leb_trans; [by apply string_not_ltb_leb|].
           apply Hmax. by left.
      * apply Hmax. by right.
Qed.

(** X28.  When the data path has a directory whose name is eight digits
    that [strptime] takes for a date, [find_latest_data_folder] of the
    gene script returns such a directory, and none of them has a greater
    name. *)
Theorem extractor_latest_folder_is_greatest entries today d :
  In d entries → is_valid_date_folder d = true →
  ∃ name,
    extractor_find_latest_data_folder (Some entries) today = Some name
    ∧ In (name, true) entries
    ∧ is_valid_date_folder (name, true) = true
    ∧ ∀ d', In d' entries → is_valid_date_folder d' = true →
            String.leb (fst d') name = true.
Proof.
  intros Hd Hvalid. unfold extractor_find_latest_data_folder.
  assert (Hf : In d (List.filter is_valid_date_folder entries))
    by (by apply filter_In).
  destruct (List.filter is_valid_date_folder entries) as [|x l] eqn:Hfilter;
    [done|].
  destruct (max_by_name_spec x l) as [Hin Hmax].
  rewrite <- Hfilter in Hin. apply filter_In in Hin as [Hin Hv].
  assert (Hdir : max_by_name x l = (fst (max_by_name x l), true)).
  { destruct (max_by_name x l) as [name dir]. cbn [fst].
    unfold is_valid_date_folder, is_date_folder in Hv. cbn [snd] in Hv.
    by destruct dir. }
  exists (fst (max_by_name x l)). rewrite <- Hdir. repeat split; try done.
  intros d' Hd' Hv'. apply Hmax. rewrite <- Hfilter. by apply filter_In.
Qed.

(** X29.  The two gene scripts choose the same data folder whenever
    every directory of the data path whose name is eight digits is one
    [strptime] takes for a date; the gene script passes over the others,
    which the incremental script does not. *)
Theorem latest_folder_choices_agree entries today :
  (∀ d, In d entries → is_date_folder d = true →
        is_valid_date_folder d = true) →
  extractor_find_latest_data_folder (Some entries) today
  = find_latest_data_folder (Some entries) today.
Proof.
  intros Hall.
  assert (Hsame : List.filter is_valid_date_folder entries
                  = List.filter is_date_folder entries).
  { apply filter_ext_in. intros d Hd.
    destruct (is_date_folder d) eqn:Hdate; [by apply Hall|].
    unfold is_valid_date_folder. by rewrite Hdate. }
  unfold extractor_find_latest_data_folder, find_latest_data_folder.
  rewrite Hsame.
  destruct (List.filter is_date_folder entries) as [|x l]; [done|].
  destruct (max_by_name_spec x l) as [Hin Hmax].
  destruct (sorted_by_name_reverse_head (x :: l) x (or_introl eq_refl))
    as (h & t & -> & Hh & Hgreatest).
  f_equal. apply String.leb_antisym; [by apply Hgreatest|by apply Hmax].
Qed.

End ExtractorFolder.

Lemma extractor_latest_folder_is_greatest_witness :
  ∃ name,
    extractor_find_latest_data_folder
      (Some [("20240301", true); ("20249999", true); ("20250115", true);
             ("20991231", false); ("notes", true)]) "20260101"
    = Some name
    ∧ In (name, true)
        [("20240301", true); ("20249999", true); ("20250115", true);
         ("20991231", false); ("notes", true)]
    ∧ is_valid_date_folder (name, true) = true
    ∧ ∀ d', In d' [("20240301", true); ("20249999", true);
                   ("20250115", true); ("20991231", false);
                   ("notes", true)] →
            is_valid_date_folder d' = true →
            String.leb (fst d') name = true.
Proof.
  apply (extractor_latest_folder_is_greatest _ "20260101"
           ("20240301", true)).
  - left. reflexivity.
  - vm_compute. reflexivity.
Defined.

Lemma latest_folder_choices_agree_witness :
  extractor_find_latest_data_folder
    (Some [("20240301", true); ("20250115", true); ("20991231", false);
           ("notes", true)]) "20260101"
  = find_latest_data_folder
      (Some [("20240301", true); ("20250115", true); ("20991231", false);
             ("notes", true)]) "20260101".
Proof.
  apply (latest_folder_choices_agree
           [("20240301", true); ("20250115", true); ("20991231", false);
            ("notes", true)] "20260101").
  intros d [<-|[<-|[<-|[<-|[]]]]]; vm_compute; intros H; exact H.
Defined.

(** A directory whose name is eight digits but no date: the incremental
    script works on it, the gene script on the one before it. *)
Example latest_folder_choices_differ :
  extractor_find_latest_data_folder
    (Some [("20240301", true); ("20249999", true)]) "20260101"
  = Some "20240301"
  ∧ find_latest_data_folder
      (Some [("20240301", true); ("20249999", true)]) "20260101"
    = Some "20249999".
Proof. split; vm_compute; reflexivity. Qed.

(** * The calls on the file system that raise *)

Section Failures.

Variable fs : faults.
Variable api : nat → string → result page.

Implicit Types (p q : Panel.t) (w : world) (panels : list Panel.t).

(** Each function is the one of the folder without failures as long as
    none of its calls fails. *)
Lemma faulty_needs_update p force w :
  Faulty.panel_needs_update fs p force w
  = if negb force && marker_stat_fails fs (Panel.id p)
    then (Raise OSError, w)
    else panel_needs_update p force w.
Proof.
  unfold Faulty.panel_needs_update, panel_needs_update.
  destruct force; [reflexivity|]. cbn [negb andb].
  unfold bind at 1. unfold Faulty.version_file_exists.
  destruct (marker_stat_fails fs (Panel.id p)); reflexivity.
Qed.

Lemma faulty_read_panel_data w :
  Faulty.read_panel_data fs w
  = if catalog_stat_fails fs then (Raise OSError, w)
    else read_panel_data w.
Proof.
  unfold Faulty.read_panel_data, read_panel_data.
  unfold bind at 1. unfold Faulty.panel_list_exists.
  destruct (catalog_stat_fails fs); reflexivity.
Qed.

Lemma faulty_plan panels force w :
  Faulty.panels_to_update fs panels force w
  = if negb force
       && existsb (λ p, marker_stat_fails fs (Panel.id p)) panels
    then (Raise OSError, w)
    else panels_to_update panels force w.
Proof.
  induction panels as [|p rest IH].
  - cbn. by rewrite andb_false_r.
  - cbn [Faulty.panels_to_update panels_to_update existsb].
    unfold bind at 1. rewrite faulty_needs_update.
    destruct force; cbn [negb andb] in *.
    + rewrite needs_update_forced. unfold bind at 1. rewrite IH.
      unfold bind at 1. by rewrite needs_update_forced.
    + destruct (marker_stat_fails fs (Panel.id p)); cbn [orb];
        [reflexivity|].
      rewrite (needs_update_value p false w). cbn [orb].
      unfold bind at 1. rewrite IH.
      destruct (existsb _ rest); [reflexivity|].
      unfold bind at 1. by rewrite (needs_update_value p false w).
Qed.

Lemma faulty_download p w :
  Faulty.download_panel_genes fs api p w
  = if genes_dir_fails fs (Panel.id p) then (Raise OSError, w)
    else download_panel_genes api p w.
Proof.
  unfold Faulty.download_panel_genes, download_panel_genes.
  unfold bind at 1. unfold Faulty.make_genes_dir.
  destruct (genes_dir_fails fs (Panel.id p)); reflexivity.
Qed.

Lemma faulty_extractor_download panel_id w :
  Faulty.extractor_download_panel_genes fs api panel_id w
  = if genes_dir_fails fs panel_id then (Raise OSError, w)
    else extractor_download_panel_genes api panel_id w.
Proof.
  unfold Faulty.extractor_download_panel_genes,
    extractor_download_panel_genes.
  unfold bind at 1. unfold Faulty.make_genes_dir.
  destruct (genes_dir_fails fs panel_id); reflexivity.
Qed.

(** One turn of the loop of [main]: it sends at most 100 requests, and
    at least one when it does not raise; it counts the panel once; and
    it raises only [OSError], from [mkdir] or from the writing of the
    version file. *)
Lemma faulty_turn p successful failed w :
  let run := Faulty.process_panel fs api p (successful, failed) w in
  (∃ urls, requests (snd run) = (requests w ++ urls)%list
           ∧ (length urls ≤ 100)%nat
           ∧ (∀ counts, fst run = Ok counts → (1 ≤ length urls)%nat))
  ∧ panel_list (snd run) = panel_list w
  ∧ match fst run with
    | Ok (successful', failed') =>
        (successful' = S successful ∧ failed' = failed)
        ∨ (successful' = successful ∧ failed' = S failed)
    | Raise e =>
        e = OSError
        ∧ (genes_dir_fails fs (Panel.id p) = true
           ∨ marker_write fs (Panel.id p) ≠ Written)
    end.
Proof.
  cbv zeta. unfold Faulty.process_panel, bind.
  rewrite faulty_download.
  destruct (genes_dir_fails fs (Panel.id p)) eqn:Hdir.
  { cbn [fst snd]. split; [|split; [done|split; [done|by left]]].
    exists []. rewrite app_nil_r. split; [done|].
    split; [cbn; lia|done]. }
  destruct (download_panel_genes_total api p w) as (r & w1 & Hd & Hext).
  pose proof (download_request_count api p w) as (urls & Hreq & Hlen).
  rewrite Hd in Hreq |- *. cbn [snd] in Hreq.
  destruct Hext as (_ & Hlist & _).
  destruct (success r).
  - unfold Faulty.update_panel_version_tracking,
      Faulty.write_version_file.
    destruct (marker_write fs (Panel.id p)) eqn:Hwrite; cbn [fst snd];
      cbn [requests panel_list];
      (split; [exists urls; split; [done|]; split; [lia|intros; lia]|]);
      (split; [done|]).
    + by left.
    + split; [done|]. by right.
    + split; [done|]. by right.
  - unfold ret. cbn [fst snd].
    split; [exists urls; split; [done|]; split; [lia|intros; lia]|].
    split; [done|]. by right.
Qed.

Lemma faulty_pass panels successful failed w :
  let run := Faulty.process_panels fs api panels (successful, failed) w in
  (∃ urls, requests (snd run) = (requests w ++ urls)%list
           ∧ (length urls ≤ 100 * length panels)%nat
           ∧ (∀ counts, fst run = Ok counts →
                        (length panels ≤ length urls)%nat))
  ∧ panel_list (snd run) = panel_list w
  ∧ match fst run with
    | Ok (successful', failed') =>
        (successful' + failed' = successful + failed + length panels)%nat
        ∧ (successful ≤ successful')%nat ∧ (failed ≤ failed')%nat
    | Raise e =>
        e = OSError
        ∧ ∃ p, In p panels
               ∧ (genes_dir_fails fs (Panel.id p) = true
                  ∨ marker_write fs (Panel.id p) ≠ Written)
    end.
Proof.
  cbv zeta. revert successful failed w.
  induction panels as [|p rest IH]; intros successful failed w.
  - cbn. repeat split; try lia. exists []. rewrite app_nil_r.
    repeat split; cbn; lia.
  - cbn [Faulty.process_panels]. unfold bind.
    pose proof (faulty_turn p successful failed w) as Hturn.
    cbv zeta in Hturn.
    destruct (Faulty.process_panel fs api p (successful, failed) w)
      as [[[s1 f1]|e] w1]; cbn [fst snd] in *.
    + destruct Hturn as ((u1 & Hr1 & Hl1 & Hone) & Hlist1 & Hcount).
      specialize (Hone _ eq_refl).
      destruct (IH s1 f1 w1) as ((u2 & Hr2 & Hl2 & Hall) & Hlist2 & Hrest).
      split; [|split; [congruence|]].
      * exists (u1 ++ u2)%list. rewrite Hr2, Hr1, <- app_assoc, length_app.
        cbn [length]. repeat split; [lia|].
        intros counts Hok. specialize (Hall _ Hok). lia.
      * destruct (fst (Faulty.process_panels fs api rest (s1, f1) w1))
          as [[s2 f2]|e].
        -- destruct Hcount as [[-> ->]|[-> ->]]; cbn [length]; lia.
        -- destruct Hrest as (-> & q & Hq & Hfault). split; [done|].
           exists q. split; [by right|done].
    + destruct Hturn as ((u1 & Hr1 & Hl1 & _) & Hlist1 & -> & Hfault).
      split; [|split; [done|]].
      * exists u1. repeat split; [done|cbn [length]; lia|done].
      * split; [done|]. exists p. split; [by left|done].
Qed.


(** C5 (as amended).  A version file that cannot be opened or read makes
    the check answer true, and a catalog file that cannot be opened or
    read makes the loader return the empty catalog, on which [main]
    exits with status 1: these failures are caught where they arise.  A
    failure of the existence check ahead of either read is raised to the
    caller: the check, and with it the filter of [main], raises it, the
    loader raises it, and [main] logs it and exits with status 1. *)
Theorem storage_failure_is_caught p force w :
  (marker_stat_fails fs (Panel.id p) = false →
   version_files w !! Panel.id p = Some Unreadable →
   Faulty.panel_needs_update fs p force w = (Ok true, w))
  ∧ (catalog_stat_fails fs = false →
     ∀ e, panel_list w = Some (Raise e) →
          Faulty.read_panel_data fs w = (Ok [], w)
          ∧ Faulty.main fs api force w = (Ok 1, w))
  ∧ (marker_stat_fails fs (Panel.id p) = true →
     Faulty.panel_needs_update fs p false w = (Raise OSError, w)
     ∧ (∀ panels, In p panels →
                  Faulty.panels_to_update fs panels false w
                  = (Raise OSError, w))
     ∧ (∀ rows, catalog_stat_fails fs = false →
                panel_list w = Some (Ok rows) →
                In p (omap accepted_row rows) →
                Faulty.main fs api false w = (Ok 1, w)))
  ∧ (catalog_stat_fails fs = true →
     Faulty.read_panel_data fs w = (Raise OSError, w)
     ∧ Faulty.main fs api force w = (Ok 1, w)).
Proof.
  split; [|split; [|split]].
  - intros Hstat H. rewrite faulty_needs_update, Hstat, andb_false_r.
    destruct force; [apply needs_update_forced|].
    by apply needs_update_unreadable.
  - intros Hstat e H.
    destruct (unreadable_catalog api force w e H) as [Hread _].
    assert (Hf : Faulty.read_panel_data fs w = (Ok [], w))
      by (by rewrite faulty_read_panel_data, Hstat).
    split; [exact Hf|].
    unfold Faulty.main, try_except, bind. by rewrite Hf.
  - intros Hstat.
    assert (Hplan : ∀ panels, In p panels →
      Faulty.panels_to_update fs panels false w = (Raise OSError, w)).
    { intros panels Hin. rewrite faulty_plan. cbn [negb andb].
      assert (existsb (λ q, marker_stat_fails fs (Panel.id q)) panels
              = true) as ->; [|reflexivity].
      apply existsb_exists. by exists p. }
    split; [by rewrite faulty_needs_update, Hstat|].
    split; [exact Hplan|].
    intros rows Hcat Hrows Hin.
    unfold Faulty.main, try_except. unfold bind at 1.
    rewrite faulty_read_panel_data, Hcat, (read_panel_data_rows _ _ Hrows).
    case_bool_decide as Hnil; [by rewrite Hnil in Hin|].
    unfold bind at 1. by rewrite (Hplan _ Hin).
  - intros Hstat.
    assert (Hf : Faulty.read_panel_data fs w = (Raise OSError, w))
      by (by rewrite faulty_read_panel_data, Hstat).
    split; [exact Hf|].
    unfold Faulty.main, try_except, bind. by rewrite Hf.
Qed.

(** C7.  Writing the marker of a panel and then reading it back, as the
    check reads it, gives the written value exactly, whatever was stored
    before.  The value is one [main] hands over: a field of the catalog,
    which the loader has stripped and which, read from a file opened
    with universal newlines, holds no carriage return. *)
Theorem marker_round_trip p w :
  Str.strip (Panel.version_created p) = Panel.version_created p →
  Str.all_chars not_cr (Panel.version_created p) = true →
  fst (Faulty.update_panel_version_tracking fs p w) = Ok tt →
  let w' := snd (Faulty.update_panel_version_tracking fs p w) in
  read_version_text (Panel.id p) w' = (Ok (Panel.version_created p), w')
  ∧ version_files w' !! Panel.id p
    = Some (Content (Panel.version_created p)).
Proof.
  intros Hstrip Hcr. cbv zeta.
  unfold Faulty.update_panel_version_tracking, Faulty.write_version_file.
  destruct (marker_write fs (Panel.id p)); cbn [fst snd]; [|done|done].
  intros _. unfold read_version_text, bind, read_version_file, ret.
  cbn [version_files]. rewrite lookup_insert_eq.
  by rewrite (universal_newlines_without_cr _ Hcr), Hstrip.
Qed.





(** X16.  A processing pass over [n] panels sends at most [100 n]
    requests to the API, and at least [n] when it comes through: a turn
    that does not raise has sent its first request. *)
Theorem pass_request_bounds panels counts w :
  let run := Faulty.process_panels fs api panels counts w in
  ∃ urls,
    requests (snd run) = (requests w ++ urls)%list
    ∧ (length urls ≤ 100 * length panels)%nat
    ∧ (∀ counts', fst run = Ok counts' →
                  (length panels ≤ length urls)%nat).
Proof.
  destruct counts as [successful failed].
  by destruct (faulty_pass panels successful failed w) as (Hurls & _).
Qed.

End Failures.

(** * The run of the gene script *)

Section ExtractorFailures.

Variable fs : faults.
Variable api : nat → string → result page.
Variable scan : result (option (list (string * bool))).
Variable today : string.
Variable today_stat_fails : bool.
Variable folder_exists : string → result bool.
Variable tsv_stat_fails : string → bool.
Variable tsv_of : string → option (result string).

(** The loop over the panels sends at most 100 requests for each and
    leaves the version files alone; it raises when the directory of a
    panel cannot be made, and otherwise counts every panel once. *)
Lemma faulty_download_all panel_ids successful failed w :
  let run := Faulty.download_all fs api panel_ids (successful, failed) w in
  extends (100 * length panel_ids) w (snd run)
  ∧ if existsb (genes_dir_fails fs) panel_ids
    then fst run = Raise OSError
    else ∃ successful' failed',
           fst run = Ok (successful', failed')
           ∧ (successful' + failed'
              = successful + failed + length panel_ids)%nat.
Proof.
  cbv zeta. revert successful failed w.
  induction panel_ids as [|panel_id rest IH]; intros successful failed w.
  - cbn. split; [apply (extends_refl 0)|].
    exists successful, failed. split; [done|lia].
  - cbn [Faulty.download_all existsb]. unfold bind.
    rewrite faulty_extractor_download.
    destruct (genes_dir_fails fs panel_id); cbn [orb fst snd].
    { split; [apply extends_refl|done]. }
    pose proof (extractor_download_extends api panel_id w) as Hstep.
    assert (Htotal : ∃ downloaded,
      fst (extractor_download_panel_genes api panel_id w) = Ok downloaded).
    { unfold extractor_download_panel_genes, try_except, bind, ret.
      destruct (page_loop _ _ _ _ _) as [[page|e] w']; by eexists. }
    destruct Htotal as [downloaded Hdownloaded].
    destruct (extractor_download_panel_genes api panel_id w) as [r w1].
    cbn [fst snd] in *. subst r.
    destruct downloaded.
    + destruct (IH (S successful) failed w1) as (Hx & Hrest).
      split; [eapply extends_trans;
                [exact Hstep|exact Hx|cbn [length]; lia]|].
      destruct (existsb (genes_dir_fails fs) rest); [done|].
      destruct Hrest as (s' & f' & Hr & Hsum). exists s', f'.
      split; [done|cbn [length]; lia].
    + destruct (IH successful (S failed) w1) as (Hx & Hrest).
      split; [eapply extends_trans;
                [exact Hstep|exact Hx|cbn [length]; lia]|].
      destruct (existsb (genes_dir_fails fs) rest); [done|].
      destruct Hrest as (s' & f' & Hr & Hsum). exists s', f'.
      split; [done|cbn [length]; lia].
Qed.

(** [extract_genes] under the [try] of [main], for a folder that is
    there. *)
Lemma guarded_extract_genes data_folder w :
  let run :=
    try_except
      (do _ <- Faulty.extract_genes fs api scan today today_stat_fails
                 tsv_stat_fails tsv_of (Some data_folder) ;;
       ret 0)%io
      (λ _, ret 1) w in
  if tsv_stat_fails data_folder then run = (Ok 1, w)
  else
    let panel_ids := extractor_read_panel_list (tsv_of data_folder) in
    fst run = Ok (if existsb (genes_dir_fails fs) panel_ids then 1 else 0)
    ∧ extends (100 * length panel_ids) w (snd run).
Proof.
  cbv zeta. unfold Faulty.extract_genes, try_except, bind, lift, ret.
  unfold Faulty.extractor_read_panel_list.
  destruct (tsv_stat_fails data_folder); [reflexivity|].
  case_bool_decide as Hnil.
  - rewrite Hnil. split; [reflexivity|apply (extends_refl 0)].
  - destruct (faulty_download_all
                (extractor_read_panel_list (tsv_of data_folder)) 0 0 w)
      as (Hx & Hr).
    cbv zeta in Hx, Hr.
    destruct (Faulty.download_all fs api _ _ w) as [r w'].
    cbn [fst snd] in *.
    destruct (existsb (genes_dir_fails fs) _).
    + by subst r.
    + destruct Hr as (s' & f' & -> & _). done.
Qed.

(** X30.  [main] of the gene script returns an exit status and raises
    nothing.  It returns 1 when it has no data folder to work on (the
    folder named on the command line is not there, or none is named and
    none is found) and when a call that stands under no [try] raises:
    the existence checks and the listing of the data path, the existence
    check of the panel list, and the making of the directory of a panel.
    In every other case it returns 0, also when the panel list is
    missing, unreadable or empty and when every download has failed.  It
    sends at most 100 requests for each panel of the list and writes no
    version file. *)
Theorem extractor_main_exit_status folder w :
  let run :=
    Faulty.extractor_main fs api scan today today_stat_fails folder_exists
      tsv_stat_fails tsv_of folder w in
  match Faulty.run_folder scan today today_stat_fails folder_exists folder
  with
  | Ok (Some data_folder) =>
      if tsv_stat_fails data_folder then run = (Ok 1, w)
      else
        let panel_ids := extractor_read_panel_list (tsv_of data_folder) in
        fst run
        = Ok (if existsb (genes_dir_fails fs) panel_ids then 1 else 0)
        ∧ extends (100 * length panel_ids) w (snd run)
  | Ok None => run = (Ok 1, w)
  | Raise _ => run = (Ok 1, w)
  end.
Proof.
  cbv zeta. unfold Faulty.extractor_main, Faulty.run_folder.
  assert (Hlatest :
    match Faulty.extractor_find_latest_data_folder scan today
            today_stat_fails with
    | Ok (Some data_folder) =>
        if tsv_stat_fails data_folder
        then try_except
               (do _ <- Faulty.extract_genes fs api scan today
                          today_stat_fails tsv_stat_fails tsv_of None ;;
                ret 0)%io (λ _, ret 1) w = (Ok 1, w)
        else
          fst (try_except
                 (do _ <- Faulty.extract_genes fs api scan today
                            today_stat_fails tsv_stat_fails tsv_of None ;;
                  ret 0)%io (λ _, ret 1) w)
          = Ok (if existsb (genes_dir_fails fs)
                     (extractor_read_panel_list (tsv_of data_folder))
                then 1 else 0)
          ∧ extends
              (100 * length (extractor_read_panel_list (tsv_of data_folder)))
              w
              (snd (try_except
                      (do _ <- Faulty.extract_genes fs api scan today
                                 today_stat_fails tsv_stat_fails tsv_of
                                 None ;;
                       ret 0)%io (λ _, ret 1) w))
    | _ =>
        try_except
          (do _ <- Faulty.extract_genes fs api scan today today_stat_fails
                     tsv_stat_fails tsv_of None ;;
           ret 0)%io (λ _, ret 1) w = (Ok 1, w)
    end).
  { destruct (Faulty.extractor_find_latest_data_folder scan today
                today_stat_fails) as [[data_folder|]|e] eqn:Hfind.
    - pose proof (guarded_extract_genes data_folder w) as Hrun.
      cbv zeta in Hrun.
      unfold Faulty.extract_genes in Hrun |- *. rewrite Hfind.
      exact Hrun.
    - unfold Faulty.extract_genes, try_except, bind, lift.
      by rewrite Hfind.
    - unfold Faulty.extract_genes, try_except, bind, lift.
      by rewrite Hfind. }
  destruct folder as [name|]; [|exact Hlatest].
  destruct (Str.is_empty name); cbn [negb]; [exact Hlatest|].
  unfold try_except. unfold bind at 1. unfold lift at 1.
  destruct (folder_exists name) as [[]|e]; cbn [negb]; [|done|done].
  apply (guarded_extract_genes name).
Qed.

End ExtractorFailures.

(** * The failing calls on concrete runs *)



Lemma storage_failure_is_caught_witness :
  let p := panel_137 "2024-03-01T00:00:00Z" in
  let w := mk_world {[ "137" := Unreadable ]} (Some (Raise OSError)) [] in
  Faulty.panel_needs_update no_faults p false w = (Ok true, w)
  ∧ Faulty.main no_faults one_page_api false w = (Ok 1, w)
  ∧ Faulty.panel_needs_update (unsearchable "137") p false w
    = (Raise OSError, w)
  ∧ Faulty.main unsearchable_folder one_page_api false w = (Ok 1, w).
Proof.
  destruct (storage_failure_is_caught no_faults one_page_api
              (panel_137 "2024-03-01T00:00:00Z") false
              (mk_world {[ "137" := Unreadable ]} (Some (Raise OSError)) []))
    as (Hmarker & Hcatalog & _).
  destruct (storage_failure_is_caught (unsearchable "137") one_page_api
              (panel_137 "2024-03-01T00:00:00Z") false
              (mk_world {[ "137" := Unreadable ]} (Some (Raise OSError)) []))
    as (_ & _ & Hstat & _).
  destruct (storage_failure_is_caught unsearchable_folder one_page_api
              (panel_137 "2024-03-01T00:00:00Z") false
              (mk_world {[ "137" := Unreadable ]} (Some (Raise OSError)) []))
    as (_ & _ & _ & Hfolder).
  split; [apply Hmarker; reflexivity|].
  split; [apply (Hcatalog eq_refl OSError); reflexivity|].
  split; [apply Hstat; reflexivity|].
  apply Hfolder. reflexivity.
Defined.

Lemma marker_round_trip_witness :
  let p := panel_137 "2024-03-01T00:00:00Z" in
  let w' :=
    snd (Faulty.update_panel_version_tracking no_faults p
           (one_marker "137" "2023-01-01T00:00:00Z")) in
  read_version_text "137" w' = (Ok "2024-03-01T00:00:00Z", w')
  ∧ version_files w' !! "137" = Some (Content "2024-03-01T00:00:00Z").
Proof.
  apply (marker_round_trip no_faults (panel_137 "2024-03-01T00:00:00Z")
           (one_marker "137" "2023-01-01T00:00:00Z")); reflexivity.
Defined.




Lemma pass_request_bounds_witness :
  let run :=
    Faulty.process_panels no_faults one_page_api
      [panel_137 "2024-03-01T00:00:00Z"; panel_of "22" "2024-01-01T00:00:00Z"]
      (0, 0)%nat (mk_world ∅ None []) in
  ∃ urls,
    requests (snd run) = ([] ++ urls)%list
    ∧ (length urls ≤ 100 * 2)%nat
    ∧ (∀ counts', fst run = Ok counts' → (2 ≤ length urls)%nat).
Proof.
  apply (pass_request_bounds no_faults one_page_api
           [panel_137 "2024-03-01T00:00:00Z";
            panel_of "22" "2024-01-01T00:00:00Z"]
           (0, 0)%nat (mk_world ∅ None [])).
Defined.

(** A catalog of one panel, whose download would succeed: [main] exits
    with status 1 without a request when the directory for the pages
    cannot be made, and after the download, with no version file
    written, when the version file cannot be opened. *)
Example main_without_genes_dir :
  Faulty.main (no_genes_dir "137") one_page_api false (catalog_of [full_row])
  = (Ok 1, catalog_of [full_row]).
Proof. vm_compute. reflexivity. Qed.

Example main_with_read_only_marker :
  let run :=
    Faulty.main (read_only_marker "137") one_page_api false
      (catalog_of [full_row]) in
  fst run = Ok 1
  ∧ requests (snd run) = [gene_url "137"]
  ∧ version_files (snd run) = ∅.
Proof. vm_compute. repeat split. Qed.

(** The gene script with one dated folder of two panels: [main] returns
    0 though every download fails, and 1 when the directory of the
    second panel cannot be made. *)
Example extractor_main_statuses :
  let scan := Ok (Some [("20240301", true)]) in
  let tsv := λ _ : string,
    Some (Ok (tsv_header +:+ "137" +:+ String "010" "22" +:+ String "010" "")) in
  let run fs :=
    Faulty.extractor_main fs (λ _ _, Raise RequestException) scan "20260101"
      false (λ _, Ok true) (λ _, false) tsv None (mk_world ∅ None []) in
  fst (run no_faults) = Ok 0
  ∧ length (requests (snd (run no_faults))) = 2%nat
  ∧ fst (run (no_genes_dir "22")) = Ok 1
  ∧ length (requests (snd (run (no_genes_dir "22")))) = 1%nat.
Proof. vm_compute. repeat split. Qed.
